(** * cloudflare-go: request construction and envelope decoding

    A shallow embedding of [cloudflare.go] (package [cloudflare]): the
    query-string construction of [DNSRecordsSvc.Search], the request URLs of
    the record operations, the JSON serialisation of [DNSRecord] and the
    two-stage envelope decoder [BaseSvc.Decode], together with the parts of
    Go's [net/url] and [encoding/json] these functions call.

    Go strings are byte strings: they are modelled by [string], whose
    characters are the 256 values of [ascii].  Go's [int] is modelled by [Z]
    (the comparisons of [Search] do not depend on its width). *)

From stdpp Require Import gmap strings list fin_maps sorting.
From Stdlib Require Import ZArith NArith Lia Ascii String.

Open Scope string_scope.

(** ** Constants of the package *)

Definition ContentTypeApplicationJson : string := "application/json".
Definition ApiUrlBase : string := "https://api.cloudflare.com/client/v4".
Definition APiUrlZones : string := "/zones/".
Definition ApiUrlDnsRecords : string := "/dns_records/".

(** ** Bytes *)

Definition byteval (c : ascii) : N := N_of_ascii c.

(** [lo <= c <= hi] on bytes. *)
Definition inRange (lo hi c : ascii) : bool :=
  (byteval lo <=? byteval c)%N && (byteval c <=? byteval hi)%N.

Definition isDigit (c : ascii) : bool := inRange "0" "9" c.

(** The double quote. *)
Definition dquote : ascii := "034"%char.

(** ** net/url: query escaping and [url.Values] *)

Module url.

(** [shouldEscape(c, encodeQueryComponent)]: letters, digits and the marks
    [-_.~] are kept, every other byte (the reserved characters included) is
    escaped. *)
Definition shouldEscape (c : ascii) : bool :=
  if inRange "a" "z" c || inRange "A" "Z" c || inRange "0" "9" c then false
  else if Ascii.eqb c "-" || Ascii.eqb c "_" || Ascii.eqb c "." || Ascii.eqb c "~"
  then false
  else true.

(** [upperhex[n]] for [n < 16]. *)
Definition upperhex (n : N) : ascii :=
  if (n <? 10)%N then ascii_of_N (48 + n) else ascii_of_N (55 + n).

(** [escape(s, encodeQueryComponent)]: a space becomes [+], any other
    escaped byte [c] becomes [%] followed by the two upper-case hexadecimal
    digits of [c]. *)
Fixpoint QueryEscape (s : string) : string :=
  match s with
  | EmptyString => EmptyString
  | String c s' =>
      if shouldEscape c then
        if Ascii.eqb c " " then String "+" (QueryEscape s')
        else String "%" (String (upperhex (N.shiftr (byteval c) 4))
               (String (upperhex (N.land (byteval c) 15)) (QueryEscape s')))
      else String c (QueryEscape s')
  end.

(** [type Values map[string][]string] *)
Abbreviation Values := (gmap string (list string)).

(** [v.Add(key, value)]: [v[key] = append(v[key], value)]. *)
Definition Add (key value : string) (v : Values) : Values :=
  <[key := (default [] (v !! key) ++ [value])%list]> v.

(** The inner loop of [Encode]: the values of one key are appended to the
    buffer, each preceded by [&] unless the buffer is still empty. *)
Definition writeKey (keyEscaped : string) (vs : list string) (buf : string) : string :=
  foldl (fun buf v =>
           (if decide (buf = "") then buf else buf +:+ "&")
             +:+ keyEscaped +:+ "=" +:+ QueryEscape v) buf vs.

(** [v.Encode()]: the keys are sorted ([slices.Sort] orders strings
    bytewise, as [String.le] does), and the pairs written in that order. *)
Definition Encode (v : Values) : string :=
  let keys := merge_sort String.le (fst <$> map_to_list v) in
  foldl (fun buf k => writeKey (QueryEscape k) (default [] (v !! k)) buf) "" keys.

End url.


(** ** unicode/utf8 *)

Module utf8.

Definition RuneError : N := 65533.      (* U+FFFD *)
Definition MaxRune : N := 1114111.      (* U+10FFFF *)

(** Continuation bytes are [0x80..0xBF]. *)
Definition cont (b : ascii) : bool := inRange "128" "191" b.

(** The range [acceptRanges] gives the second byte after the lead byte
    [b0] of a sequence of more than one byte. *)
Definition accept (b0 b1 : ascii) : bool :=
  if Ascii.eqb b0 "224" then inRange "160" "191" b1
  else if Ascii.eqb b0 "237" then inRange "128" "159" b1
  else if Ascii.eqb b0 "240" then inRange "144" "191" b1
  else if Ascii.eqb b0 "244" then inRange "128" "143" b1
  else cont b1.

(** The size that the table [first] gives a lead byte: 1 for ASCII, 0 for
    a byte that starts no sequence. *)
Definition leadSize (b0 : ascii) : nat :=
  if (byteval b0 <? 128)%N then 1
  else if inRange "194" "223" b0 then 2
  else if inRange "224" "239" b0 then 3
  else if inRange "240" "244" b0 then 4
  else 0.

Definition low6 (b : ascii) : N := N.land (byteval b) 63.

(** [utf8.DecodeRune] on the bytes at the head of a string, [None]
    standing for a byte beyond its end. *)
Definition decode (b0 : ascii) (o1 o2 o3 : option ascii) : N * nat :=
  match leadSize b0 with
  | 0 => (RuneError, 1)
  | 1 => (byteval b0, 1)
  | sz =>
      match o1 with
      | None => (RuneError, 1)
      | Some b1 =>
          if negb (accept b0 b1) then (RuneError, 1)
          else if (sz <=? 2)%nat
          then (N.lor (N.shiftl (N.land (byteval b0) 31) 6) (low6 b1), 2)
          else
            match o2 with
            | None => (RuneError, 1)
            | Some b2 =>
                if negb (cont b2) then (RuneError, 1)
                else if (sz <=? 3)%nat
                then (N.lor (N.lor (N.shiftl (N.land (byteval b0) 15) 12)
                               (N.shiftl (low6 b1) 6)) (low6 b2), 3)
                else
                  match o3 with
                  | None => (RuneError, 1)
                  | Some b3 =>
                      if negb (cont b3) then (RuneError, 1)
                      else (N.lor (N.lor (N.lor (N.shiftl (N.land (byteval b0) 7) 18)
                                             (N.shiftl (low6 b1) 12))
                                     (N.shiftl (low6 b2) 6)) (low6 b3), 4)
                  end
            end
      end
  end.

Definition head (s : string) : option ascii :=
  match s with EmptyString => None | String c _ => Some c end.

Definition tail (s : string) : string :=
  match s with EmptyString => EmptyString | String _ t => t end.

Definition DecodeRune (s : string) : N * nat :=
  match s with
  | EmptyString => (RuneError, 0)
  | String b0 t => decode b0 (head t) (head (tail t)) (head (tail (tail t)))
  end.

Definition byte (n : N) : ascii := ascii_of_N (n mod 256).

(** [utf8.EncodeRune] / [utf8.AppendRune] *)
Definition EncodeRune (r : N) : string :=
  let enc3 (r : N) :=
    String (byte (N.lor 224 (N.shiftr r 12)))
      (String (byte (N.lor 128 (N.land (N.shiftr r 6) 63)))
         (String (byte (N.lor 128 (N.land r 63))) EmptyString)) in
  if (r <=? 127)%N then String (byte r) EmptyString
  else if (r <=? 2047)%N then
    String (byte (N.lor 192 (N.shiftr r 6)))
      (String (byte (N.lor 128 (N.land r 63))) EmptyString)
  else if (MaxRune <? r)%N || ((55296 <=? r)%N && (r <=? 57343)%N) then enc3 RuneError
  else if (r <=? 65535)%N then enc3 r
  else
    String (byte (N.lor 240 (N.shiftr r 18)))
      (String (byte (N.lor 128 (N.land (N.shiftr r 12) 63)))
         (String (byte (N.lor 128 (N.land (N.shiftr r 6) 63)))
            (String (byte (N.lor 128 (N.land r 63))) EmptyString))).

End utf8.

(** [n] bytes from the head of [s], and what follows them. *)
Fixpoint takeBytes (n : nat) (s : string) : string :=
  match n, s with
  | S n', String c s' => String c (takeBytes n' s')
  | _, _ => EmptyString
  end.

Fixpoint dropBytes (n : nat) (s : string) : string :=
  match n, s with
  | S n', String _ s' => dropBytes n' s'
  | _, _ => s
  end.

(** ** encoding/json: texts and values *)

Module json.

(** *** Errors *)

(** The three ways the scanner rejects a text. *)
Inductive scanError :=
| UnexpectedEnd        (* "unexpected end of JSON input" *)
| InvalidCharacter     (* "invalid character ..." *)
| ExceededMaxDepth.    (* "exceeded max depth" *)

(** The [error] values the package's operations can return.  Offsets and
    field paths of the Go error values are not recorded. *)
Inductive error :=
| EOF                                            (* io.EOF *)
| ErrUnexpectedEOF                               (* io.ErrUnexpectedEOF *)
| SyntaxError (msg : scanError)                  (* *json.SyntaxError *)
| UnmarshalTypeError (Value : string) (GoType : string)
| TransportError (msg : string).                 (* reported by net/http *)

(** Result of a scanning step: what was read and the rest of the text. *)
Inductive scan (A : Type) :=
| Fail (e : scanError)
| Ok (a : A) (rest : string).
Arguments Fail {A} e.
Arguments Ok {A} a rest.

Definition bind {A B} (m : scan A) (f : A -> string -> scan B) : scan B :=
  match m with
  | Fail e => Fail e
  | Ok a rest => f a rest
  end.

Definition mapOk {A B} (f : A -> B) (m : scan A) : scan B :=
  bind m (fun a rest => Ok (f a) rest).

(** *** Values *)

(** A JSON value.  A number keeps its literal; a string and an object key
    hold the bytes the literal denotes. *)
#[warnings="-register-all"]
Inductive value :=
| Null
| Bool (b : bool)
| Number (lit : string)
| Str (s : string)
| Array (elems : list value)
| Object (members : list (string * value)).

(** *** String literals, written *)

Definition hex (n : N) : ascii :=
  if (n <? 10)%N then ascii_of_N (48 + n) else ascii_of_N (87 + n).

(** [htmlSafeSet]: the ASCII bytes [appendString] copies unchanged when
    HTML escaping is on, as it is in [json.Marshal]. *)
Definition htmlSafe (b : ascii) : bool :=
  (32 <=? byteval b)%N && (byteval b <? 128)%N
  && negb (Ascii.eqb b dquote) && negb (Ascii.eqb b "\")
  && negb (Ascii.eqb b "<") && negb (Ascii.eqb b ">") && negb (Ascii.eqb b "&").

(** What [appendString] writes for an ASCII byte outside [htmlSafeSet]. *)
Definition escapeByte (b : ascii) : string :=
  if Ascii.eqb b "\" || Ascii.eqb b dquote then String "\" (String b EmptyString)
  else if Ascii.eqb b "008" then "\b"
  else if Ascii.eqb b "012" then "\f"
  else if Ascii.eqb b "010" then "\n"
  else if Ascii.eqb b "013" then "\r"
  else if Ascii.eqb b "009" then "\t"
  else "\u00" +:+ String (hex (N.shiftr (byteval b) 4))
                   (String (hex (N.land (byteval b) 15)) EmptyString).

(** The loop of [appendString], inRange the two quotes.  [fuel] bounds the
    number of iterations; the length of the string is enough. *)
Fixpoint appendStringBody (fuel : nat) (src : string) : string :=
  match fuel, src with
  | S fuel', String b src' =>
      if (byteval b <? 128)%N then
        (if htmlSafe b then String b EmptyString else escapeByte b)
          +:+ appendStringBody fuel' src'
      else
        let '(c, size) := utf8.DecodeRune src in
        if (c =? utf8.RuneError)%N && (size =? 1)%nat then
          "\" +:+ "ufffd" +:+ appendStringBody fuel' src'
        else if (c =? 8232)%N || (c =? 8233)%N then
          "\u202" +:+ String (hex (N.land c 15))
                       (appendStringBody fuel' (dropBytes size src))
        else takeBytes size src +:+ appendStringBody fuel' (dropBytes size src)
  | _, _ => EmptyString
  end.

Definition appendString (src : string) : string :=
  String dquote (appendStringBody (String.length src) src +:+ String dquote EmptyString).

(** *** String literals, read *)

Definition hexval (c : ascii) : option N :=
  if inRange "0" "9" c then Some (byteval c - 48)%N
  else if inRange "a" "f" c then Some (byteval c - 87)%N
  else if inRange "A" "F" c then Some (byteval c - 55)%N
  else None.

(** Four hexadecimal digits at the head of [s]. *)
Definition hex4 (s : string) : option (N * string) :=
  match s with
  | String a (String b (String c (String d rest))) =>
      match hexval a, hexval b, hexval c, hexval d with
      | Some x, Some y, Some z, Some w =>
          Some ((((x * 16 + y) * 16 + z) * 16 + w)%N, rest)
      | _, _, _, _ => None
      end
  | _ => None
  end.

(** [getu4]: the value of a [\uXXXX] escape at the head of [s]. *)
Definition getu4 (s : string) : option (N * string) :=
  match s with
  | String c (String u s') =>
      if Ascii.eqb c "\" && Ascii.eqb u "u" then hex4 s' else None
  | _ => None
  end.

Definition isSurrogate (r : N) : bool := (55296 <=? r)%N && (r <? 57344)%N.

(** [utf16.DecodeRune] *)
Definition utf16DecodeRune (r1 r2 : N) : N :=
  if (55296 <=? r1)%N && (r1 <? 56320)%N && (56320 <=? r2)%N && (r2 <? 57344)%N
  then (N.lor (N.shiftl (r1 - 55296) 10) (r2 - 56320) + 65536)%N
  else utf8.RuneError.

(** Is [s] cut short inside a [\uXXXX] escape whose first characters have
    been read?  Tells a text that ends too early from one with a wrong
    character. *)
Fixpoint hexPrefix (n : nat) (s : string) : scanError :=
  match n, s with
  | S n', String c s' =>
      match hexval c with
      | Some _ => hexPrefix n' s'
      | None => InvalidCharacter
      end
  | _, _ => UnexpectedEnd
  end.

(** The scanner's check of a string literal together with [unquoteBytes]:
    [s] is the text after the opening quote; the result is the string the
    literal denotes and the text after the closing quote. *)
Fixpoint unquoteBody (fuel : nat) (s : string) : scan string :=
  match fuel, s with
  | S fuel', String c s' =>
      if Ascii.eqb c dquote then Ok EmptyString s'
      else if Ascii.eqb c "\" then
        match s' with
        | EmptyString => Fail UnexpectedEnd
        | String e s'' =>
            let plain (b : ascii) := mapOk (String b) (unquoteBody fuel' s'') in
            if Ascii.eqb e dquote || Ascii.eqb e "\" || Ascii.eqb e "/" then plain e
            else if Ascii.eqb e "b" then plain "008"%char
            else if Ascii.eqb e "f" then plain "012"%char
            else if Ascii.eqb e "n" then plain "010"%char
            else if Ascii.eqb e "r" then plain "013"%char
            else if Ascii.eqb e "t" then plain "009"%char
            else if Ascii.eqb e "u" then
              match hex4 s'' with
              | None => Fail (hexPrefix 4 s'')
              | Some (rr, s3) =>
                  if isSurrogate rr then
                    match getu4 s3 with
                    | Some (rr1, s4) =>
                        let dec := utf16DecodeRune rr rr1 in
                        if negb (dec =? utf8.RuneError)%N
                        then mapOk (String.append (utf8.EncodeRune dec))
                               (unquoteBody fuel' s4)
                        else mapOk (String.append (utf8.EncodeRune utf8.RuneError))
                               (unquoteBody fuel' s3)
                    | None => mapOk (String.append (utf8.EncodeRune utf8.RuneError))
                                (unquoteBody fuel' s3)
                    end
                  else mapOk (String.append (utf8.EncodeRune rr)) (unquoteBody fuel' s3)
              end
            else Fail InvalidCharacter
        end
      else if (byteval c <? 32)%N then Fail InvalidCharacter
      else if (byteval c <? 128)%N then mapOk (String c) (unquoteBody fuel' s')
      else
        let '(rr, size) := utf8.DecodeRune s in
        mapOk (String.append (utf8.EncodeRune rr)) (unquoteBody fuel' (dropBytes size s))
  | _, _ => Fail UnexpectedEnd
  end.

(** A string literal whose opening quote has been read. *)
Definition unquote (s : string) : scan string := unquoteBody (String.length s) s.

(** The string that writing and reading back turns [s] into: every byte
    that belongs to no well-formed UTF-8 sequence becomes U+FFFD. *)
Fixpoint coerceUTF8 (fuel : nat) (s : string) : string :=
  match fuel, s with
  | S fuel', String b s' =>
      let '(c, size) := utf8.DecodeRune s in
      if (c =? utf8.RuneError)%N && (size =? 1)%nat
      then utf8.EncodeRune utf8.RuneError +:+ coerceUTF8 fuel' s'
      else takeBytes size s +:+ coerceUTF8 fuel' (dropBytes size s)
  | _, _ => EmptyString
  end.

Definition toValidUTF8 (s : string) : string := coerceUTF8 (String.length s) s.

(** A Go string that holds well-formed UTF-8. *)
Definition validUTF8 (s : string) : Prop := toValidUTF8 s = s.

(** *** Numbers *)

(** The digits at the head of [s], and what follows them. *)
Fixpoint spanDigits (s : string) : string * string :=
  match s with
  | String c s' =>
      if isDigit c then let '(ds, r) := spanDigits s' in (String c ds, r)
      else (EmptyString, s)
  | EmptyString => (EmptyString, EmptyString)
  end.

(** One or more digits. *)
Definition digits1 (s : string) : scan string :=
  match s with
  | EmptyString => Fail UnexpectedEnd
  | String c _ =>
      if isDigit c then let '(ds, r) := spanDigits s in Ok ds r
      else Fail InvalidCharacter
  end.

(** The integer part: [0], or a digit from 1 to 9 and more digits. *)
Definition scanInt (s : string) : scan string :=
  match s with
  | EmptyString => Fail UnexpectedEnd
  | String c s' =>
      if Ascii.eqb c "0" then Ok "0" s'
      else if inRange "1" "9" c then let '(ds, r) := spanDigits s' in Ok (String c ds) r
      else Fail InvalidCharacter
  end.

Definition scanFrac (s : string) : scan string :=
  match s with
  | String c s' =>
      if Ascii.eqb c "." then mapOk (String c) (digits1 s') else Ok EmptyString s
  | EmptyString => Ok EmptyString s
  end.

Definition scanExp (s : string) : scan string :=
  match s with
  | String e s' =>
      if Ascii.eqb e "e" || Ascii.eqb e "E" then
        match s' with
        | String g s'' =>
            if Ascii.eqb g "+" || Ascii.eqb g "-"
            then mapOk (fun ds => String e (String g ds)) (digits1 s'')
            else mapOk (String e) (digits1 s')
        | EmptyString => Fail UnexpectedEnd
        end
      else Ok EmptyString s
  | EmptyString => Ok EmptyString s
  end.

(** A number literal at the head of [s]. *)
Definition scanNumber (s : string) : scan string :=
  let '(sign, s1) := match s with
                     | String c t => if Ascii.eqb c "-" then ("-", t) else (EmptyString, s)
                     | EmptyString => (EmptyString, s)
                     end in
  bind (scanInt s1) (fun i r1 =>
  bind (scanFrac r1) (fun f r2 =>
  bind (scanExp r2) (fun e r3 =>
  Ok (sign +:+ i +:+ f +:+ e) r3))).

(** *** The scanner, as a recursive-descent reader of values *)

Definition isSpace (c : ascii) : bool :=
  Ascii.eqb c " " || Ascii.eqb c "009" || Ascii.eqb c "013" || Ascii.eqb c "010".

Fixpoint skipSpace (s : string) : string :=
  match s with
  | String c s' => if isSpace c then skipSpace s' else s
  | EmptyString => EmptyString
  end.

(** The characters of [kw] at the head of [s]. *)
Fixpoint expect (kw s : string) : scan unit :=
  match kw with
  | EmptyString => Ok tt s
  | String k kw' =>
      match s with
      | EmptyString => Fail UnexpectedEnd
      | String c s' => if Ascii.eqb c k then expect kw' s' else Fail InvalidCharacter
      end
  end.

Definition maxNestingDepth : N := 10000.

(** [readValue fuel depth s] reads the value at the head of [s], which
    starts with no white space; [depth] counts the arrays and objects that
    are open.  [readMembers] reads the members of an object up to its
    closing brace, [readElems] the elements of an array up to its closing
    bracket.  [readValue] and [readMembers] read at least one character
    before they call on, and [readElems] hands its text to [readValue] as
    it is: fuel above twice the length of the text is never used up. *)
Fixpoint readValue (fuel : nat) (depth : N) (s : string) : scan value :=
  match fuel with
  | 0 => Fail UnexpectedEnd
  | S fuel' =>
      match s with
      | EmptyString => Fail UnexpectedEnd
      | String c s' =>
          if Ascii.eqb c "{" then
            if (maxNestingDepth <? depth + 1)%N then Fail ExceededMaxDepth
            else
              match skipSpace s' with
              | String c r =>
                  if Ascii.eqb c "}" then Ok (Object []) r
                  else mapOk Object (readMembers fuel' (depth + 1)%N (String c r))
              | EmptyString => Fail UnexpectedEnd
              end
          else if Ascii.eqb c "[" then
            if (maxNestingDepth <? depth + 1)%N then Fail ExceededMaxDepth
            else
              match skipSpace s' with
              | String c r =>
                  if Ascii.eqb c "]" then Ok (Array []) r
                  else mapOk Array (readElems fuel' (depth + 1)%N (String c r))
              | EmptyString => Fail UnexpectedEnd
              end
          else if Ascii.eqb c dquote then mapOk Str (unquote s')
          else if Ascii.eqb c "t" then mapOk (fun _ => Bool true) (expect "rue" s')
          else if Ascii.eqb c "f" then mapOk (fun _ => Bool false) (expect "alse" s')
          else if Ascii.eqb c "n" then mapOk (fun _ => Null) (expect "ull" s')
          else if Ascii.eqb c "-" || isDigit c then mapOk Number (scanNumber s)
          else Fail InvalidCharacter
      end
  end
with readMembers (fuel : nat) (depth : N) (s : string) : scan (list (string * value)) :=
  match fuel with
  | 0 => Fail UnexpectedEnd
  | S fuel' =>
      match s with
      | EmptyString => Fail UnexpectedEnd
      | String c s' =>
          if negb (Ascii.eqb c dquote) then Fail InvalidCharacter
          else
            bind (unquote s') (fun key r =>
            match skipSpace r with
            | EmptyString => Fail UnexpectedEnd
            | String colon r1 =>
                if negb (Ascii.eqb colon ":") then Fail InvalidCharacter
                else
                  bind (readValue fuel' depth (skipSpace r1)) (fun v r2 =>
                  match skipSpace r2 with
                  | EmptyString => Fail UnexpectedEnd
                  | String c r3 =>
                      if Ascii.eqb c "," then
                        mapOk (cons (key, v)) (readMembers fuel' depth (skipSpace r3))
                      else if Ascii.eqb c "}" then Ok [(key, v)] r3
                      else Fail InvalidCharacter
                  end)
            end)
      end
  end
with readElems (fuel : nat) (depth : N) (s : string) : scan (list value) :=
  match fuel with
  | 0 => Fail UnexpectedEnd
  | S fuel' =>
      bind (readValue fuel' depth s) (fun v r =>
      match skipSpace r with
      | EmptyString => Fail UnexpectedEnd
      | String c r1 =>
          if Ascii.eqb c "," then mapOk (cons v) (readElems fuel' depth (skipSpace r1))
          else if Ascii.eqb c "]" then Ok [v] r1
          else Fail InvalidCharacter
      end)
  end.

(** The first value of a text, after leading white space. *)
Definition scanValue (data : string) : scan value :=
  readValue (S (2 * String.length data)) 0 (skipSpace data).

(** [checkValid] followed by the reading of the value: the whole of [data]
    has to be one value, white space aside. *)
Definition parse (data : string) : error + value :=
  match scanValue data with
  | Fail e => inl (SyntaxError e)
  | Ok v rest =>
      match skipSpace rest with
      | EmptyString => inr v
      | _ => inl (SyntaxError InvalidCharacter)
      end
  end.

(** *** Values, written *)

(** The compact text of the encoder. *)
Fixpoint render (v : value) : string :=
  match v with
  | Null => "null"
  | Bool true => "true"
  | Bool false => "false"
  | Number lit => lit
  | Str s => appendString s
  | Array elems => "[" +:+ String.concat "," (map render elems) +:+ "]"
  | Object members =>
      "{" +:+ String.concat ","
                (map (fun m => appendString m.1 +:+ ":" +:+ render m.2) members)
          +:+ "}"
  end.

(** *** Go values, written *)

(** A Go type that [Marshal] can write: the value the encoder writes for
    it, and [isEmptyValue], which decides whether an [omitempty] field is
    left out. *)
Class Marshaler (T : Type) := {
  isEmptyValue : T -> bool;
  encode : T -> value
}.

(** A field of a struct type [S] as the encoder sees it: its JSON name,
    its [omitempty] option, and the field's value read from the struct. *)
Record encField (S : Type) := EncField {
  ename : string;
  eomitempty : bool;
  eempty : S -> bool;
  evalue : S -> value
}.
Arguments ename {S}. Arguments eomitempty {S}.
Arguments eempty {S}. Arguments evalue {S}.

(** The struct encoder: the fields in order of declaration, an
    [omitempty] field left out when its value is empty. *)
Definition encodeStruct {S} (fields : list (encField S)) (s : S) : value :=
  Object (flat_map (fun f => if eomitempty f && eempty f s then []
                             else [(ename f, evalue f s)]) fields).

(** The loop of [strconv]'s [formatBits] in base 10: the digits are
    written from the last to the first, in front of [acc].  The number of
    digits of [n] less one is enough fuel. *)
Fixpoint formatBits (fuel : nat) (n : N) (acc : string) : string :=
  match fuel with
  | 0 => String (ascii_of_N (48 + n mod 10)) acc
  | S fuel' =>
      if (n <? 10)%N then String (ascii_of_N (48 + n mod 10)) acc
      else formatBits fuel' (n / 10) (String (ascii_of_N (48 + n mod 10)) acc)
  end.

(** [strconv.FormatUint(n, 10)] *)
Definition FormatUint (n : N) : string := formatBits (N.to_nat (N.log2 n)) n EmptyString.

(** *** Go values, read *)

(** [d.saveError]: the first error is the one kept. *)
Definition saveError (saved new : option error) : option error :=
  match saved with
  | Some _ => saved
  | None => new
  end.

(** The [Value] of the [UnmarshalTypeError] for a value that does not fit
    the Go type. *)
Definition describe (v : value) : string :=
  match v with
  | Null => "null"
  | Bool _ => "bool"
  | Number _ => "number"
  | Str _ => "string"
  | Array _ => "array"
  | Object _ => "object"
  end.

(** A Go type that [Unmarshal] can fill: [store v t] is [d.value] on a
    target holding [t], and gives the target afterwards and the error
    saved on the way.  Decoding goes on after a value that does not fit. *)
Class Unmarshaler (T : Type) := {
  zero : T;
  typeName : string;
  store : value -> T -> T * option error
}.

Definition mismatch {T} `{Unmarshaler T} (v : value) (t : T) : T * option error :=
  (t, Some (UnmarshalTypeError (describe v) (typeName (T := T)))).

(** A field of a struct type [S] as the decoder sees it. *)
Record decField (S : Type) := DecField {
  dname : string;
  dstore : value -> S -> S * option error
}.
Arguments dname {S}. Arguments dstore {S}.

Definition upper (c : ascii) : ascii :=
  if inRange "a" "z" c then ascii_of_N (byteval c - 32) else c.

(** [foldRune]: the smallest rune of the case-folding orbit.  Outside
    ASCII only the two runes that fold to an ASCII letter are mapped,
    U+017F to [S] and U+212A to [K]; the others are left as they are,
    which is the same for the comparison with an ASCII field name. *)
Definition foldRune (r : N) : N :=
  if (r =? 383)%N then 83%N else if (r =? 8490)%N then 75%N else r.

Fixpoint foldNameBody (fuel : nat) (s : string) : string :=
  match fuel, s with
  | S fuel', String c s' =>
      if (byteval c <? 128)%N then String (upper c) (foldNameBody fuel' s')
      else
        let '(r, size) := utf8.DecodeRune s in
        utf8.EncodeRune (foldRune r) +:+ foldNameBody fuel' (dropBytes size s)
  | _, _ => EmptyString
  end.

Definition foldName (s : string) : string := foldNameBody (String.length s) s.

(** The field a key names: the one with exactly that name, else the
    first whose name is the same up to case. *)
Definition findField {S} (fields : list (decField S)) (key : string)
  : option (decField S) :=
  match find (fun f => String.eqb (dname f) key) fields with
  | Some f => Some f
  | None => find (fun f => String.eqb (foldName (dname f)) (foldName key)) fields
  end.

(** One member of an object, stored into the struct: the value of a key
    that names no field is skipped. *)
Definition storeMember {S} (fields : list (decField S))
    (acc : S * option error) (member : string * value) : S * option error :=
  match findField fields member.1 with
  | Some f => let '(s', e) := dstore f member.2 acc.1 in (s', saveError acc.2 e)
  | None => acc
  end.

(** [d.object] and [d.literalStore] on a struct: [null] leaves it as
    it is, an object fills the fields its keys name, in order. *)
Definition storeStruct {S} (name : string) (fields : list (decField S))
    (v : value) (s : S) : S * option error :=
  match v with
  | Null => (s, None)
  | Object members => foldl (storeMember fields) (s, None) members
  | _ => (s, Some (UnmarshalTypeError (describe v) name))
  end.

(** A struct field of Go type [T], with tag name [name], read by [get] and
    written by [set]. *)
Definition field {S T} `{Marshaler T} `{Unmarshaler T}
    (name : string) (omitempty : bool) (get : S -> T) (set : T -> S -> S)
  : encField S * decField S :=
  ({| ename := name; eomitempty := omitempty;
      eempty := fun s => isEmptyValue (get s);
      evalue := fun s => encode (get s) |},
   {| dname := name;
      dstore := fun v s => let '(x, e) := store v (get s) in (set x s, e) |}).

(** A field that is only ever read from JSON. *)
Definition inField {S T} `{Unmarshaler T}
    (name : string) (get : S -> T) (set : T -> S -> S) : decField S :=
  {| dname := name;
     dstore := fun v s => let '(x, e) := store v (get s) in (set x s, e) |}.

(** **** bool *)

#[global] Instance bool_Marshaler : Marshaler bool :=
  {| isEmptyValue := negb; encode := Bool |}.

#[global] Instance bool_Unmarshaler : Unmarshaler bool :=
  {| zero := false; typeName := "bool";
     store := fun v b =>
       match v with
       | Null => (b, None)
       | Bool x => (x, None)
       | _ => (b, Some (UnmarshalTypeError (describe v) "bool"))
       end |}.

(** **** string *)

#[global] Instance string_Marshaler : Marshaler string :=
  {| isEmptyValue := fun s => (String.length s =? 0)%nat; encode := Str |}.

#[global] Instance string_Unmarshaler : Unmarshaler string :=
  {| zero := EmptyString; typeName := "string";
     store := fun v s =>
       match v with
       | Null => (s, None)
       | Str x => (x, None)
       | _ => (s, Some (UnmarshalTypeError (describe v) "string"))
       end |}.

(** **** uint64, a natural number below [2^64] *)

Definition uint64 := N.

Definition maxUint64 : N := 18446744073709551615.

Fixpoint digitsValue (acc : N) (s : string) : option N :=
  match s with
  | EmptyString => Some acc
  | String c s' =>
      if isDigit c then digitsValue (acc * 10 + (byteval c - 48))%N s' else None
  end.

(** [strconv.ParseUint(s, 10, 64)]: digits only, and in range. *)
Definition ParseUint (s : string) : option N :=
  match s with
  | EmptyString => None
  | _ =>
      match digitsValue 0 s with
      | Some n => if (n <=? maxUint64)%N then Some n else None
      | None => None
      end
  end.

#[global] Instance uint64_Marshaler : Marshaler uint64 :=
  {| isEmptyValue := fun n => (n =? 0)%N; encode := fun n => Number (FormatUint n) |}.

#[global] Instance uint64_Unmarshaler : Unmarshaler uint64 :=
  {| zero := 0%N; typeName := "uint64";
     store := fun v n =>
       match v with
       | Null => (n, None)
       | Number lit =>
           match ParseUint lit with
           | Some x => (x, None)
           | None => (n, Some (UnmarshalTypeError ("number " +:+ lit) "uint64"))
           end
       | _ => (n, Some (UnmarshalTypeError (describe v) "uint64"))
       end |}.

(** **** json.RawMessage *)

(** The bytes of a value left undecoded.  The decoder keeps the slice of
    the text that spells the value; here it is the value's compact text,
    which differs from the slice in white space and in the spelling of
    escapes only. *)
Record RawMessage := Raw { rawBytes : string }.

#[global] Instance RawMessage_Unmarshaler : Unmarshaler RawMessage :=
  {| zero := Raw EmptyString; typeName := "json.RawMessage";
     store := fun v _ => (Raw (render v), None) |}.

(** **** Slices *)

(** A Go slice: [nil], or a sequence of elements. *)
Inductive slice (T : Type) :=
| nilSlice
| sliceOf (l : list T).
Arguments nilSlice {T}.
Arguments sliceOf {T} l.

Definition sliceList {T} (s : slice T) : list T :=
  match s with
  | nilSlice => []
  | sliceOf l => l
  end.

(** The elements of an array stored one after the other, each into the
    element the slice holds at its index, if any, else into a new one. *)
Fixpoint storeElems {T} `{Unmarshaler T} (vs : list value) (old : list T)
  : list T * option error :=
  match vs with
  | [] => ([], None)
  | v :: vs' =>
      let '(x, e) := store v (hd zero old) in
      let '(xs, e') := storeElems vs' (tl old) in
      (x :: xs, saveError e e')
  end.

#[global] Instance slice_Marshaler {T} `{Marshaler T} : Marshaler (slice T) :=
  {| isEmptyValue := fun s => (List.length (sliceList s) =? 0)%nat;
     encode := fun s =>
       match s with
       | nilSlice => Null
       | sliceOf l => Array (map encode l)
       end |}.

#[global] Instance slice_Unmarshaler {T} `{Unmarshaler T} : Unmarshaler (slice T) :=
  {| zero := nilSlice; typeName := "[]" +:+ typeName (T := T);
     store := fun v s =>
       match v with
       | Null => (nilSlice, None)
       | Array vs => let '(l, e) := storeElems vs (sliceList s) in (sliceOf l, e)
       | _ => (s, Some (UnmarshalTypeError (describe v) ("[]" +:+ typeName (T := T))))
       end |}.

(** *** Marshal, Unmarshal and Decoder.Decode *)

(** [json.Marshal]: no value of the types above makes the encoder fail. *)
Definition Marshal {T} `{Marshaler T} (t : T) : string * option error :=
  (render (encode t), None).

(** [json.Unmarshal(data, &target)] *)
Definition Unmarshal {T} `{Unmarshaler T} (data : string) (target : T)
  : T * option error :=
  match parse data with
  | inl e => (target, Some e)
  | inr v => store v target
  end.

(** [json.NewDecoder(r).Decode(&target)] on a stream that delivers [body]:
    the first value is decoded, what follows it is not looked at. *)
Definition DecoderDecode {T} `{Unmarshaler T} (body : string) (target : T)
  : T * option error :=
  match scanValue body with
  | Fail UnexpectedEnd =>
      (target, Some (match skipSpace body with
                     | EmptyString => EOF
                     | _ => ErrUnexpectedEOF
                     end))
  | Fail e => (target, Some (SyntaxError e))
  | Ok v _ => store v target
  end.

(** [err.Error()], without the offsets of the Go messages. *)
Definition errorString (e : error) : string :=
  match e with
  | EOF => "EOF"
  | ErrUnexpectedEOF => "unexpected EOF"
  | SyntaxError UnexpectedEnd => "unexpected end of JSON input"
  | SyntaxError InvalidCharacter => "invalid character"
  | SyntaxError ExceededMaxDepth => "exceeded max depth"
  | UnmarshalTypeError v t =>
      "json: cannot unmarshal " +:+ v +:+ " into Go value of type " +:+ t
  | TransportError msg => msg
  end.

End json.

Import json.

(** [fmt.Sprintf("%d", n)] *)
Definition Sprintf_d (n : Z) : string :=
  if (n <? 0)%Z then "-" +:+ FormatUint (Z.abs_N n) else FormatUint (Z.to_N n).

(** ** The query of [DNSRecordsSvc.Search] *)

(** The [url.Values] that [Search] builds from its filter arguments. *)
Definition searchValues (typeStr name content : string) (page perPage : Z) : url.Values :=
  let v : url.Values := ∅ in
  let v := if decide (typeStr <> "") then url.Add "type" typeStr v else v in
  let v := if decide (name <> "") then url.Add "name" name v else v in
  let v := if decide (content <> "") then url.Add "content" content v else v in
  let v := if (0 <? page)%Z then url.Add "page" (Sprintf_d page) v else v in
  let v := if (5 <=? perPage)%Z && (perPage <? 100)%Z
           then url.Add "per_page" (Sprintf_d perPage) v else v in
  v.

Definition searchQuery (typeStr name content : string) (page perPage : Z) : string :=
  url.Encode (searchValues typeStr name content page perPage).

(** The URL of the records collection of a zone, used by [Get] and
    [Create]. *)
Definition recordsUrl (zoneId : string) : string :=
  ApiUrlBase +:+ APiUrlZones +:+ zoneId +:+ ApiUrlDnsRecords.

Definition searchUrl (zoneId typeStr name content : string) (page perPage : Z) : string :=
  ApiUrlBase +:+ APiUrlZones +:+ zoneId +:+ ApiUrlDnsRecords +:+ "?"
    +:+ searchQuery typeStr name content page perPage.

(** The URL of one record, used by [Update] and [Delete]. *)
Definition recordUrl (zoneId id : string) : string :=
  ApiUrlBase +:+ APiUrlZones +:+ zoneId +:+ ApiUrlDnsRecords +:+ id.

(** ** The types of the package *)

(** [Config]; a [*Config] is an [option Config], [None] being [nil]. *)
Record Config := {
  email : string;
  key : string;
  contentType : string;
  insecureSkipVerify : bool
}.

Record BaseSvc := { config : option Config }.

(** [ZonesSvc] and [DNSRecordsSvc] embed a [BaseSvc]. *)
Record ZonesSvc := { ZonesSvc_BaseSvc : BaseSvc }.
Record DNSRecordsSvc := { DNSRecordsSvc_BaseSvc : BaseSvc }.

Module Zone.

Record t := mk {
  Name : string;
  Id : string;
  Type' : string;
  NameServers : slice string;
  Status : string;
  Paused : bool;
  OriginalNameServers : slice string;
  DevelopmentMode : uint64
}.

Definition set_Name x z := let 'mk _ b c d e f g h := z in mk x b c d e f g h.
Definition set_Id x z := let 'mk a _ c d e f g h := z in mk a x c d e f g h.
Definition set_Type x z := let 'mk a b _ d e f g h := z in mk a b x d e f g h.
Definition set_NameServers x z := let 'mk a b c _ e f g h := z in mk a b c x e f g h.
Definition set_Status x z := let 'mk a b c d _ f g h := z in mk a b c d x f g h.
Definition set_Paused x z := let 'mk a b c d e _ g h := z in mk a b c d e x g h.
Definition set_OriginalNameServers x z :=
  let 'mk a b c d e f _ h := z in mk a b c d e f x h.
Definition set_DevelopmentMode x z :=
  let 'mk a b c d e f g _ := z in mk a b c d e f g x.

(** The fields with their tags; an untagged field goes by its Go name. *)
Definition fields : list (encField t * decField t) :=
  [ field "Name" false Name set_Name;
    field "Id" false Id set_Id;
    field "Type" false Type' set_Type;
    field "name_servers" false NameServers set_NameServers;
    field "Status" false Status set_Status;
    field "Paused" false Paused set_Paused;
    field "original_name_servers" false OriginalNameServers set_OriginalNameServers;
    field "development_mode" false DevelopmentMode set_DevelopmentMode ].

Definition empty : t := mk "" "" "" nilSlice "" false nilSlice 0%N.

End Zone.

Abbreviation Zone := Zone.t.

#[global] Instance Zone_Marshaler : Marshaler Zone :=
  {| isEmptyValue := fun _ => false; encode := encodeStruct (fst <$> Zone.fields) |}.

#[global] Instance Zone_Unmarshaler : Unmarshaler Zone :=
  {| zero := Zone.empty; typeName := "cloudflare.Zone";
     store := storeStruct "cloudflare.Zone" (snd <$> Zone.fields) |}.

(** The anonymous struct type of [DNSRecord.Meta]. *)
Module Meta.

Record t := mk { AutoAdded : bool }.

Definition set_AutoAdded (x : bool) (m : t) : t := mk x.

Definition fields : list (encField t * decField t) :=
  [ field "auto_added" true AutoAdded set_AutoAdded ].

End Meta.

(** A struct is never empty for [omitempty]. *)
#[global] Instance Meta_Marshaler : Marshaler Meta.t :=
  {| isEmptyValue := fun _ => false; encode := encodeStruct (fst <$> Meta.fields) |}.

#[global] Instance Meta_Unmarshaler : Unmarshaler Meta.t :=
  {| zero := Meta.mk false; typeName := "struct { AutoAdded bool }";
     store := storeStruct "struct { AutoAdded bool }" (snd <$> Meta.fields) |}.

Module DNSRecord.

Record t := mk {
  Id : string;
  Type' : string;
  Name : string;
  Content : string;
  Proxiable : bool;
  Proxied : bool;
  Ttl : uint64;
  Locked : bool;
  ZoneId : string;
  ZoneName : string;
  ModifiedOn : string;
  CreatedOn : string;
  Meta : Meta.t
}.

Definition set_Id x r :=
  let 'mk _ b c d e f g h i j k l m := r in mk x b c d e f g h i j k l m.
Definition set_Type x r :=
  let 'mk a _ c d e f g h i j k l m := r in mk a x c d e f g h i j k l m.
Definition set_Name x r :=
  let 'mk a b _ d e f g h i j k l m := r in mk a b x d e f g h i j k l m.
Definition set_Content x r :=
  let 'mk a b c _ e f g h i j k l m := r in mk a b c x e f g h i j k l m.
Definition set_Proxiable x r :=
  let 'mk a b c d _ f g h i j k l m := r in mk a b c d x f g h i j k l m.
Definition set_Proxied x r :=
  let 'mk a b c d e _ g h i j k l m := r in mk a b c d e x g h i j k l m.
Definition set_Ttl x r :=
  let 'mk a b c d e f _ h i j k l m := r in mk a b c d e f x h i j k l m.
Definition set_Locked x r :=
  let 'mk a b c d e f g _ i j k l m := r in mk a b c d e f g x i j k l m.
Definition set_ZoneId x r :=
  let 'mk a b c d e f g h _ j k l m := r in mk a b c d e f g h x j k l m.
Definition set_ZoneName x r :=
  let 'mk a b c d e f g h i _ k l m := r in mk a b c d e f g h i x k l m.
Definition set_ModifiedOn x r :=
  let 'mk a b c d e f g h i j _ l m := r in mk a b c d e f g h i j x l m.
Definition set_CreatedOn x r :=
  let 'mk a b c d e f g h i j k _ m := r in mk a b c d e f g h i j k x m.
Definition set_Meta x r :=
  let 'mk a b c d e f g h i j k l _ := r in mk a b c d e f g h i j k l x.

(** The fields with their tags, all [omitempty]. *)
Definition fields : list (encField t * decField t) :=
  [ field "id" true Id set_Id;
    field "type" true Type' set_Type;
    field "name" true Name set_Name;
    field "content" true Content set_Content;
    field "proxiable" true Proxiable set_Proxiable;
    field "proxied" true Proxied set_Proxied;
    field "ttl" true Ttl set_Ttl;
    field "locked" true Locked set_Locked;
    field "zone_id" true ZoneId set_ZoneId;
    field "zone_name" true ZoneName set_ZoneName;
    field "modified_on" true ModifiedOn set_ModifiedOn;
    field "created_on" true CreatedOn set_CreatedOn;
    field "meta" true Meta set_Meta ].

(** [DNSRecord{}] *)
Definition empty : t := mk "" "" "" "" false false 0%N false "" "" "" "" (Meta.mk false).

End DNSRecord.

Abbreviation DNSRecord := DNSRecord.t.

#[global] Instance DNSRecord_Marshaler : Marshaler DNSRecord :=
  {| isEmptyValue := fun _ => false; encode := encodeStruct (fst <$> DNSRecord.fields) |}.

#[global] Instance DNSRecord_Unmarshaler : Unmarshaler DNSRecord :=
  {| zero := DNSRecord.empty; typeName := "cloudflare.DNSRecord";
     store := storeStruct "cloudflare.DNSRecord" (snd <$> DNSRecord.fields) |}.

(** The anonymous struct type of [Message.ResultInfo]. *)
Module ResultInfo.

Record t := mk {
  Page : uint64;
  PerPage : uint64;
  TotalPages : uint64;
  Count : uint64;
  TotalCount : uint64
}.

Definition set_Page x r := let 'mk _ b c d e := r in mk x b c d e.
Definition set_PerPage x r := let 'mk a _ c d e := r in mk a x c d e.
Definition set_TotalPages x r := let 'mk a b _ d e := r in mk a b x d e.
Definition set_Count x r := let 'mk a b c _ e := r in mk a b c x e.
Definition set_TotalCount x r := let 'mk a b c d _ := r in mk a b c d x.

Definition fields : list (decField t) :=
  [ inField "Page" Page set_Page;
    inField "per_page" PerPage set_PerPage;
    inField "total_pages" TotalPages set_TotalPages;
    inField "Count" Count set_Count;
    inField "total_count" TotalCount set_TotalCount ].

End ResultInfo.

#[global] Instance ResultInfo_Unmarshaler : Unmarshaler ResultInfo.t :=
  {| zero := ResultInfo.mk 0%N 0%N 0%N 0%N 0%N; typeName := "struct { Page uint64; ... }";
     store := storeStruct "struct { Page uint64; ... }" ResultInfo.fields |}.

(** [Message], the envelope of every response. *)
Module Message.

Record t := mk {
  Success : bool;
  Errors : RawMessage;
  Messages : RawMessage;
  Result : RawMessage;
  ResultInfo : ResultInfo.t
}.

Definition set_Success x m := let 'mk _ b c d e := m in mk x b c d e.
Definition set_Errors x m := let 'mk a _ c d e := m in mk a x c d e.
Definition set_Messages x m := let 'mk a b _ d e := m in mk a b x d e.
Definition set_Result x m := let 'mk a b c _ e := m in mk a b c x e.
Definition set_ResultInfo x m := let 'mk a b c d _ := m in mk a b c d x.

Definition fields : list (decField t) :=
  [ inField "Success" Success set_Success;
    inField "Errors" Errors set_Errors;
    inField "Messages" Messages set_Messages;
    inField "Result" Result set_Result;
    inField "result_info" ResultInfo set_ResultInfo ].

(** [var msg Message] *)
Definition empty : t :=
  mk false (Raw "") (Raw "") (Raw "") (ResultInfo.mk 0%N 0%N 0%N 0%N 0%N).

End Message.

Abbreviation Message := Message.t.

#[global] Instance Message_Unmarshaler : Unmarshaler Message :=
  {| zero := Message.empty; typeName := "cloudflare.Message";
     store := storeStruct "cloudflare.Message" Message.fields |}.

(** ** Helpers and factories *)

(** [JsonString]: the JSON text of a value, or the text of the error. *)
Definition JsonString {T} `{Marshaler T} (this : T) : string :=
  let '(out, err) := Marshal this in
  match err with
  | Some e => errorString e
  | None => out
  end.

(** [DNSRecord.String] and [Zone.String] *)
Definition DNSRecord_String (d : DNSRecord) : string := JsonString d.
Definition Zone_String (z : Zone) : string := JsonString z.

(** [NewConfig] *)
Definition NewConfig (email key contentType : string) (insecureSkipVerify : bool)
  : option Config :=
  if decide (email = "" \/ key = "") then None
  else
    let contentType :=
      if decide (contentType = "") then ContentTypeApplicationJson else contentType in
    Some {| email := email; key := key; contentType := contentType;
            insecureSkipVerify := insecureSkipVerify |}.

Definition GetZonesSvc (config : option Config) : ZonesSvc :=
  {| ZonesSvc_BaseSvc := {| config := config |} |}.

Definition GetDNSRecordsSvc (config : option Config) : DNSRecordsSvc :=
  {| DNSRecordsSvc_BaseSvc := {| config := config |} |}.

(** ** Requests, responses and the transport *)

(** What [Invoke] hands to [net/http]. *)
Record Request := {
  Method : string;
  URL : string;
  Header : list (string * string);
  RequestBody : option string;
  TLSInsecureSkipVerify : bool
}.

(** A response, of which the operations read the body only. *)
Record Response := { Body : string }.

(** [http.NewRequest] followed by [client.Do]: the response, [nil] when
    there is none, and the error.  One operation makes one round trip. *)
Class Transport := Do : Request -> option Response * option error.

(** The run of a Go function: it returns, or it panics (on the [nil]
    [*Config] of a service that was made from no configuration). *)
Inductive outcome (A : Type) :=
| Panic
| Return (a : A).
Arguments Panic {A}.
Arguments Return {A} a.

Definition andThen {A B} (m : outcome A) (f : A -> outcome B) : outcome B :=
  match m with
  | Panic => Panic
  | Return a => f a
  end.

(** The request [Invoke] makes for a configuration: the three headers are
    added, and the transport verifies certificates unless told not to. *)
Definition request (c : Config) (method urlStr : string) (body : option string)
  : Request :=
  {| Method := method; URL := urlStr;
     Header := [("X-Auth-Email", email c); ("X-Auth-Key", key c);
                ("Content-Type", contentType c)];
     RequestBody := body;
     TLSInsecureSkipVerify := insecureSkipVerify c |}.

(** [BaseSvc.Invoke] *)
Definition Invoke {tr : Transport} (baseSvc : BaseSvc) (method urlStr : string)
    (body : option string) : outcome (option Response * option error) :=
  match config baseSvc with
  | None => Panic
  | Some c => Return (Do (request c method urlStr body))
  end.

(** [BaseSvc.Decode]: the envelope is decoded from the body; the payload is
    decoded into [result] when the envelope says success, and the error of
    that second step then replaces the error of the first. *)
Definition Decode {T} `{Unmarshaler T} (resp : Response) (result : T)
  : T * option error :=
  let '(msg, err) := DecoderDecode (Body resp) Message.empty in
  if Message.Success msg then Unmarshal (rawBytes (Message.Result msg)) result
  else (result, err).

(** ** The operations *)

Module ZonesSvc.

(** [ZonesSvc.Get] *)
Definition Get {tr : Transport} (zonesSvc : ZonesSvc)
  : outcome (slice Zone * option error) :=
  andThen (Invoke (ZonesSvc_BaseSvc zonesSvc) "GET" (ApiUrlBase +:+ APiUrlZones) None)
    (fun '(resp, err) =>
       match resp with
       | None => Return (nilSlice, err)
       | Some resp => Return (Decode resp nilSlice)
       end).

End ZonesSvc.

Module DNSRecordsSvc.

(** [DNSRecordsSvc.Get] *)
Definition Get {tr : Transport} (dnsSvc : DNSRecordsSvc) (zoneId : string)
  : outcome (slice DNSRecord * option error) :=
  andThen (Invoke (DNSRecordsSvc_BaseSvc dnsSvc) "GET"
             (ApiUrlBase +:+ APiUrlZones +:+ zoneId +:+ ApiUrlDnsRecords) None)
    (fun '(resp, err) =>
       match resp with
       | None => Return (nilSlice, err)
       | Some resp => Return (Decode resp nilSlice)
       end).

(** [DNSRecordsSvc.Search] *)
Definition Search {tr : Transport} (dnsSvc : DNSRecordsSvc)
    (zoneId typeStr name content : string) (page perPage : Z)
  : outcome (slice DNSRecord * option error) :=
  let v : url.Values := ∅ in
  let v := if decide (typeStr <> "") then url.Add "type" typeStr v else v in
  let v := if decide (name <> "") then url.Add "name" name v else v in
  let v := if decide (content <> "") then url.Add "content" content v else v in
  let v := if (0 <? page)%Z then url.Add "page" (Sprintf_d page) v else v in
  let v := if (5 <=? perPage)%Z && (perPage <? 100)%Z
           then url.Add "per_page" (Sprintf_d perPage) v else v in
  andThen (Invoke (DNSRecordsSvc_BaseSvc dnsSvc) "GET"
             (ApiUrlBase +:+ APiUrlZones +:+ zoneId +:+ ApiUrlDnsRecords +:+ "?"
                +:+ url.Encode v) None)
    (fun '(resp, err) =>
       match resp with
       | None => Return (nilSlice, err)
       | Some resp => Return (Decode resp nilSlice)
       end).

(** [DNSRecordsSvc.Create] *)
Definition Create {tr : Transport} (dnsSvc : DNSRecordsSvc) (zoneId : string)
    (dnsRecord : DNSRecord) : outcome (DNSRecord * option error) :=
  andThen (Invoke (DNSRecordsSvc_BaseSvc dnsSvc) "POST"
             (ApiUrlBase +:+ APiUrlZones +:+ zoneId +:+ ApiUrlDnsRecords)
             (Some (DNSRecord_String dnsRecord)))
    (fun '(resp, err) =>
       match resp with
       | None => Return (DNSRecord.empty, err)
       | Some resp => Return (Decode resp DNSRecord.empty)
       end).

(** [DNSRecordsSvc.Update] *)
Definition Update {tr : Transport} (dnsSvc : DNSRecordsSvc) (zoneId : string)
    (dnsRecord : DNSRecord) : outcome (DNSRecord * option error) :=
  andThen (Invoke (DNSRecordsSvc_BaseSvc dnsSvc) "PUT"
             (ApiUrlBase +:+ APiUrlZones +:+ zoneId +:+ ApiUrlDnsRecords
                +:+ DNSRecord.Id dnsRecord)
             (Some (DNSRecord_String dnsRecord)))
    (fun '(resp, err) =>
       match resp with
       | None => Return (DNSRecord.empty, err)
       | Some resp => Return (Decode resp DNSRecord.empty)
       end).

(** [DNSRecordsSvc.Delete]: the record decoded from the response is
    dropped, the id returned is the one of the argument. *)
Definition Delete {tr : Transport} (dnsSvc : DNSRecordsSvc) (zoneId : string)
    (dnsRecord : DNSRecord) : outcome (string * option error) :=
  andThen (Invoke (DNSRecordsSvc_BaseSvc dnsSvc) "DELETE"
             (ApiUrlBase +:+ APiUrlZones +:+ zoneId +:+ ApiUrlDnsRecords
                +:+ DNSRecord.Id dnsRecord) None)
    (fun '(resp, err) =>
       match resp with
       | None => Return (EmptyString, err)
       | Some resp =>
           let '(retDnsRecord, err) := Decode resp DNSRecord.empty in
           Return (DNSRecord.Id dnsRecord, err)
       end).

End DNSRecordsSvc.

(** ** Texts of examples *)

(** A JSON text written with ['] for the double quote. *)
Definition dq (s : string) : string :=
  string_of_list_ascii
    (map (fun c => if Ascii.eqb c "'" then "034"%char else c) (list_ascii_of_string s)).

(** ** Definitions of the statements below *)

(** [strings.Split(s, sep)] for a separator of one byte. *)
Fixpoint splitOn (sep : ascii) (s : string) : list string :=
  match s with
  | EmptyString => [EmptyString]
  | String c s' =>
      if Ascii.eqb c sep then EmptyString :: splitOn sep s'
      else
        match splitOn sep s' with
        | x :: l => String c x :: l
        | [] => [String c EmptyString]
        end
  end.

(** The text before the first [sep]. *)
Fixpoint before (sep : ascii) (s : string) : string :=
  match s with
  | EmptyString => EmptyString
  | String c s' => if Ascii.eqb c sep then EmptyString else String c (before sep s')
  end.

(** The names of the parameters of a query string. *)
Definition queryParamNames (q : string) : list string :=
  before "=" <$> splitOn "&" q.

Fixpoint hasByte (c : ascii) (s : string) : bool :=
  match s with
  | EmptyString => false
  | String a s' => Ascii.eqb a c || hasByte c s'
  end.

(** [strings.Contains(s, substr)] *)
Fixpoint Contains (s substr : string) : bool :=
  String.prefix substr s ||
  match s with
  | EmptyString => false
  | String _ s' => Contains s' substr
  end.

(** The pairs [Encode] writes, in the order it writes them. *)
Definition encodedPairs (v : url.Values) : list (string * string) :=
  flat_map (fun k => (fun x => (k, x)) <$> default [] (v !! k))
    (merge_sort String.le (fst <$> map_to_list v)).

Definition segment (p : string * string) : string :=
  url.QueryEscape p.1 +:+ "=" +:+ url.QueryEscape p.2.

(** A parameter of [Search] that is sent only when [cond] holds. *)
Definition param (cond : bool) (name value : string) : list (string * string) :=
  if cond then [(name, value)] else [].

(** The parameters [Search] sends, in the order of the query string. *)
Definition searchParams (typeStr name content : string) (page perPage : Z)
  : list (string * string) :=
  param (bool_decide (content <> "")) "content" content
  ++ param (bool_decide (name <> "")) "name" name
  ++ param (0 <? page)%Z "page" (Sprintf_d page)
  ++ param ((5 <=? perPage)%Z && (perPage <? 100)%Z) "per_page" (Sprintf_d perPage)
  ++ param (bool_decide (typeStr <> "")) "type" typeStr.

(** The buffer of [Encode] after the segments [segs] have been written. *)
Definition joinTo (buf : string) (segs : list string) : string :=
  foldl (fun buf seg => (if decide (buf = "") then buf else buf +:+ "&") +:+ seg)
    buf segs.

(** [strings.CutPrefix] *)
Fixpoint stripPrefix (p s : string) : option string :=
  match p with
  | EmptyString => Some s
  | String a p' =>
      match s with
      | String b s' => if Ascii.eqb a b then stripPrefix p' s' else None
      | EmptyString => None
      end
  end.

(** The record that a URL of the shape [/zones/{zoneId}/dns_records/{id}]
    names: the text after the collection URL of the zone, when there is
    some.  A URL with nothing there names no record. *)
Definition recordIdOf (zoneId urlStr : string) : option string :=
  match stripPrefix (recordsUrl zoneId) urlStr with
  | Some (String c id) => Some (String c id)
  | _ => None
  end.

(** What an operation does with the answer of the transport. *)
Definition answer {T} `{Unmarshaler T} (none : T)
    (r : option Response * option error) : T * option error :=
  match r.1 with
  | None => (none, r.2)
  | Some resp => Decode resp none
  end.

(** A transport that reaches no server. *)
Definition noResponse : Transport :=
  fun _ => (None, Some (TransportError "no network")).

(** A response whose body holds a well-formed envelope that reports
    failure: the envelope decodes without error and its [Success] is
    false. *)
Definition rejected (resp : Response) : Prop :=
  exists msg, DecoderDecode (Body resp) Message.empty = (msg, None)
              /\ Message.Success msg = false.

Definition exampleConfig : Config :=
  {| email := "me@example.com"; key := "k"; contentType := ContentTypeApplicationJson;
     insecureSkipVerify := false |}.

(** A transport that answers every request with the same body. *)
Definition always (body : string) : Transport :=
  fun _ => (Some {| Body := body |}, None).

Definition rejectionBody : string :=
  dq "{'success':false,'errors':[{'code':1004,'message':'DNS Validation Error'}],'messages':[],'result':null}".

Definition deletedBody : string :=
  dq "{'success':true,'errors':[],'messages':[],'result':{'id':'xyz789'}}".

Definition allBytes : list ascii := ascii_of_nat <$> seq 0 256.

Definition lead2 (b0 : ascii) : N := N.land (byteval b0) 31.
Definition lead3 (b0 : ascii) : N := N.land (byteval b0) 15.
Definition lead4 (b0 : ascii) : N := N.land (byteval b0) 7.

(** The bits of the first two bytes of a sequence. *)
Definition high (lead : N) (b1 : ascii) : N := N.lor (N.shiftl lead 6) (utf8.low6 b1).

(** The rune of two, three and four bytes, six bits at a time. *)
Definition rune2 (b0 b1 : ascii) : N := high (lead2 b0) b1.
Definition rune3 (b0 b1 b2 : ascii) : N :=
  N.lor (N.shiftl (high (lead3 b0) b1) 6) (utf8.low6 b2).
Definition rune4 (b0 b1 b2 b3 : ascii) : N :=
  N.lor (N.shiftl (N.lor (N.shiftl (high (lead4 b0) b1) 6) (utf8.low6 b2)) 6)
    (utf8.low6 b3).

(** A number literal: the scanner reads all of it as one number. *)
Definition validNumber (lit : string) : Prop := scanNumber lit = Ok lit "".

(** A text that cannot go on a number literal written before it. *)
Definition endsNumber (rest : string) : bool :=
  match rest with
  | EmptyString => true
  | String c _ =>
      negb (isDigit c || Ascii.eqb c "." || Ascii.eqb c "e" || Ascii.eqb c "E")
  end.

Fixpoint allDigits (s : string) : bool :=
  match s with
  | EmptyString => true
  | String c s' => isDigit c && allDigits s'
  end.

(** The value that a written value is read back as: its strings and keys
    coerced to well-formed UTF-8. *)
Fixpoint normalize (v : value) : value :=
  match v with
  | Str s => Str (toValidUTF8 s)
  | Array elems => Array (map normalize elems)
  | Object members => Object (map (fun m => (toValidUTF8 m.1, normalize m.2)) members)
  | _ => v
  end.

(** The number of arrays and objects open at the deepest place of a
    value. *)
Fixpoint depth (v : value) : N :=
  match v with
  | Array elems => 1 + foldr (fun x d => N.max (depth x) d) 0%N elems
  | Object members => 1 + foldr (fun m d => N.max (depth m.2) d) 0%N members
  | _ => 0
  end.

(** Every number of the value is a number literal. *)
Fixpoint numbersValid (v : value) : Prop :=
  match v with
  | Number lit => validNumber lit
  | Array elems => foldr (fun x P => numbersValid x /\ P) True elems
  | Object members => foldr (fun m P => numbersValid m.2 /\ P) True members
  | _ => True
  end.

(** A character that starts a value and is neither white space nor a
    closing bracket. *)
Definition startsValue (s : string) : Prop :=
  exists c t, s = String c t /\ isSpace c = false
              /\ Ascii.eqb c "]" = false /\ Ascii.eqb c "}" = false.

(** A value that is read back, in any context, from the text [render]
    writes for it. *)
Definition readsBack (v : value) : Prop :=
  forall fuel d rest,
    numbersValid v -> (d + depth v <= maxNestingDepth)%N ->
    String.length (render v) < fuel -> endsNumber rest = true ->
    readValue fuel d (render v +:+ rest) = Ok (normalize v) rest.

Definition memberText (m : string * value) : string :=
  appendString m.1 +:+ ":" +:+ render m.2.

(** A record as it comes back from its JSON text: the strings coerced to
    well-formed UTF-8. *)
Definition coerced (d : DNSRecord) : DNSRecord :=
  DNSRecord.mk (toValidUTF8 (DNSRecord.Id d)) (toValidUTF8 (DNSRecord.Type' d))
    (toValidUTF8 (DNSRecord.Name d)) (toValidUTF8 (DNSRecord.Content d))
    (DNSRecord.Proxiable d) (DNSRecord.Proxied d) (DNSRecord.Ttl d) (DNSRecord.Locked d)
    (toValidUTF8 (DNSRecord.ZoneId d)) (toValidUTF8 (DNSRecord.ZoneName d))
    (toValidUTF8 (DNSRecord.ModifiedOn d)) (toValidUTF8 (DNSRecord.CreatedOn d))
    (DNSRecord.Meta d).

(** Which of the thirteen wire fields of a record are populated, in the
    order of declaration: [true] for a field that is not at its zero
    value. *)
Definition populated (d : DNSRecord) : list bool :=
  [ negb (isEmptyValue (DNSRecord.Id d)); negb (isEmptyValue (DNSRecord.Type' d));
    negb (isEmptyValue (DNSRecord.Name d)); negb (isEmptyValue (DNSRecord.Content d));
    negb (isEmptyValue (DNSRecord.Proxiable d)); negb (isEmptyValue (DNSRecord.Proxied d));
    negb (isEmptyValue (DNSRecord.Ttl d)); negb (isEmptyValue (DNSRecord.Locked d));
    negb (isEmptyValue (DNSRecord.ZoneId d)); negb (isEmptyValue (DNSRecord.ZoneName d));
    negb (isEmptyValue (DNSRecord.ModifiedOn d));
    negb (isEmptyValue (DNSRecord.CreatedOn d));
    negb (isEmptyValue (Meta.AutoAdded (DNSRecord.Meta d))) ].

(** All the strings of a record hold well-formed UTF-8. *)
Definition stringsValid (d : DNSRecord) : Prop :=
  validUTF8 (DNSRecord.Id d) /\ validUTF8 (DNSRecord.Type' d)
  /\ validUTF8 (DNSRecord.Name d) /\ validUTF8 (DNSRecord.Content d)
  /\ validUTF8 (DNSRecord.ZoneId d) /\ validUTF8 (DNSRecord.ZoneName d)
  /\ validUTF8 (DNSRecord.ModifiedOn d) /\ validUTF8 (DNSRecord.CreatedOn d).

(** The member of an object with a given key. *)
Definition member (key : string) (v : value) : option value :=
  match v with
  | Object members => snd <$> find (fun m => String.eqb m.1 key) members
  | _ => None
  end.

(** Replaces the innermost [storeMember], the one applied to a pair, by
    its value. *)
Ltac run_member :=
  match goal with
  | |- context [storeMember ?F (?r, ?e) ?m] =>
      let t := eval cbv -[toValidUTF8 FormatUint ParseUint] in (storeMember F (r, e) m) in
      change (storeMember F (r, e) m) with t
  end.

Ltac omit_side x :=
  let H := fresh in
  intros H; destruct x; try discriminate H; reflexivity.

Definition partialRecord : DNSRecord :=
  DNSRecord.mk "" "A" "ww1.example.com" "" false true 120%N false "" "" "" "" (Meta.mk false).

(** What the object written for a record holds under each key: nothing
    for a field at its zero value, else the value of the field. *)
Definition membersOf (d : DNSRecord) : list (string * option value) :=
  let str (s : string) := if isEmptyValue s then None else Some (Str s) in
  let flag (b : bool) := if isEmptyValue b then None else Some (Bool b) in
  [ ("id", str (DNSRecord.Id d)); ("type", str (DNSRecord.Type' d));
    ("name", str (DNSRecord.Name d)); ("content", str (DNSRecord.Content d));
    ("proxiable", flag (DNSRecord.Proxiable d)); ("proxied", flag (DNSRecord.Proxied d));
    ("ttl", if isEmptyValue (DNSRecord.Ttl d) then None
            else Some (Number (FormatUint (DNSRecord.Ttl d))));
    ("locked", flag (DNSRecord.Locked d));
    ("zone_id", str (DNSRecord.ZoneId d)); ("zone_name", str (DNSRecord.ZoneName d));
    ("modified_on", str (DNSRecord.ModifiedOn d));
    ("created_on", str (DNSRecord.CreatedOn d)) ].

(** The bytes a JSON value can begin with. *)
Definition beginsValue (c : ascii) : bool :=
  Ascii.eqb c "{" || Ascii.eqb c "[" || Ascii.eqb c dquote || Ascii.eqb c "t"
  || Ascii.eqb c "f" || Ascii.eqb c "n" || Ascii.eqb c "-" || isDigit c.

(** The names of the fields of a struct type as the decoder compares them
    with a key: folded to upper case. *)
Definition foldedNames {S} (fields : list (decField S)) : list string :=
  (fun f => foldName (dname f)) <$> fields.

(** The body of a response that reports success: an envelope with no
    errors and no messages around the text of the result. *)
Definition successBody (result : string) : string :=
  dq "{'success':true,'errors':[],'messages':[],'result':" +:+ result +:+ "}".

(** The text of a JSON array, from the texts of its elements. *)
Definition arrayText (elems : list string) : string :=
  "[" +:+ String.concat "," elems +:+ "]".

(** A slice of strings as it comes back from its JSON text: [nil] stays
    [nil], and every string is coerced to well-formed UTF-8. *)
Definition coercedStrings (s : slice string) : slice string :=
  match s with
  | nilSlice => nilSlice
  | sliceOf l => sliceOf (map toValidUTF8 l)
  end.

(** A zone as it comes back from its JSON text. *)
Definition coercedZone (z : Zone) : Zone :=
  Zone.mk (toValidUTF8 (Zone.Name z)) (toValidUTF8 (Zone.Id z))
    (toValidUTF8 (Zone.Type' z)) (coercedStrings (Zone.NameServers z))
    (toValidUTF8 (Zone.Status z)) (Zone.Paused z)
    (coercedStrings (Zone.OriginalNameServers z)) (Zone.DevelopmentMode z).

(** All the strings of a zone hold well-formed UTF-8. *)
Definition zoneStringsValid (z : Zone) : Prop :=
  validUTF8 (Zone.Name z) /\ validUTF8 (Zone.Id z) /\ validUTF8 (Zone.Type' z)
  /\ Forall validUTF8 (sliceList (Zone.NameServers z))
  /\ validUTF8 (Zone.Status z)
  /\ Forall validUTF8 (sliceList (Zone.OriginalNameServers z)).

(** Solves [findField F k = Some f] for a key that is the name of [f]. *)
Ltac find_field :=
  unfold findField;
  cbn [Zone.fields DNSRecord.fields fmap list_fmap snd field find dname
         String.eqb Ascii.eqb Bool.eqb];
  reflexivity.

(** A zone as a listing returns it. *)
Definition exampleZone : Zone :=
  Zone.mk "example.com" "023e105f4ecef8ad9ca31a8372d0c353" "full"
    (sliceOf ["tony.ns.cloudflare.com"; "woz.ns.cloudflare.com"]) "active" false
    nilSlice 7200%N.

(** The record a server stores for [partialRecord]. *)
Definition storedRecord : DNSRecord :=
  DNSRecord.mk "372e67954025e0ba6aaa6d586b9e0b59" "A" "ww1.example.com" "198.51.100.4"
    true true 120%N false "023e105f4ecef8ad9ca31a8372d0c353" "example.com"
    "2014-01-01T05:20:00Z" "2014-01-01T05:20:00Z" (Meta.mk true).

(** Every byte of the string is outside ASCII. *)
Fixpoint allHigh (s : string) : bool :=
  match s with
  | EmptyString => true
  | String c s' => (128 <=? byteval c)%N && allHigh s'
  end.

(** What follows a lead byte is enough for [DecodeRune] to decide: three
    bytes, or fewer with an ASCII byte among them. *)
Definition settled (s : string) : bool :=
  match s with
  | String c1 (String c2 (String _ _)) => true
  | String c1 (String c2 EmptyString) => (byteval c1 <? 128)%N || (byteval c2 <? 128)%N
  | String c1 EmptyString => (byteval c1 <? 128)%N
  | EmptyString => false
  end.

(** A value that is not a number: its text has an end of its own. *)
Definition closed (v : value) : bool :=
  match v with
  | Number _ => false
  | _ => true
  end.

(** Every byte of the string satisfies [p]. *)
Fixpoint everyByte (p : ascii -> bool) (s : string) : bool :=
  match s with
  | EmptyString => true
  | String c s' => p c && everyByte p s'
  end.

(** The bytes of a query string: letters, digits, the marks [-_.~], and
    [%], [+], [=] and [&]. *)
Definition queryByte (c : ascii) : bool :=
  negb (url.shouldEscape c) || Ascii.eqb c "%" || Ascii.eqb c "+"
  || Ascii.eqb c "=" || Ascii.eqb c "&".

(** The bytes of a JSON text that is safe inside HTML: no control
    character, and none of [<], [>] and [&]. *)
Definition htmlByte (c : ascii) : bool :=
  (32 <=? byteval c)%N
  && negb (Ascii.eqb c "<") && negb (Ascii.eqb c ">") && negb (Ascii.eqb c "&").

(** Every number of the value is written with digits only. *)
Fixpoint numbersPlain (v : value) : Prop :=
  match v with
  | Number lit => allDigits lit = true
  | Array elems => foldr (fun x P => numbersPlain x /\ P) True elems
  | Object members => foldr (fun m P => numbersPlain m.2 /\ P) True members
  | _ => True
  end.

(** The three parts of a number, one after the other. *)
Definition numberParts (sign s1 : string) : scan string :=
  bind (scanInt s1) (fun i r1 =>
  bind (scanFrac r1) (fun f r2 =>
  bind (scanExp r2) (fun e r3 =>
  Ok (sign +:+ i +:+ f +:+ e) r3))).

(** What reading the part [p] of a text gives, when reading the whole text
    [p ++ u] gives [x] and leaves [r]: the same with [u] taken off what
    is left, when the cut is behind what was read, and else the end of the
    text. *)
Definition cutAs {A} (whole part : scan A) (u : string) : Prop :=
  forall x r, whole = Ok x r ->
    (String.length u <= String.length r -> exists p0, r = p0 +:+ u /\ part = Ok x p0)
    /\ (String.length r < String.length u -> part = Fail UnexpectedEnd).

(** * Theorems *)

#[local] Arguments String.append : simpl nomatch.

(** ** Query strings and request URLs *)

Lemma app_assoc_s (a b c : string) : (a +:+ b) +:+ c = a +:+ (b +:+ c).
Proof. induction a as [|x a IH]; [reflexivity|]. cbn. by rewrite IH. Qed.

Lemma app_nil_r_s (a : string) : a +:+ "" = a.
Proof. induction a as [|x a IH]; [reflexivity|]. cbn. by rewrite IH. Qed.

Lemma app_cons_s (c : ascii) (a b : string) : String c a +:+ b = String c (a +:+ b).
Proof. reflexivity. Qed.

Lemma app_nil_l_s (a : string) : "" +:+ a = a.
Proof. reflexivity. Qed.

Lemma app_eq_nil_s (a b : string) : a +:+ b = "" -> a = "" /\ b = "".
Proof. destruct a; cbn; [auto|discriminate]. Qed.

Lemma hasByte_app c a b : hasByte c (a +:+ b) = hasByte c a || hasByte c b.
Proof.
  induction a as [|x a IH]; [reflexivity|].
  cbn. by rewrite IH, orb_assoc.
Qed.

Lemma splitOn_nosep sep a : hasByte sep a = false -> splitOn sep a = [a].
Proof.
  induction a as [|x a IH]; [reflexivity|]. cbn.
  intros [Hx Ha]%orb_false_iff. rewrite Hx, (IH Ha). reflexivity.
Qed.

Lemma splitOn_app_sep sep a b :
  hasByte sep a = false -> splitOn sep (a +:+ String sep b) = a :: splitOn sep b.
Proof.
  induction a as [|x a IH].
  - intros _. cbn. by rewrite Ascii.eqb_refl.
  - cbn. intros [Hx Ha]%orb_false_iff.
    rewrite Hx, (IH Ha). reflexivity.
Qed.

Lemma splitOn_concat sep (l : list string) :
  Forall (fun x => hasByte sep x = false) l -> l <> [] ->
  splitOn sep (String.concat (String sep "") l) = l.
Proof.
  induction 1 as [|x l Hx Hl IH]; [done|]. intros _.
  destruct l as [|y l].
  - cbn. by apply splitOn_nosep.
  - change (String.concat (String sep "") (x :: y :: l))
      with (x +:+ String sep "" +:+ String.concat (String sep "") (y :: l)).
    rewrite app_cons_s, app_nil_l_s, splitOn_app_sep by done.
    by rewrite IH.
Qed.

Lemma before_app sep a b :
  hasByte sep a = false -> before sep (a +:+ String sep b) = a.
Proof.
  induction a as [|x a IH].
  - intros _. cbn. by rewrite Ascii.eqb_refl.
  - cbn. intros [Hx Ha]%orb_false_iff.
    by rewrite Hx, (IH Ha).
Qed.

Lemma upperhex_nibble_high (a : ascii) : (N.shiftr (byteval a) 4 < 16)%N.
Proof.
  unfold byteval. rewrite N.shiftr_div_pow2.
  pose proof (N_ascii_bounded a). change (2 ^ 4)%N with 16%N.
  apply N.Div0.div_lt_upper_bound. lia.
Qed.

Lemma upperhex_nibble_low (a : ascii) : (N.land (byteval a) 15 < 16)%N.
Proof. change 15%N with (N.ones 4). rewrite N.land_ones. by apply N.mod_lt. Qed.

Lemma nibble_cases (n : N) : (n < 16)%N -> n ∈ (N.of_nat <$> seq 0 16).
Proof.
  intros Hn. apply list_elem_of_fmap. exists (N.to_nat n). split; [lia|].
  apply list_elem_of_In, in_seq. lia.
Qed.

Lemma upperhex_unreserved (n : N) :
  (n < 16)%N -> url.shouldEscape (url.upperhex n) = false.
Proof.
  intros Hn%nibble_cases. cbn in Hn. set_unfold in Hn.
  destruct_or!; subst n; reflexivity.
Qed.

Lemma QueryEscape_hasByte c x :
  url.shouldEscape c = true -> c <> "+"%char -> c <> "%"%char ->
  hasByte c (url.QueryEscape x) = false.
Proof.
  intros Hc Hplus Hpct. induction x as [|a x IH]; [reflexivity|].
  assert (Hhex : forall n, (n < 16)%N -> Ascii.eqb (url.upperhex n) c = false).
  { intros n Hn. apply Ascii.eqb_neq. intros <-.
    rewrite upperhex_unreserved in Hc by done. discriminate. }
  cbn [url.QueryEscape].
  destruct (url.shouldEscape a) eqn:Ha; [destruct (Ascii.eqb a " ") eqn:Hsp|];
    cbn [hasByte]; rewrite IH, ?orb_false_r.
  - by apply Ascii.eqb_neq.
  - rewrite !Hhex by auto using upperhex_nibble_high, upperhex_nibble_low.
    rewrite orb_false_r. apply Ascii.eqb_neq. congruence.
  - apply Ascii.eqb_neq. congruence.
Qed.

Lemma QueryEscape_no_amp x : hasByte "&" (url.QueryEscape x) = false.
Proof. by apply QueryEscape_hasByte. Qed.

Lemma QueryEscape_no_eq x : hasByte "=" (url.QueryEscape x) = false.
Proof. by apply QueryEscape_hasByte. Qed.

Lemma writeKey_joinTo ke vs buf :
  url.writeKey ke vs buf = joinTo buf ((fun x => ke +:+ "=" +:+ url.QueryEscape x) <$> vs).
Proof.
  unfold url.writeKey, joinTo. revert buf.
  induction vs as [|x vs IH]; intros buf; [reflexivity|]. cbn [foldl fmap list_fmap].
  apply IH.
Qed.

Lemma joinTo_app buf l1 l2 : joinTo buf (l1 ++ l2) = joinTo (joinTo buf l1) l2.
Proof. apply foldl_app. Qed.

Lemma Encode_joinTo (v : url.Values) :
  url.Encode v = joinTo "" (segment <$> encodedPairs v).
Proof.
  unfold url.Encode, encodedPairs.
  generalize (merge_sort String.le (map_to_list v).*1). intros keys.
  generalize EmptyString. induction keys as [|k keys IH]; intros buf; [reflexivity|].
  cbn [foldl flat_map]. rewrite fmap_app, joinTo_app, IH. f_equal.
  rewrite writeKey_joinTo. f_equal. rewrite <- list_fmap_compose. reflexivity.
Qed.

Lemma concat_cons_cons sep a b (l : list string) :
  String.concat sep (a :: b :: l) = a +:+ sep +:+ String.concat sep (b :: l).
Proof. reflexivity. Qed.

Lemma concat_app_head sep a b (l : list string) :
  String.concat sep ((a +:+ sep +:+ b) :: l) = a +:+ sep +:+ String.concat sep (b :: l).
Proof.
  destruct l as [|y l]; [reflexivity|].
  rewrite !concat_cons_cons. by rewrite !app_assoc_s.
Qed.

Lemma joinTo_nonempty buf segs :
  buf <> "" -> joinTo buf segs = String.concat "&" (buf :: segs).
Proof.
  revert buf. induction segs as [|x segs IH]; intros buf Hbuf; [reflexivity|].
  cbn [joinTo foldl]. destruct (decide (buf = "")) as [|_]; [done|].
  fold (joinTo ((buf +:+ "&") +:+ x) segs). rewrite IH.
  - rewrite app_assoc_s. apply concat_app_head.
  - intros [H _]%app_eq_nil_s. by apply app_eq_nil_s in H as [? _].
Qed.

Lemma joinTo_concat segs :
  Forall (fun seg => seg <> "") segs -> joinTo "" segs = String.concat "&" segs.
Proof.
  destruct 1 as [|x segs Hx _]; [reflexivity|].
  cbn [joinTo foldl]. destruct (decide ("" = "")) as [_|]; [|done].
  fold (joinTo ("" +:+ x) segs). by apply joinTo_nonempty.
Qed.

Lemma segment_nonempty p : segment p <> "".
Proof.
  unfold segment. intros [_ H]%app_eq_nil_s. discriminate.
Qed.

(** [Encode] joins the escaped pairs with [&], in the order of the keys. *)
Lemma Encode_concat (v : url.Values) :
  url.Encode v = String.concat "&" (segment <$> encodedPairs v).
Proof.
  rewrite Encode_joinTo. apply joinTo_concat.
  apply Forall_fmap, Forall_true. intros p. apply segment_nonempty.
Qed.

Lemma segment_no_amp p : hasByte "&" (segment p) = false.
Proof.
  unfold segment. rewrite !hasByte_app, !QueryEscape_no_amp. reflexivity.
Qed.

Lemma before_segment p : before "=" (segment p) = url.QueryEscape p.1.
Proof.
  unfold segment. change ("=" +:+ ?x) with (String "=" x).
  apply before_app, QueryEscape_no_eq.
Qed.

Lemma queryParamNames_concat (ps : list (string * string)) :
  ps <> [] ->
  queryParamNames (String.concat "&" (segment <$> ps)) = (fun p => url.QueryEscape p.1) <$> ps.
Proof.
  intros Hps. unfold queryParamNames. rewrite splitOn_concat.
  - rewrite <- list_fmap_compose. apply list_fmap_ext. intros _ p _. apply before_segment.
  - apply Forall_fmap, Forall_true. intros p. apply segment_no_amp.
  - by destruct ps.
Qed.

Lemma bool_decide_ne_empty (s : string) :
  bool_decide (s <> "") = match s with EmptyString => false | _ => true end.
Proof. by destruct s. Qed.

Lemma searchValues_pairs typeStr name content page perPage :
  encodedPairs (searchValues typeStr name content page perPage)
  = searchParams typeStr name content page perPage.
Proof.
  unfold searchValues, searchParams.
  destruct (0 <? page)%Z, ((5 <=? perPage)%Z && (perPage <? 100)%Z);
    destruct typeStr, name, content; vm_compute; reflexivity.
Qed.

Lemma searchQuery_concat typeStr name content page perPage :
  searchQuery typeStr name content page perPage
  = String.concat "&" (segment <$> searchParams typeStr name content page perPage).
Proof. unfold searchQuery. by rewrite Encode_concat, searchValues_pairs. Qed.

Lemma stripPrefix_app p s : stripPrefix p (p +:+ s) = Some s.
Proof.
  induction p as [|a p IH]; [reflexivity|]. cbn. by rewrite Ascii.eqb_refl.
Qed.

Lemma recordUrl_app zoneId id : recordUrl zoneId id = recordsUrl zoneId +:+ id.
Proof. unfold recordUrl, recordsUrl. by rewrite !app_assoc_s. Qed.

Lemma searchUrl_app zoneId typeStr name content page perPage :
  searchUrl zoneId typeStr name content page perPage
  = recordsUrl zoneId +:+ "?" +:+ searchQuery typeStr name content page perPage.
Proof. unfold searchUrl, recordsUrl. by rewrite !app_assoc_s. Qed.

Lemma Search_request {tr : Transport} (c : Config) zoneId typeStr name content page perPage :
  DNSRecordsSvc.Search (GetDNSRecordsSvc (Some c)) zoneId typeStr name content page perPage
  = Return (answer nilSlice
              (Do (request c "GET"
                     (searchUrl zoneId typeStr name content page perPage) None))).
Proof.
  unfold DNSRecordsSvc.Search, answer, Invoke. cbn [GetDNSRecordsSvc DNSRecordsSvc_BaseSvc config andThen].
  fold (searchValues typeStr name content page perPage).
  fold (searchQuery typeStr name content page perPage).
  fold (searchUrl zoneId typeStr name content page perPage).
  by destruct (Do _) as [[resp|] err].
Qed.

Lemma searchParams_names typeStr name content page perPage :
  queryParamNames (searchQuery typeStr name content page perPage)
  = match searchParams typeStr name content page perPage with
    | [] => [""]
    | ps => fst <$> ps
    end.
Proof.
  rewrite searchQuery_concat.
  destruct (searchParams typeStr name content page perPage) as [|p ps] eqn:Hps;
    [reflexivity|].
  rewrite queryParamNames_concat by done. rewrite <- Hps. clear Hps.
  unfold searchParams, param.
  destruct (bool_decide (content <> "")), (bool_decide (name <> "")),
    (0 <? page)%Z, ((5 <=? perPage)%Z && (perPage <? 100)%Z),
    (bool_decide (typeStr <> "")); reflexivity.
Qed.

(** C3: the request of [Search] has the [page] parameter exactly when
    [page > 0], and the [per_page] parameter exactly when
    [5 <= perPage < 100]. *)
Theorem C3_search_pagination_bounds {tr : Transport} (c : Config)
    (zoneId typeStr name content : string) (page perPage : Z) :
  let q := searchQuery typeStr name content page perPage in
  DNSRecordsSvc.Search (GetDNSRecordsSvc (Some c)) zoneId typeStr name content page perPage
  = Return (answer nilSlice
              (Do (request c "GET" (recordsUrl zoneId +:+ "?" +:+ q) None)))
  /\ ("page" ∈ queryParamNames q <-> (0 < page)%Z)
  /\ ("per_page" ∈ queryParamNames q <-> (5 <= perPage < 100)%Z).
Proof.
  intros q. split; [by rewrite Search_request, searchUrl_app|].
  unfold q. rewrite searchParams_names. unfold searchParams, param.
  destruct (Z.ltb_spec 0 page), (Z.leb_spec 5 perPage), (Z.ltb_spec perPage 100);
    destruct (bool_decide (content <> "")), (bool_decide (name <> "")),
      (bool_decide (typeStr <> ""));
    cbn; rewrite ?elem_of_cons, ?elem_of_nil;
    (split; split; intros Hx; try lia; try (destruct_or?; done); auto 6).
Qed.

(** C4, as stated, fails: [Encode] writes the parameters sorted by key, so
    that [name] comes before [type]. *)
Lemma C4_query_order_counterexample :
  Contains (searchQuery "A" "ww1.example.com" "" 0 0) "type=A&name=ww1.example.com"
  = false.
Proof. vm_compute. reflexivity. Qed.

(** C4, amended: the query string of the example is
    [name=ww1.example.com&type=A]; it holds [type=A] and
    [name=ww1.example.com] and no [content], [page] or [per_page]
    parameter.  For all arguments the query string is made of the
    parameters sent, in the order of their names, each written as the
    escaped name, [=] and the escaped value, and joined with [&]. *)
Theorem C4_query_encoding :
  searchQuery "A" "ww1.example.com" "" 0 0 = "name=ww1.example.com&type=A"
  /\ Contains (searchQuery "A" "ww1.example.com" "" 0 0) "type=A" = true
  /\ Contains (searchQuery "A" "ww1.example.com" "" 0 0) "name=ww1.example.com" = true
  /\ queryParamNames (searchQuery "A" "ww1.example.com" "" 0 0) = ["name"; "type"]
  /\ forall typeStr name content page perPage,
       searchQuery typeStr name content page perPage
       = String.concat "&"
           ((fun p => url.QueryEscape p.1 +:+ "=" +:+ url.QueryEscape p.2)
              <$> searchParams typeStr name content page perPage).
Proof.
  do 4 (split; [vm_compute; reflexivity|]).
  intros. apply searchQuery_concat.
Qed.

(** C8: [Update] checks nothing about the id.  For a record whose id is
    empty the request is made all the same, with the URL of the records
    collection of the zone, in which no record is named. *)
Theorem C8_update_empty_id {tr : Transport} (c : Config) (zoneId : string) (d : DNSRecord) :
  DNSRecord.Id d = "" ->
  DNSRecordsSvc.Update (GetDNSRecordsSvc (Some c)) zoneId d
  = Return (answer DNSRecord.empty
              (Do (request c "PUT" (recordsUrl zoneId) (Some (DNSRecord_String d)))))
  /\ recordUrl zoneId (DNSRecord.Id d) = recordsUrl zoneId
  /\ recordIdOf zoneId (recordUrl zoneId (DNSRecord.Id d)) = None.
Proof.
  intros Hid.
  assert (Hurl : recordUrl zoneId (DNSRecord.Id d) = recordsUrl zoneId).
  { by rewrite recordUrl_app, Hid, app_nil_r_s. }
  split; [|split; [done|]].
  - unfold DNSRecordsSvc.Update, answer, Invoke.
    cbn [GetDNSRecordsSvc DNSRecordsSvc_BaseSvc config andThen].
    fold (recordUrl zoneId (DNSRecord.Id d)). rewrite Hurl.
    by destruct (Do _) as [[resp|] err].
  - rewrite Hurl. unfold recordIdOf.
    rewrite <- (app_nil_r_s (recordsUrl zoneId)) at 2.
    by rewrite stripPrefix_app.
Qed.

(** A URL made from an id that is not empty names that record. *)
Lemma recordIdOf_recordUrl (zoneId id : string) :
  id <> "" -> recordIdOf zoneId (recordUrl zoneId id) = Some id.
Proof.
  intros Hid. unfold recordIdOf. rewrite recordUrl_app, stripPrefix_app.
  by destruct id.
Qed.

Lemma C8_update_empty_id_witness :
  let c := {| email := "me@example.com"; key := "k"; contentType := "application/json";
              insecureSkipVerify := false |} in
  DNSRecord.Id DNSRecord.empty = ""
  /\ DNSRecordsSvc.Update (tr := noResponse) (GetDNSRecordsSvc (Some c)) "z1" DNSRecord.empty
     = Return (DNSRecord.empty, Some (TransportError "no network"))
  /\ recordUrl "z1" "" = "https://api.cloudflare.com/client/v4/zones/z1/dns_records/".
Proof.
  intros c.
  destruct (C8_update_empty_id (tr := noResponse) c "z1" DNSRecord.empty eq_refl)
    as (Hreq & Hurl & _).
  split; [reflexivity|]. split; [exact Hreq|reflexivity].
Defined.

(** C10: [Search] always puts [?] after the URL of the records collection;
    when every filter is dropped nothing follows it. *)
Theorem C10_search_question_mark {tr : Transport} (c : Config)
    (zoneId typeStr name content : string) (page perPage : Z) :
  DNSRecordsSvc.Search (GetDNSRecordsSvc (Some c)) zoneId typeStr name content page perPage
  = Return (answer nilSlice
              (Do (request c "GET"
                     (ApiUrlBase +:+ "/zones/" +:+ zoneId +:+ "/dns_records/" +:+ "?"
                        +:+ searchQuery typeStr name content page perPage) None)))
  /\ (typeStr = "" -> name = "" -> content = "" -> (page <= 0)%Z ->
      (perPage < 5 \/ 100 <= perPage)%Z ->
      searchUrl zoneId typeStr name content page perPage
      = ApiUrlBase +:+ "/zones/" +:+ zoneId +:+ "/dns_records/" +:+ "?").
Proof.
  split; [apply Search_request|].
  intros -> -> -> Hpage Hper. unfold searchUrl. do 4 f_equal.
  rewrite searchQuery_concat. unfold searchParams, param.
  destruct (Z.ltb_spec 0 page), (Z.leb_spec 5 perPage), (Z.ltb_spec perPage 100);
    try lia; reflexivity.
Qed.

Lemma C10_search_question_mark_witness :
  searchUrl "z1" "" "" "" 0 100
  = "https://api.cloudflare.com/client/v4/zones/z1/dns_records/?".
Proof.
  pose (c := {| email := "me@example.com"; key := "k";
                contentType := "application/json"; insecureSkipVerify := false |}).
  destruct (C10_search_question_mark (tr := noResponse) c "z1" "" "" "" 0 100) as [_ Hurl].
  rewrite Hurl; [reflexivity|reflexivity|reflexivity|reflexivity|lia|lia].
Defined.

(** ** The envelope decoder and the operations *)

Lemma Decode_failed {T} `{Unmarshaler T} (resp : Response) (result : T) msg err :
  DecoderDecode (Body resp) Message.empty = (msg, err) ->
  Message.Success msg = false ->
  Decode resp result = (result, err).
Proof. unfold Decode. by intros -> ->. Qed.

Lemma Decode_success {T} `{Unmarshaler T} (resp : Response) (result : T) msg err :
  DecoderDecode (Body resp) Message.empty = (msg, err) ->
  Message.Success msg = true ->
  Decode resp result = Unmarshal (rawBytes (Message.Result msg)) result.
Proof. unfold Decode. by intros -> ->. Qed.

Lemma Decode_rejected {T} `{Unmarshaler T} (resp : Response) (result : T) :
  rejected resp -> Decode resp result = (result, None).
Proof. intros (msg & Hmsg & Hs). by eapply Decode_failed. Qed.

(** C2: for an envelope whose [Success] is false [Decode] returns the target
    as it was, whatever the envelope holds; the payload is decoded exactly
    when [Success] is true. *)
Theorem C2_failure_leaves_target {T} `{Unmarshaler T} (resp : Response) (result : T)
    (msg : Message) (err : option error) :
  DecoderDecode (Body resp) Message.empty = (msg, err) ->
  (Message.Success msg = false -> Decode resp result = (result, err))
  /\ (Message.Success msg = true ->
      Decode resp result = Unmarshal (rawBytes (Message.Result msg)) result).
Proof. intros Hmsg. split; intros Hs; eauto using Decode_failed, Decode_success. Qed.

Lemma C2_failure_leaves_target_witness :
  let resp := {| Body := dq "{'success':false,'result':{'id':'xyz789','ttl':120}}" |} in
  let kept := DNSRecord.set_Id "kept" DNSRecord.empty in
  rawBytes (Message.Result (DecoderDecode (Body resp) Message.empty).1)
  = dq "{'id':'xyz789','ttl':120}"
  /\ Decode resp kept = (kept, None).
Proof.
  intros resp kept. split; [vm_compute; reflexivity|].
  refine (proj1 (C2_failure_leaves_target resp kept
                   (DecoderDecode (Body resp) Message.empty).1 None _) _);
    vm_compute; reflexivity.
Defined.

Lemma ZonesSvc_Get_request {tr : Transport} (c : Config) :
  ZonesSvc.Get (GetZonesSvc (Some c))
  = Return (answer nilSlice (Do (request c "GET" (ApiUrlBase +:+ APiUrlZones) None))).
Proof.
  unfold ZonesSvc.Get, answer, Invoke. cbn [GetZonesSvc ZonesSvc_BaseSvc config andThen].
  by destruct (Do _) as [[resp|] err].
Qed.

Lemma Get_request {tr : Transport} (c : Config) zoneId :
  DNSRecordsSvc.Get (GetDNSRecordsSvc (Some c)) zoneId
  = Return (answer nilSlice (Do (request c "GET" (recordsUrl zoneId) None))).
Proof.
  unfold DNSRecordsSvc.Get, answer, Invoke.
  cbn [GetDNSRecordsSvc DNSRecordsSvc_BaseSvc config andThen].
  by destruct (Do _) as [[resp|] err].
Qed.

Lemma Create_request {tr : Transport} (c : Config) zoneId d :
  DNSRecordsSvc.Create (GetDNSRecordsSvc (Some c)) zoneId d
  = Return (answer DNSRecord.empty
              (Do (request c "POST" (recordsUrl zoneId) (Some (DNSRecord_String d))))).
Proof.
  unfold DNSRecordsSvc.Create, answer, Invoke.
  cbn [GetDNSRecordsSvc DNSRecordsSvc_BaseSvc config andThen].
  by destruct (Do _) as [[resp|] err].
Qed.

Lemma Update_request {tr : Transport} (c : Config) zoneId d :
  DNSRecordsSvc.Update (GetDNSRecordsSvc (Some c)) zoneId d
  = Return (answer DNSRecord.empty
              (Do (request c "PUT" (recordUrl zoneId (DNSRecord.Id d))
                     (Some (DNSRecord_String d))))).
Proof.
  unfold DNSRecordsSvc.Update, answer, Invoke.
  cbn [GetDNSRecordsSvc DNSRecordsSvc_BaseSvc config andThen].
  by destruct (Do _) as [[resp|] err].
Qed.

Lemma Delete_request {tr : Transport} (c : Config) zoneId d :
  DNSRecordsSvc.Delete (GetDNSRecordsSvc (Some c)) zoneId d
  = Return (match (Do (request c "DELETE" (recordUrl zoneId (DNSRecord.Id d)) None)).1 with
            | None => ("", (Do (request c "DELETE" (recordUrl zoneId (DNSRecord.Id d)) None)).2)
            | Some resp => (DNSRecord.Id d, (Decode resp DNSRecord.empty).2)
            end).
Proof.
  unfold DNSRecordsSvc.Delete, Invoke.
  cbn [GetDNSRecordsSvc DNSRecordsSvc_BaseSvc config andThen].
  fold (recordUrl zoneId (DNSRecord.Id d)).
  destruct (Do _) as [[resp|] err]; [|done]. cbn. by destruct (Decode _ _).
Qed.

Lemma answer_rejected {T} `{Unmarshaler T} (none : T) (r : option Response * option error)
    resp e :
  r = (Some resp, e) -> rejected resp -> answer none r = (none, None).
Proof. intros -> Hrej. unfold answer. cbn. by apply Decode_rejected. Qed.

(** C1, as stated, fails for [Delete]: on a well-formed envelope with
    [success = false] it returns the id of its argument, not the empty
    string. *)
Lemma C1_delete_counterexample :
  let tr := always rejectionBody in
  let d := DNSRecord.set_Id "abc123" DNSRecord.empty in
  rejected {| Body := rejectionBody |}
  /\ DNSRecordsSvc.Delete (GetDNSRecordsSvc (Some exampleConfig)) "z1" d
     = Return ("abc123", None)
  /\ DNSRecordsSvc.Delete (GetDNSRecordsSvc (Some exampleConfig)) "z1" d
     <> Return ("", None).
Proof.
  intros tr d. split; [|split].
  - eexists. split; vm_compute; reflexivity.
  - vm_compute. reflexivity.
  - vm_compute. discriminate.
Qed.

(** C1, amended: on a response whose body is a well-formed envelope with
    [success = false], [ZonesSvc.Get] and the [Get], [Search], [Create] and
    [Update] of [DNSRecordsSvc] return the zero value of their result with a
    nil error, and [Delete] returns the id of its argument with a nil
    error. *)
Theorem C1_failure_is_silent {tr : Transport} (c : Config) :
  (forall resp e,
      Do (request c "GET" (ApiUrlBase +:+ APiUrlZones) None) = (Some resp, e) ->
      rejected resp ->
      ZonesSvc.Get (GetZonesSvc (Some c)) = Return (nilSlice, None))
  /\ (forall zoneId resp e,
      Do (request c "GET" (recordsUrl zoneId) None) = (Some resp, e) ->
      rejected resp ->
      DNSRecordsSvc.Get (GetDNSRecordsSvc (Some c)) zoneId = Return (nilSlice, None))
  /\ (forall zoneId typeStr name content page perPage resp e,
      Do (request c "GET" (searchUrl zoneId typeStr name content page perPage) None)
      = (Some resp, e) ->
      rejected resp ->
      DNSRecordsSvc.Search (GetDNSRecordsSvc (Some c)) zoneId typeStr name content
        page perPage = Return (nilSlice, None))
  /\ (forall zoneId d resp e,
      Do (request c "POST" (recordsUrl zoneId) (Some (DNSRecord_String d)))
      = (Some resp, e) ->
      rejected resp ->
      DNSRecordsSvc.Create (GetDNSRecordsSvc (Some c)) zoneId d
      = Return (DNSRecord.empty, None))
  /\ (forall zoneId d resp e,
      Do (request c "PUT" (recordUrl zoneId (DNSRecord.Id d)) (Some (DNSRecord_String d)))
      = (Some resp, e) ->
      rejected resp ->
      DNSRecordsSvc.Update (GetDNSRecordsSvc (Some c)) zoneId d
      = Return (DNSRecord.empty, None))
  /\ (forall zoneId d resp e,
      Do (request c "DELETE" (recordUrl zoneId (DNSRecord.Id d)) None) = (Some resp, e) ->
      rejected resp ->
      DNSRecordsSvc.Delete (GetDNSRecordsSvc (Some c)) zoneId d
      = Return (DNSRecord.Id d, None)).
Proof.
  repeat apply conj; intros.
  - rewrite ZonesSvc_Get_request. f_equal. by eapply answer_rejected.
  - rewrite Get_request. f_equal. by eapply answer_rejected.
  - rewrite Search_request. f_equal. by eapply answer_rejected.
  - rewrite Create_request. f_equal. by eapply answer_rejected.
  - rewrite Update_request. f_equal. by eapply answer_rejected.
  - rewrite Delete_request. match goal with H : Do _ = _ |- _ => rewrite H end. cbn.
    by rewrite Decode_rejected.
Qed.

Lemma C1_failure_is_silent_witness :
  let tr := always rejectionBody in
  let d := DNSRecord.set_Id "abc123" (DNSRecord.set_Content "192.0.2.1" DNSRecord.empty) in
  ZonesSvc.Get (GetZonesSvc (Some exampleConfig)) = Return (nilSlice, None)
  /\ DNSRecordsSvc.Update (GetDNSRecordsSvc (Some exampleConfig)) "z1" d
     = Return (DNSRecord.empty, None)
  /\ DNSRecordsSvc.Delete (GetDNSRecordsSvc (Some exampleConfig)) "z1" d
     = Return ("abc123", None).
Proof.
  intros tr d.
  assert (Hrej : rejected {| Body := rejectionBody |}).
  { eexists. split; vm_compute; reflexivity. }
  destruct (C1_failure_is_silent (tr := tr) exampleConfig)
    as (Hzones & _ & _ & _ & Hupdate & Hdelete).
  split; [|split].
  - exact (Hzones _ None eq_refl Hrej).
  - exact (Hupdate "z1" d _ None eq_refl Hrej).
  - exact (Hdelete "z1" d _ None eq_refl Hrej).
Defined.

(** C7: on any response [Delete] returns the id of the record it was given;
    the record decoded from the response is dropped.  With the id [abc123]
    and a success envelope whose result holds the id [xyz789], it returns
    [abc123] and no error. *)
Theorem C7_delete_returns_input_id :
  (forall (tr : Transport) (c : Config) (zoneId : string) (d : DNSRecord) resp e,
      Do (request c "DELETE" (recordUrl zoneId (DNSRecord.Id d)) None) = (Some resp, e) ->
      DNSRecordsSvc.Delete (GetDNSRecordsSvc (Some c)) zoneId d
      = Return (DNSRecord.Id d, (Decode resp DNSRecord.empty).2))
  /\ (let tr := always deletedBody in
      let d := DNSRecord.set_Id "abc123" DNSRecord.empty in
      Decode {| Body := deletedBody |} DNSRecord.empty
      = (DNSRecord.set_Id "xyz789" DNSRecord.empty, None)
      /\ DNSRecordsSvc.Delete (GetDNSRecordsSvc (Some exampleConfig)) "z1" d
         = Return ("abc123", None)).
Proof.
  split.
  - intros tr c zoneId d resp e Hdo. rewrite Delete_request, Hdo. reflexivity.
  - split; vm_compute; reflexivity.
Qed.

Lemma C7_delete_returns_input_id_witness :
  let tr := always (dq "{'success':true,'result':'xyz789'}") in
  let d := DNSRecord.set_Id "abc123" DNSRecord.empty in
  DNSRecordsSvc.Delete (GetDNSRecordsSvc (Some exampleConfig)) "z1" d
  = Return ("abc123", Some (UnmarshalTypeError "string" "cloudflare.DNSRecord")).
Proof.
  intros tr d.
  exact (proj1 C7_delete_returns_input_id tr exampleConfig "z1" d _ None eq_refl).
Defined.

Lemma findField_Message_not_result (k : string) (f : decField Message) :
  foldName k <> "RESULT" ->
  findField Message.fields k = Some f ->
  forall v m, Message.Result (dstore f v m).1 = Message.Result m.
Proof.
  intros Hk. unfold findField, Message.fields. cbn [find inField dname].
  assert (Hexact : String.eqb "Result" k = false).
  { apply String.eqb_neq. intros <-. by apply Hk. }
  assert (Hfold : String.eqb (foldName "Result") (foldName k) = false).
  { apply String.eqb_neq. intros Heq. apply Hk. rewrite <- Heq. reflexivity. }
  rewrite Hexact, Hfold.
  repeat match goal with
         | |- context [if ?b then _ else _] => destruct b
         end;
    intros Hf v m; simplify_eq; unfold inField; cbn [dstore];
    match goal with |- context [store v ?t] => destruct (store v t) end;
    by destruct m.
Qed.

Lemma storeMember_Message_not_result (acc : Message * option error) k v :
  foldName k <> "RESULT" ->
  Message.Result (storeMember Message.fields acc (k, v)).1 = Message.Result acc.1.
Proof.
  intros Hk. unfold storeMember. cbn [fst snd].
  destruct (findField Message.fields k) as [f|] eqn:Hf; [|done].
  pose proof (findField_Message_not_result k f Hk Hf v acc.1) as Hres.
  by destruct (dstore f v acc.1).
Qed.

(** An object none of whose keys names the [Result] field leaves the raw
    result as it was. *)
Lemma store_Message_no_result members (acc : Message * option error) :
  (forall k v, (k, v) ∈ members -> foldName k <> "RESULT") ->
  Message.Result (foldl (storeMember Message.fields) acc members).1
  = Message.Result acc.1.
Proof.
  revert acc. induction members as [|[k v] members IH]; intros acc Hkeys; [done|].
  cbn [foldl]. rewrite IH.
  - apply storeMember_Message_not_result. eapply Hkeys. left.
  - intros k' v' Hin. eapply Hkeys. right. exact Hin.
Qed.

Lemma Unmarshal_empty {T} `{Unmarshaler T} (target : T) :
  Unmarshal "" target = (target, Some (SyntaxError UnexpectedEnd)).
Proof. reflexivity. Qed.

(** C9: when the body is an object with no [result] member and the
    envelope decoded from it says success, the raw payload is empty, and
    [Decode] returns the error of the payload step, "unexpected end of JSON
    input", with the target as it was. *)
Theorem C9_success_without_result {T} `{Unmarshaler T} (resp : Response) (target : T)
    members rest :
  scanValue (Body resp) = Ok (Object members) rest ->
  (forall k v, (k, v) ∈ members -> foldName k <> "RESULT") ->
  Message.Success (DecoderDecode (Body resp) Message.empty).1 = true ->
  rawBytes (Message.Result (DecoderDecode (Body resp) Message.empty).1) = ""
  /\ Decode resp target = (target, Some (SyntaxError UnexpectedEnd)).
Proof.
  intros Hscan Hkeys Hsuccess.
  assert (Hraw : rawBytes (Message.Result (DecoderDecode (Body resp) Message.empty).1) = "").
  { unfold DecoderDecode. rewrite Hscan. cbn [store Message_Unmarshaler storeStruct].
    by rewrite store_Message_no_result. }
  split; [done|].
  destruct (DecoderDecode (Body resp) Message.empty) as [msg err] eqn:Hmsg.
  rewrite (Decode_success _ _ _ _ Hmsg Hsuccess). cbn [fst] in Hraw. rewrite Hraw.
  apply Unmarshal_empty.
Qed.

Lemma C9_success_without_result_witness :
  let resp := {| Body := dq "{'success':true,'errors':[],'messages':[]}" |} in
  let kept := DNSRecord.set_Id "kept" DNSRecord.empty in
  Decode resp kept = (kept, Some (SyntaxError UnexpectedEnd)).
Proof.
  intros resp kept.
  refine (proj2 (C9_success_without_result resp kept
                   [("success", Bool true); ("errors", Array []); ("messages", Array [])]
                   "" _ _ _)).
  - vm_compute. reflexivity.
  - intros k v Hin. rewrite !elem_of_cons, elem_of_nil in Hin.
    destruct_or!; simplify_eq; vm_compute; discriminate.
  - vm_compute. reflexivity.
Defined.

(** ** UTF-8: what DecodeRune reads, EncodeRune writes *)

Lemma allBytes_spec (P : ascii -> bool) :
  forallb P allBytes = true -> forall b, P b = true.
Proof.
  intros Hall b. rewrite forallb_forall in Hall. apply Hall.
  unfold allBytes. apply list_elem_of_In, list_elem_of_fmap.
  exists (nat_of_ascii b). split; [by rewrite ascii_nat_embedding|].
  apply list_elem_of_In, in_seq. pose proof (nat_ascii_bounded b). lia.
Qed.

Lemma implb_elim (a b : bool) : implb a b = true -> a = true -> b = true.
Proof. by destruct a, b. Qed.

Lemma peel_shiftr (h x : N) : (x < 64)%N -> N.shiftr (N.lor (N.shiftl h 6) x) 6 = h.
Proof.
  intros Hx. rewrite N.shiftr_lor, N.shiftr_shiftl_l, N.sub_diag, N.shiftl_0_r by lia.
  rewrite (N.shiftr_div_pow2 x), N.div_small by (change (2 ^ 6)%N with 64%N; lia).
  apply N.lor_0_r.
Qed.

Lemma peel_land (h x : N) : (x < 64)%N -> N.land (N.lor (N.shiftl h 6) x) 63 = x.
Proof.
  intros Hx. change 63%N with (N.ones 6).
  rewrite N.land_lor_distr_l, !N.land_ones, N.shiftl_mul_pow2, N.Div0.mod_mul.
  rewrite N.mod_small by (change (2 ^ 6)%N with 64%N; lia). reflexivity.
Qed.

Lemma peel_bounds (h x : N) :
  (x < 64)%N -> (64 * h <= N.lor (N.shiftl h 6) x < 64 * h + 64)%N.
Proof.
  intros Hx. pose proof (peel_shiftr h x Hx) as Hdiv.
  rewrite N.shiftr_div_pow2 in Hdiv. change (2 ^ 6)%N with 64%N in Hdiv.
  generalize dependent (N.lor (N.shiftl h 6) x). intros r Hdiv.
  assert (H64 : 64%N <> 0%N) by lia.
  pose proof (N.div_mod r 64 H64) as Hr. pose proof (N.mod_lt r 64 H64) as Hm.
  rewrite Hdiv in Hr. generalize dependent (r mod 64)%N. intros. lia.
Qed.

Lemma low6_lt (b : ascii) : (utf8.low6 b < 64)%N.
Proof.
  unfold utf8.low6. change 63%N with (N.ones 6). rewrite N.land_ones.
  by apply N.mod_lt.
Qed.

Lemma bytes_ind (P Q : ascii -> bool) :
  forallb (fun b => implb (P b) (Q b)) allBytes = true ->
  forall b, P b = true -> Q b = true.
Proof. intros Hall b. apply implb_elim. revert b. by apply allBytes_spec. Qed.

Lemma bytes2_ind (P Q : ascii -> ascii -> bool) :
  forallb (fun b0 => forallb (fun b1 => implb (P b0 b1) (Q b0 b1)) allBytes) allBytes
  = true ->
  forall b0 b1, P b0 b1 = true -> Q b0 b1 = true.
Proof.
  intros Hall b0 b1. apply implb_elim.
  pose proof (allBytes_spec _ Hall b0) as Hb0. cbv beta in Hb0.
  exact (allBytes_spec _ Hb0 b1).
Qed.

Lemma cont_byte b : utf8.cont b = true -> utf8.byte (N.lor 128 (utf8.low6 b)) = b.
Proof.
  intros Hc. apply Ascii.eqb_eq. revert b Hc.
  apply (bytes_ind utf8.cont (fun b => Ascii.eqb (utf8.byte (N.lor 128 (utf8.low6 b))) b)).
  vm_compute. reflexivity.
Qed.

Lemma lead2_byte b0 :
  utf8.leadSize b0 = 2 ->
  utf8.byte (N.lor 192 (lead2 b0)) = b0 /\ (2 <= lead2 b0 < 32)%N.
Proof.
  intros Hls. apply Nat.eqb_eq in Hls.
  pose proof (bytes_ind (fun b => utf8.leadSize b =? 2)%nat
    (fun b => Ascii.eqb (utf8.byte (N.lor 192 (lead2 b))) b
              && (2 <=? lead2 b)%N && (lead2 b <? 32)%N)
    ltac:(vm_compute; reflexivity) b0 Hls) as Hb.
  apply andb_prop in Hb as [[H1 H2]%andb_prop H3].
  apply Ascii.eqb_eq in H1. apply N.leb_le in H2. apply N.ltb_lt in H3. auto.
Qed.

Lemma lead3_byte b0 :
  utf8.leadSize b0 = 3 -> utf8.byte (N.lor 224 (lead3 b0)) = b0.
Proof.
  intros Hls. apply Nat.eqb_eq in Hls. apply Ascii.eqb_eq. revert b0 Hls.
  apply (bytes_ind (fun b => utf8.leadSize b =? 3)%nat
           (fun b => Ascii.eqb (utf8.byte (N.lor 224 (lead3 b))) b)).
  vm_compute. reflexivity.
Qed.

Lemma lead4_byte b0 :
  utf8.leadSize b0 = 4 -> utf8.byte (N.lor 240 (lead4 b0)) = b0.
Proof.
  intros Hls. apply Nat.eqb_eq in Hls. apply Ascii.eqb_eq. revert b0 Hls.
  apply (bytes_ind (fun b => utf8.leadSize b =? 4)%nat
           (fun b => Ascii.eqb (utf8.byte (N.lor 240 (lead4 b))) b)).
  vm_compute. reflexivity.
Qed.

Lemma accept_cont b0 b1 : utf8.accept b0 b1 = true -> utf8.cont b1 = true.
Proof.
  revert b0 b1. apply (bytes2_ind utf8.accept (fun _ b1 => utf8.cont b1)).
  vm_compute. reflexivity.
Qed.

(** The high bits of a sequence of three bytes: not those of an overlong
    form, nor of a surrogate. *)
Lemma high3_bounds b0 b1 :
  utf8.leadSize b0 = 3 -> utf8.accept b0 b1 = true ->
  (32 <= high (lead3 b0) b1 < 1024)%N
  /\ ~ (864 <= high (lead3 b0) b1 <= 895)%N.
Proof.
  intros Hls%Nat.eqb_eq Hacc.
  pose proof (bytes2_ind
    (fun b0 b1 => (utf8.leadSize b0 =? 3)%nat && utf8.accept b0 b1)
    (fun b0 b1 => (32 <=? high (lead3 b0) b1)%N && (high (lead3 b0) b1 <? 1024)%N
        && negb ((864 <=? high (lead3 b0) b1)%N && (high (lead3 b0) b1 <=? 895)%N))
    ltac:(vm_compute; reflexivity) b0 b1 ltac:(cbv beta; by rewrite Hls, Hacc)) as Hb.
  apply andb_prop in Hb as [[H1 H2]%andb_prop H3].
  apply N.leb_le in H1. apply N.ltb_lt in H2. split; [done|].
  intros [H4 H5]. apply N.leb_le in H4. apply N.leb_le in H5.
  by rewrite H4, H5 in H3.
Qed.

(** The high bits of a sequence of four bytes: of a rune from U+10000 to
    U+10FFFF. *)
Lemma high4_bounds b0 b1 :
  utf8.leadSize b0 = 4 -> utf8.accept b0 b1 = true ->
  (16 <= high (lead4 b0) b1 <= 271)%N.
Proof.
  intros Hls%Nat.eqb_eq Hacc.
  pose proof (bytes2_ind
    (fun b0 b1 => (utf8.leadSize b0 =? 4)%nat && utf8.accept b0 b1)
    (fun b0 b1 => (16 <=? high (lead4 b0) b1)%N && (high (lead4 b0) b1 <=? 271)%N)
    ltac:(vm_compute; reflexivity) b0 b1 ltac:(cbv beta; by rewrite Hls, Hacc)) as Hb.
  apply andb_prop in Hb as [H1 H2].
  apply N.leb_le in H1. apply N.leb_le in H2. done.
Qed.

Lemma EncodeRune_2 (r : N) :
  (128 <= r <= 2047)%N ->
  utf8.EncodeRune r
  = String (utf8.byte (N.lor 192 (N.shiftr r 6)))
      (String (utf8.byte (N.lor 128 (N.land r 63))) "").
Proof.
  intros Hr. unfold utf8.EncodeRune.
  destruct (N.leb_spec r 127); [lia|]. destruct (N.leb_spec r 2047); [done|lia].
Qed.

Lemma EncodeRune_3 (r : N) :
  (2048 <= r <= 65535)%N -> ~ (55296 <= r <= 57343)%N ->
  utf8.EncodeRune r
  = String (utf8.byte (N.lor 224 (N.shiftr r 12)))
      (String (utf8.byte (N.lor 128 (N.land (N.shiftr r 6) 63)))
         (String (utf8.byte (N.lor 128 (N.land r 63))) "")).
Proof.
  intros Hr Hs. unfold utf8.EncodeRune, utf8.MaxRune.
  destruct (N.leb_spec r 127); [lia|]. destruct (N.leb_spec r 2047); [lia|].
  destruct (N.ltb_spec 1114111 r); [lia|].
  destruct (N.leb_spec 55296 r), (N.leb_spec r 57343); try lia;
    cbn [orb andb]; destruct (N.leb_spec r 65535); try lia; reflexivity.
Qed.

Lemma EncodeRune_4 (r : N) :
  (65536 <= r <= 1114111)%N ->
  utf8.EncodeRune r
  = String (utf8.byte (N.lor 240 (N.shiftr r 18)))
      (String (utf8.byte (N.lor 128 (N.land (N.shiftr r 12) 63)))
         (String (utf8.byte (N.lor 128 (N.land (N.shiftr r 6) 63)))
            (String (utf8.byte (N.lor 128 (N.land r 63))) ""))).
Proof.
  intros Hr. unfold utf8.EncodeRune, utf8.MaxRune.
  destruct (N.leb_spec r 127); [lia|]. destruct (N.leb_spec r 2047); [lia|].
  destruct (N.ltb_spec 1114111 r); [lia|].
  destruct (N.leb_spec 55296 r), (N.leb_spec r 57343); try lia;
    cbn [orb andb]; destruct (N.leb_spec r 65535); try lia; reflexivity.
Qed.

Lemma EncodeRune_1 (r : N) :
  (r <= 127)%N -> utf8.EncodeRune r = String (utf8.byte r) "".
Proof.
  intros Hr. unfold utf8.EncodeRune. by destruct (N.leb_spec r 127); [|lia].
Qed.

Lemma rune3_eq b0 b1 b2 :
  N.lor (N.lor (N.shiftl (N.land (byteval b0) 15) 12) (N.shiftl (utf8.low6 b1) 6))
    (utf8.low6 b2) = rune3 b0 b1 b2.
Proof.
  unfold rune3, high, lead3. by rewrite N.shiftl_lor, N.shiftl_shiftl.
Qed.

Lemma rune4_eq b0 b1 b2 b3 :
  N.lor (N.lor (N.lor (N.shiftl (N.land (byteval b0) 7) 18) (N.shiftl (utf8.low6 b1) 12))
           (N.shiftl (utf8.low6 b2) 6)) (utf8.low6 b3) = rune4 b0 b1 b2 b3.
Proof.
  unfold rune4, high, lead4. by rewrite !N.shiftl_lor, !N.shiftl_shiftl.
Qed.

Lemma EncodeRune_rune2 b0 b1 :
  utf8.leadSize b0 = 2 -> utf8.accept b0 b1 = true ->
  utf8.EncodeRune (rune2 b0 b1) = String b0 (String b1 "") /\ (128 <= rune2 b0 b1)%N.
Proof.
  intros Hls Hacc. unfold rune2, high.
  pose proof (low6_lt b1) as Hb1. destruct (lead2_byte b0 Hls) as [Hb0 Hlead].
  pose proof (peel_bounds (lead2 b0) _ Hb1) as Hr.
  split; [|lia]. rewrite EncodeRune_2 by lia.
  rewrite peel_shiftr, peel_land by done.
  by rewrite Hb0, (cont_byte b1 (accept_cont _ _ Hacc)).
Qed.

Lemma EncodeRune_rune3 b0 b1 b2 :
  utf8.leadSize b0 = 3 -> utf8.accept b0 b1 = true -> utf8.cont b2 = true ->
  utf8.EncodeRune (rune3 b0 b1 b2) = String b0 (String b1 (String b2 ""))
  /\ (128 <= rune3 b0 b1 b2)%N.
Proof.
  intros Hls Hacc Hc2. unfold rune3.
  pose proof (low6_lt b1) as Hb1. pose proof (low6_lt b2) as Hb2.
  destruct (high3_bounds b0 b1 Hls Hacc) as [Hh Hsur].
  pose proof (peel_bounds (high (lead3 b0) b1) _ Hb2) as Hr.
  split; [|lia]. rewrite EncodeRune_3 by lia.
  change 12%N with (6 + 6)%N. rewrite <- N.shiftr_shiftr.
  rewrite !peel_shiftr, peel_land by done. unfold high.
  rewrite peel_shiftr, peel_land by done.
  by rewrite (lead3_byte b0 Hls), (cont_byte b1 (accept_cont _ _ Hacc)), (cont_byte b2 Hc2).
Qed.

Lemma EncodeRune_rune4 b0 b1 b2 b3 :
  utf8.leadSize b0 = 4 -> utf8.accept b0 b1 = true -> utf8.cont b2 = true ->
  utf8.cont b3 = true ->
  utf8.EncodeRune (rune4 b0 b1 b2 b3) = String b0 (String b1 (String b2 (String b3 "")))
  /\ (128 <= rune4 b0 b1 b2 b3)%N.
Proof.
  intros Hls Hacc Hc2 Hc3. unfold rune4.
  pose proof (low6_lt b1) as Hb1. pose proof (low6_lt b2) as Hb2.
  pose proof (low6_lt b3) as Hb3.
  pose proof (high4_bounds b0 b1 Hls Hacc) as Hh.
  pose proof (peel_bounds (high (lead4 b0) b1) _ Hb2) as Hm.
  pose proof (peel_bounds (N.lor (N.shiftl (high (lead4 b0) b1) 6) (utf8.low6 b2)) _ Hb3)
    as Hr.
  split; [|lia]. rewrite EncodeRune_4 by lia.
  change 18%N with (6 + (6 + 6))%N. change 12%N with (6 + 6)%N.
  rewrite <- !N.shiftr_shiftr.
  rewrite !peel_shiftr, !peel_land by done. unfold high.
  rewrite peel_shiftr, peel_land by done.
  by rewrite (lead4_byte b0 Hls), (cont_byte b1 (accept_cont _ _ Hacc)),
    (cont_byte b2 Hc2), (cont_byte b3 Hc3).
Qed.

Lemma leadSize_1 b0 : utf8.leadSize b0 = 1 <-> (byteval b0 < 128)%N.
Proof.
  unfold utf8.leadSize. destruct (N.ltb_spec (byteval b0) 128); [done|].
  split; [|lia]. repeat case_match; done.
Qed.

Lemma leadSize_le b0 : utf8.leadSize b0 <= 4.
Proof. unfold utf8.leadSize. repeat case_match; lia. Qed.

Lemma DecodeRune_ascii b0 t :
  (byteval b0 < 128)%N -> utf8.DecodeRune (String b0 t) = (byteval b0, 1).
Proof.
  intros Hb%leadSize_1. unfold utf8.DecodeRune, utf8.decode. by rewrite Hb.
Qed.

(** What [DecodeRune] finds at the head of a string that starts with a
    byte outside ASCII: a byte that belongs to no sequence, or the
    sequence that [EncodeRune] writes for the rune, whatever comes
    after it. *)
Lemma DecodeRune_spec b0 t c size :
  (128 <= byteval b0)%N ->
  utf8.DecodeRune (String b0 t) = (c, size) ->
  (c = utf8.RuneError /\ size = 1)
  \/ (2 <= size /\ (128 <= c)%N
      /\ String.length (utf8.EncodeRune c) = size
      /\ (exists t', String b0 t = utf8.EncodeRune c +:+ t')
      /\ forall u, utf8.DecodeRune (utf8.EncodeRune c +:+ u) = (c, size)).
Proof.
  intros Hb0. unfold utf8.DecodeRune, utf8.decode.
  pose proof (leadSize_le b0) as Hle. pose proof (leadSize_1 b0) as H1.
  destruct (utf8.leadSize b0) as [|[|[|[|[|n]]]]] eqn:Hls; try lia.
  - intros [= <- <-]. by left.
  - (* two bytes *)
    destruct t as [|b1 t]; cbn [utf8.head utf8.tail]; [intros [= <- <-]; by left|].
    destruct (utf8.accept b0 b1) eqn:Hacc; cbn [negb]; [|intros [= <- <-]; by left].
    cbn [Nat.leb]. fold (lead2 b0) (high (lead2 b0) b1) (rune2 b0 b1).
    intros [= <- <-]. right.
    destruct (EncodeRune_rune2 b0 b1 Hls Hacc) as [Henc Hge]. rewrite Henc.
    split; [lia|]. split; [done|]. split; [done|]. split; [by exists t|].
    intros u. cbn [String.append utf8.head utf8.tail]. by rewrite Hls, Hacc.
  - (* three bytes *)
    destruct t as [|b1 t]; cbn [utf8.head utf8.tail]; [intros [= <- <-]; by left|].
    destruct (utf8.accept b0 b1) eqn:Hacc; cbn [negb]; [|intros [= <- <-]; by left].
    cbn [Nat.leb].
    destruct t as [|b2 t]; cbn [utf8.head utf8.tail]; [intros [= <- <-]; by left|].
    destruct (utf8.cont b2) eqn:Hc2; cbn [negb]; [|intros [= <- <-]; by left].
    rewrite rune3_eq. intros [= <- <-]. right.
    destruct (EncodeRune_rune3 b0 b1 b2 Hls Hacc Hc2) as [Henc Hge]. rewrite Henc.
    split; [lia|]. split; [done|]. split; [done|]. split; [by exists t|].
    intros u. cbn [String.append utf8.head utf8.tail].
    by rewrite Hls, Hacc, Hc2, rune3_eq.
  - (* four bytes *)
    destruct t as [|b1 t]; cbn [utf8.head utf8.tail]; [intros [= <- <-]; by left|].
    destruct (utf8.accept b0 b1) eqn:Hacc; cbn [negb]; [|intros [= <- <-]; by left].
    cbn [Nat.leb].
    destruct t as [|b2 t]; cbn [utf8.head utf8.tail]; [intros [= <- <-]; by left|].
    destruct (utf8.cont b2) eqn:Hc2; cbn [negb]; [|intros [= <- <-]; by left].
    destruct t as [|b3 t]; cbn [utf8.head utf8.tail]; [intros [= <- <-]; by left|].
    destruct (utf8.cont b3) eqn:Hc3; cbn [negb]; [|intros [= <- <-]; by left].
    rewrite rune4_eq. intros [= <- <-]. right.
    destruct (EncodeRune_rune4 b0 b1 b2 b3 Hls Hacc Hc2 Hc3) as [Henc Hge]. rewrite Henc.
    split; [lia|]. split; [done|]. split; [done|]. split; [by exists t|].
    intros u. cbn [String.append utf8.head utf8.tail].
    by rewrite Hls, Hacc, Hc2, Hc3, rune4_eq.
Qed.

Lemma takeBytes_app (a t : string) : takeBytes (String.length a) (a +:+ t) = a.
Proof. induction a as [|x a IH]; [by destruct t|]. cbn. by rewrite IH. Qed.

Lemma dropBytes_app (a t : string) : dropBytes (String.length a) (a +:+ t) = t.
Proof. induction a as [|x a IH]; [by destruct t|]. cbn. by rewrite IH. Qed.

Lemma length_app_s (a b : string) :
  String.length (a +:+ b) = String.length a + String.length b.
Proof. induction a as [|x a IH]; [done|]. cbn. by rewrite IH. Qed.

(** ** String literals, written and read back *)

Lemma unquoteBody_close fuel rest : unquoteBody (S fuel) (String dquote rest) = Ok "" rest.
Proof. reflexivity. Qed.

Lemma unquoteBody_escapeByte b :
  (byteval b < 128)%N -> htmlSafe b = false ->
  forall fuel t,
    unquoteBody (S fuel) (escapeByte b +:+ t) = mapOk (String b) (unquoteBody fuel t).
Proof.
  destruct b as [[] [] [] [] [] [] [] []]; intros Hb Hsafe fuel t;
    solve [ vm_compute in Hb; discriminate
          | vm_compute in Hsafe; discriminate
          | reflexivity ].
Qed.

Lemma htmlSafe_plain b fuel t :
  htmlSafe b = true ->
  unquoteBody (S fuel) (String b t) = mapOk (String b) (unquoteBody fuel t).
Proof.
  unfold htmlSafe. intros H.
  repeat match type of H with (_ && _ = true) => apply andb_prop in H as [H ?] end.
  cbn [unquoteBody].
  repeat match goal with
         | H : negb ?x = true |- _ => apply negb_true_iff in H; rewrite ?H
         end.
  assert (E3 : (byteval b <? 32)%N = false) by (apply N.ltb_ge, N.leb_le; done).
  match goal with H : (_ <? 128)%N = true |- _ => by rewrite E3, H end.
Qed.

Lemma nonascii_plain b fuel t :
  (128 <= byteval b)%N ->
  unquoteBody (S fuel) (String b t)
  = let '(rr, size) := utf8.DecodeRune (String b t) in
    mapOk (String.append (utf8.EncodeRune rr))
      (unquoteBody fuel (dropBytes size (String b t))).
Proof.
  intros Hb. cbn [unquoteBody].
  assert (E1 : Ascii.eqb b dquote = false).
  { apply Ascii.eqb_neq. intros ->. vm_compute in Hb. by apply Hb. }
  assert (E2 : Ascii.eqb b "\" = false).
  { apply Ascii.eqb_neq. intros ->. vm_compute in Hb. by apply Hb. }
  assert (E3 : (byteval b <? 32)%N = false) by (apply N.ltb_ge; lia).
  assert (E4 : (byteval b <? 128)%N = false) by (apply N.ltb_ge; lia).
  by rewrite E1, E2, E3, E4.
Qed.

Lemma unquoteBody_fffd fuel t :
  unquoteBody (S fuel) ("\" +:+ "ufffd" +:+ t)
  = mapOk (String.append (utf8.EncodeRune utf8.RuneError)) (unquoteBody fuel t).
Proof. reflexivity. Qed.

Lemma unquoteBody_2028 fuel t :
  unquoteBody (S fuel)
    (String "\" (String "u" (String "2" (String "0" (String "2"
       (String (hex (N.land 8232 15)) t))))))
  = mapOk (String.append (utf8.EncodeRune 8232)) (unquoteBody fuel t).
Proof. reflexivity. Qed.

Lemma unquoteBody_2029 fuel t :
  unquoteBody (S fuel)
    (String "\" (String "u" (String "2" (String "0" (String "2"
       (String (hex (N.land 8233 15)) t))))))
  = mapOk (String.append (utf8.EncodeRune 8233)) (unquoteBody fuel t).
Proof. reflexivity. Qed.

Lemma escapeByte_length b : 2 <= String.length (escapeByte b).
Proof.
  unfold escapeByte. repeat case_match; cbn; lia.
Qed.

Lemma mapOk_Ok {A B} (f : A -> B) (a : A) rest : mapOk f (Ok a rest) = Ok (f a) rest.
Proof. reflexivity. Qed.

(** Reading back what [appendString] writes inRange the quotes gives the
    string, coerced to well-formed UTF-8. *)
Lemma unquoteBody_appendStringBody n :
  forall s, String.length s <= n ->
  forall fuel rest,
    String.length (appendStringBody n s) < fuel ->
    unquoteBody fuel (appendStringBody n s +:+ String dquote rest)
    = Ok (coerceUTF8 n s) rest.
Proof.
  induction n as [|n IH]; intros s Hlen fuel rest Hfuel.
  { destruct s; [|cbn in Hlen; lia]. destruct fuel; [cbn in Hfuel; lia|]. reflexivity. }
  destruct s as [|b s].
  { destruct fuel; [cbn in Hfuel; lia|]. reflexivity. }
  cbn [String.length] in Hlen. cbn [appendStringBody coerceUTF8] in *.
  destruct (N.ltb_spec (byteval b) 128) as [Hb|Hb].
  - (* an ASCII byte *)
    rewrite DecodeRune_ascii by done.
    assert (Hne : (byteval b =? utf8.RuneError)%N = false).
    { apply N.eqb_neq. unfold utf8.RuneError. lia. }
    rewrite Hne. cbn [andb takeBytes dropBytes String.append].
    rewrite length_app_s in Hfuel. rewrite app_assoc_s.
    destruct fuel as [|fuel]; [lia|].
    destruct (htmlSafe b) eqn:Hsafe.
    + cbn [String.append]. rewrite htmlSafe_plain by done.
      cbn [String.length] in Hfuel. rewrite IH by lia. reflexivity.
    + rewrite unquoteBody_escapeByte by done.
      pose proof (escapeByte_length b). rewrite IH by lia. reflexivity.
  - (* a byte outside ASCII *)
    destruct (utf8.DecodeRune (String b s)) as [c size] eqn:Hdec.
    destruct (DecodeRune_spec b s c size Hb Hdec)
      as [[-> ->]|(Hsize & Hc & Hl & [t' Ht'] & Hpre)].
    + (* that starts no sequence *)
      cbn [N.eqb Pos.eqb utf8.RuneError Nat.eqb andb] in *.
      rewrite !length_app_s in Hfuel. cbn [String.length] in Hfuel.
      rewrite !app_assoc_s. destruct fuel as [|fuel]; [lia|].
      rewrite unquoteBody_fffd. rewrite IH by lia. reflexivity.
    + assert (Htake : takeBytes size (String b s) = utf8.EncodeRune c).
      { rewrite Ht', <- Hl. apply takeBytes_app. }
      assert (Hdrop : dropBytes size (String b s) = t').
      { rewrite Ht', <- Hl. apply dropBytes_app. }
      assert (Hlen' : String.length t' <= n).
      { apply (f_equal String.length) in Ht'. rewrite length_app_s in Ht'.
        cbn [String.length] in Ht'. lia. }
      rewrite Htake, Hdrop in *.
      assert (Hs1 : (size =? 1)%nat = false) by (apply Nat.eqb_neq; lia).
      rewrite Hs1, andb_false_r in *.
      destruct fuel as [|fuel]; [lia|].
      destruct (N.eqb_spec c 8232) as [->|Hc1]; [|destruct (N.eqb_spec c 8233) as [->|Hc2]];
        cbn [orb] in *.
      * rewrite length_app_s in Hfuel. cbn [String.length String.append] in Hfuel.
        rewrite app_assoc_s. cbn [String.append].
        rewrite (unquoteBody_2028 fuel). rewrite IH by lia. reflexivity.
      * rewrite length_app_s in Hfuel. cbn [String.length String.append] in Hfuel.
        rewrite app_assoc_s. cbn [String.append].
        rewrite (unquoteBody_2029 fuel). rewrite IH by lia. reflexivity.
      * rewrite length_app_s in Hfuel. rewrite app_assoc_s.
        destruct (utf8.EncodeRune c) as [|b' e] eqn:Henc; [cbn in Hl; lia|].
        assert (b' = b) as -> by (cbn in Ht'; congruence).
        cbn [String.append]. rewrite nonascii_plain by done.
        change (String b (e +:+ ?x)) with (String b e +:+ x).
        rewrite Hpre, <- Hl, dropBytes_app, Henc.
        cbn [String.length] in Hfuel.
        rewrite IH by lia. reflexivity.
Qed.

Lemma unquote_appendString (s rest : string) :
  unquote (appendStringBody (String.length s) s +:+ String dquote rest)
  = Ok (toValidUTF8 s) rest.
Proof.
  unfold unquote, toValidUTF8. apply unquoteBody_appendStringBody; [done|].
  rewrite length_app_s. cbn [String.length]. lia.
Qed.

(** ** Numbers, written and read back *)

Lemma digit_char (d : N) :
  (d < 10)%N ->
  isDigit (ascii_of_N (48 + d)) = true
  /\ (byteval (ascii_of_N (48 + d)) - 48)%N = d
  /\ (d <> 0%N -> inRange "1" "9" (ascii_of_N (48 + d)) = true).
Proof.
  intros Hd.
  assert (Hcases : d ∈ (N.of_nat <$> seq 0 10)).
  { apply list_elem_of_fmap. exists (N.to_nat d). split; [lia|].
    apply list_elem_of_In, in_seq. lia. }
  cbn in Hcases. rewrite !elem_of_cons, elem_of_nil in Hcases.
  destruct_or!; subst d; (split; [|split]); try reflexivity; try done.
Qed.

Lemma mod10_lt (n : N) : (n mod 10 < 10)%N.
Proof. by apply N.mod_lt. Qed.

Lemma formatBits_allDigits fuel n acc :
  allDigits acc = true -> allDigits (formatBits fuel n acc) = true.
Proof.
  revert n acc. induction fuel as [|fuel IH]; intros n acc Hacc; cbn [formatBits].
  - cbn. by rewrite (proj1 (digit_char _ (mod10_lt n))).
  - destruct (n <? 10)%N.
    + cbn. by rewrite (proj1 (digit_char _ (mod10_lt n))).
    + apply IH. cbn. by rewrite (proj1 (digit_char _ (mod10_lt n))).
Qed.

Lemma formatBits_head fuel n acc :
  n <> 0%N -> (n < 10 ^ N.of_nat (S fuel))%N ->
  exists c ds, formatBits fuel n acc = String c ds /\ inRange "1" "9" c = true.
Proof.
  revert n acc. induction fuel as [|fuel IH]; intros n acc Hn Hlt; cbn [formatBits].
  - change (10 ^ N.of_nat 1)%N with 10%N in Hlt.
    rewrite N.mod_small by done. eexists _, _. split; [done|].
    by apply digit_char.
  - destruct (N.ltb_spec n 10) as [H10|H10].
    + rewrite N.mod_small by done. eexists _, _. split; [done|]. by apply digit_char.
    + apply IH.
      * intros Hz. apply N.div_small_iff in Hz; lia.
      * apply N.Div0.div_lt_upper_bound.
        rewrite <- N.pow_succ_r'. by rewrite <- Nat2N.inj_succ.
Qed.

Lemma formatBits_value fuel n acc :
  (n < 10 ^ N.of_nat (S fuel))%N ->
  exists k, forall a,
    digitsValue a (formatBits fuel n acc) = digitsValue (a * 10 ^ k + n) acc.
Proof.
  revert n acc. induction fuel as [|fuel IH]; intros n acc Hlt; cbn [formatBits].
  - change (10 ^ N.of_nat 1)%N with 10%N in Hlt.
    exists 1%N. intros a. cbn [digitsValue].
    destruct (digit_char _ (mod10_lt n)) as (-> & -> & _).
    by rewrite N.mod_small, N.pow_1_r.
  - destruct (N.ltb_spec n 10) as [H10|H10].
    + exists 1%N. intros a. cbn [digitsValue].
      destruct (digit_char _ (mod10_lt n)) as (-> & -> & _).
      by rewrite N.mod_small, N.pow_1_r.
    + destruct (IH (n / 10)%N (String (ascii_of_N (48 + n mod 10)) acc)) as [k Hk].
      { apply N.Div0.div_lt_upper_bound.
        rewrite <- N.pow_succ_r'. by rewrite <- Nat2N.inj_succ. }
      exists (N.succ k). intros a. rewrite Hk. cbn [digitsValue].
      destruct (digit_char _ (mod10_lt n)) as (-> & -> & _). f_equal.
      rewrite N.pow_succ_r'.
      pose proof (N.div_mod n 10 ltac:(done)) as Hdm.
      generalize dependent (n / 10)%N. generalize dependent (n mod 10)%N. intros. lia.
Qed.

Lemma FormatUint_fuel (n : N) : (n < 10 ^ N.of_nat (S (N.to_nat (N.log2 n))))%N.
Proof.
  rewrite Nat2N.inj_succ, N2Nat.id.
  destruct (N.eq_dec n 0) as [->|Hn]; [done|].
  destruct (N.log2_spec n ltac:(lia)) as [_ Hlt].
  eapply N.lt_le_trans; [exact Hlt|]. apply N.pow_le_mono_l. lia.
Qed.

Lemma digitsValue_FormatUint (n : N) : digitsValue 0 (FormatUint n) = Some n.
Proof.
  unfold FormatUint. destruct (formatBits_value _ n "" (FormatUint_fuel n)) as [k Hk].
  rewrite Hk. cbn [digitsValue]. f_equal; lia.
Qed.

Lemma FormatUint_allDigits (n : N) : allDigits (FormatUint n) = true.
Proof. by apply formatBits_allDigits. Qed.

Lemma FormatUint_head (n : N) :
  n <> 0%N -> exists c ds, FormatUint n = String c ds /\ inRange "1" "9" c = true.
Proof. intros Hn. apply formatBits_head; [done|apply FormatUint_fuel]. Qed.

Lemma ParseUint_FormatUint (n : N) :
  (n <= maxUint64)%N -> ParseUint (FormatUint n) = Some n.
Proof.
  intros Hn. unfold ParseUint. rewrite digitsValue_FormatUint.
  destruct (N.leb_spec n maxUint64); [|lia].
  destruct (N.eq_dec n 0) as [->|Hz]; [done|].
  by destruct (FormatUint_head n Hz) as (c & ds & -> & _).
Qed.

Lemma spanDigits_allDigits ds rest :
  allDigits ds = true -> endsNumber rest = true ->
  spanDigits (ds +:+ rest) = (ds, rest).
Proof.
  intros Hds Hrest. induction ds as [|c ds IH].
  - cbn. destruct rest as [|c rest]; [done|]. cbn in Hrest |- *.
    destruct (isDigit c); [done|reflexivity].
  - cbn in Hds |- *. apply andb_prop in Hds as [Hc Hds]. by rewrite Hc, IH.
Qed.

Lemma spanDigits_app s ds r rest :
  spanDigits s = (ds, r) -> endsNumber rest = true ->
  spanDigits (s +:+ rest) = (ds, r +:+ rest).
Proof.
  revert ds r. induction s as [|c s IH]; intros ds r Hs Hrest.
  - cbn in Hs. simplify_eq. cbn. destruct rest as [|c rest]; [done|].
    cbn in Hrest |- *. destruct (isDigit c); [done|reflexivity].
  - cbn in Hs |- *. destruct (isDigit c); [|by simplify_eq].
    destruct (spanDigits s) as [ds' r'] eqn:Hs'. simplify_eq.
    by rewrite (IH _ _ eq_refl Hrest).
Qed.

Lemma digits1_app s ds r rest :
  digits1 s = Ok ds r -> endsNumber rest = true ->
  digits1 (s +:+ rest) = Ok ds (r +:+ rest).
Proof.
  unfold digits1. destruct s as [|c s]; [done|]. intros Hs Hrest.
  cbn [String.append]. destruct (isDigit c) eqn:Hc; [|done].
  change (String c (s +:+ rest)) with (String c s +:+ rest).
  destruct (spanDigits (String c s)) as [ds' r'] eqn:Hsp. simplify_eq.
  by rewrite (spanDigits_app _ _ _ _ Hsp Hrest).
Qed.

Lemma scanInt_app s i r rest :
  scanInt s = Ok i r -> endsNumber rest = true ->
  scanInt (s +:+ rest) = Ok i (r +:+ rest).
Proof.
  unfold scanInt. destruct s as [|c s]; [done|]. intros Hs Hrest.
  cbn [String.append]. destruct (Ascii.eqb c "0"); [by simplify_eq|].
  destruct (inRange "1" "9" c); [|done].
  destruct (spanDigits s) as [ds' r'] eqn:Hsp. simplify_eq.
  by rewrite (spanDigits_app _ _ _ _ Hsp Hrest).
Qed.

Lemma mapOk_app {A} (f : string -> A) m x r (rest : string) :
  mapOk f m = Ok x r ->
  exists y, m = Ok y r /\ x = f y.
Proof. destruct m; [done|]. cbn. intros [= <- <-]. eauto. Qed.

Lemma scanFrac_app s f r rest :
  scanFrac s = Ok f r -> endsNumber rest = true ->
  scanFrac (s +:+ rest) = Ok f (r +:+ rest).
Proof.
  unfold scanFrac. destruct s as [|c s].
  - intros [= <- <-] Hrest. cbn. destruct rest as [|c rest]; [done|].
    cbn in Hrest. destruct (Ascii.eqb c "."); [|done].
    by rewrite !orb_true_r in Hrest.
  - intros Hs Hrest. cbn [String.append]. destruct (Ascii.eqb c "."); [|by simplify_eq].
    apply (mapOk_app _ _ _ _ rest) in Hs as (y & Hy & ->).
    by rewrite (digits1_app _ _ _ _ Hy Hrest).
Qed.

Lemma scanExp_app s e r rest :
  scanExp s = Ok e r -> endsNumber rest = true ->
  scanExp (s +:+ rest) = Ok e (r +:+ rest).
Proof.
  unfold scanExp. destruct s as [|c s].
  - intros [= <- <-] Hrest. cbn. destruct rest as [|c rest]; [done|].
    cbn in Hrest. destruct (Ascii.eqb c "e"), (Ascii.eqb c "E"); cbn [orb]; try done;
      by rewrite ?orb_true_r in Hrest.
  - intros Hs Hrest. cbn [String.append].
    destruct (Ascii.eqb c "e" || Ascii.eqb c "E"); [|by simplify_eq].
    destruct s as [|g s]; [done|]. cbn [String.append].
    destruct (Ascii.eqb g "+" || Ascii.eqb g "-").
    + apply (mapOk_app _ _ _ _ rest) in Hs as (y & Hy & ->).
      by rewrite (digits1_app _ _ _ _ Hy Hrest).
    + apply (mapOk_app _ _ _ _ rest) in Hs as (y & Hy & ->).
      change (String g (s +:+ rest)) with (String g s +:+ rest).
      by rewrite (digits1_app _ _ _ _ Hy Hrest).
Qed.

Lemma bind_Ok {A B} (m : scan A) (f : A -> string -> scan B) x r :
  bind m f = Ok x r -> exists y r', m = Ok y r' /\ f y r' = Ok x r.
Proof. destruct m; [done|]. cbn. eauto. Qed.

Lemma scanNumber_app s lit r rest :
  scanNumber s = Ok lit r -> endsNumber rest = true ->
  scanNumber (s +:+ rest) = Ok lit (r +:+ rest).
Proof.
  unfold scanNumber. intros Hs Hrest.
  destruct s as [|c s].
  { cbn in Hs. done. }
  cbn [String.append].
  set (split := if Ascii.eqb c "-" then ("-", s) else ("", String c s)) in *.
  assert (Hsplit : (if Ascii.eqb c "-" then ("-", s +:+ rest)
                    else ("", String c (s +:+ rest)))
                   = (split.1, split.2 +:+ rest)).
  { unfold split. by destruct (Ascii.eqb c "-"). }
  rewrite Hsplit. destruct split as [sign s1]. cbn [fst snd] in *.
  apply bind_Ok in Hs as (i & r1 & Hi & Hs).
  apply bind_Ok in Hs as (f & r2 & Hf & Hs).
  apply bind_Ok in Hs as (e & r3 & He & Hs). simplify_eq.
  rewrite (scanInt_app _ _ _ _ Hi Hrest). cbn [bind].
  rewrite (scanFrac_app _ _ _ _ Hf Hrest). cbn [bind].
  by rewrite (scanExp_app _ _ _ _ He Hrest).
Qed.

(** A number literal is read back whatever follows it, as long as what
    follows cannot be part of a number. *)
Lemma scanNumber_valid lit rest :
  validNumber lit -> endsNumber rest = true -> scanNumber (lit +:+ rest) = Ok lit rest.
Proof. intros Hlit Hrest. by rewrite (scanNumber_app _ _ _ _ Hlit Hrest). Qed.

Lemma validNumber_head lit :
  validNumber lit -> exists c s, lit = String c s /\ (Ascii.eqb c "-" || isDigit c) = true.
Proof.
  unfold validNumber, scanNumber. destruct lit as [|c s]; [done|]. intros Hs.
  exists c, s. split; [done|]. destruct (Ascii.eqb c "-"); [done|]. cbn [orb].
  apply bind_Ok in Hs as (i & r1 & Hi & _). unfold scanInt in Hi.
  destruct (Ascii.eqb_spec c "0") as [->|_]; [done|].
  destruct (inRange "1" "9" c) eqn:Hc; [|done].
  unfold isDigit, inRange in *. apply andb_prop in Hc as [H1 H2].
  apply andb_true_intro. split; [|done].
  apply N.leb_le in H1. apply N.leb_le. cbn in H1 |- *. lia.
Qed.

Lemma validNumber_FormatUint (n : N) : validNumber (FormatUint n).
Proof.
  unfold validNumber. destruct (N.eq_dec n 0) as [->|Hn]; [reflexivity|].
  pose proof (FormatUint_allDigits n) as Hall.
  destruct (FormatUint_head n Hn) as (c & ds & Heq & Hc). rewrite Heq in *.
  cbn [allDigits] in Hall. apply andb_prop in Hall as [_ Hds].
  unfold scanNumber.
  assert (E1 : Ascii.eqb c "-" = false).
  { apply Ascii.eqb_neq. intros ->. done. }
  assert (E2 : Ascii.eqb c "0" = false).
  { apply Ascii.eqb_neq. intros ->. done. }
  rewrite E1. unfold scanInt. rewrite E2, Hc.
  pose proof (spanDigits_allDigits ds "" Hds eq_refl) as Hsp.
  rewrite app_nil_r_s in Hsp. rewrite Hsp. cbn. by rewrite app_nil_r_s.
Qed.

(** ** The reader: what is left is shorter, and fuel beyond need changes nothing *)

Lemma skipSpace_length s : String.length (skipSpace s) <= String.length s.
Proof. induction s as [|c s IH]; [done|]. cbn. destruct (isSpace c); cbn; lia. Qed.

Lemma dropBytes_length n s : String.length (dropBytes n s) <= String.length s.
Proof.
  revert s. induction n as [|n IH]; intros [|c s]; cbn; try lia.
  specialize (IH s). lia.
Qed.

Lemma dropBytes_S_length n c s :
  String.length (dropBytes (S n) (String c s)) < String.length (String c s).
Proof. cbn. pose proof (dropBytes_length n s). lia. Qed.

Lemma hex4_rest s x r : hex4 s = Some (x, r) -> String.length s = 4 + String.length r.
Proof.
  unfold hex4. destruct s as [|a [|b [|c [|d s]]]]; try done.
  repeat case_match; try done. by intros [= _ <-].
Qed.

Lemma getu4_rest s x r : getu4 s = Some (x, r) -> String.length s = 6 + String.length r.
Proof.
  unfold getu4. destruct s as [|c [|u s]]; try done.
  case_match; [|done]. intros Hx%hex4_rest. cbn. lia.
Qed.

Lemma DecodeRune_size b s : 1 <= (utf8.DecodeRune (String b s)).2.
Proof.
  destruct (N.ltb_spec (byteval b) 128) as [Hb|Hb].
  - by rewrite DecodeRune_ascii.
  - destruct (utf8.DecodeRune (String b s)) as [c size] eqn:Hdec.
    destruct (DecodeRune_spec b s c size Hb Hdec) as [[_ ->]|(Hsize & _)]; cbn; lia.
Qed.

Lemma mapOk_rest {A B} (f : A -> B) (m : scan A) x r :
  mapOk f m = Ok x r -> exists y, m = Ok y r.
Proof. destruct m; [done|]. cbn. intros [= _ <-]. eauto. Qed.

Lemma unquoteBody_rest fuel :
  forall s x r, unquoteBody fuel s = Ok x r -> String.length r < String.length s.
Proof.
  induction fuel as [|fuel IH]; intros s x r; [by destruct s|].
  destruct s as [|c s]; [done|]. cbn [unquoteBody].
  repeat case_match; try done; subst;
    try (intros [= _ <-]; cbn; lia);
    try (intros [y Hy%IH]%mapOk_rest; cbn [String.length] in *;
         repeat match goal with
                | H : hex4 _ = Some _ |- _ => apply hex4_rest in H
                | H : getu4 _ = Some _ |- _ => apply getu4_rest in H
                end; cbn [String.length] in *; lia).
  intros [y Hy%IH]%mapOk_rest.
  match goal with H : utf8.DecodeRune (String c s) = (_, ?size) |- _ =>
    pose proof (DecodeRune_size c s) as Hsz; rewrite H in Hsz; cbn in Hsz;
    destruct size as [|size']; [lia|];
    pose proof (dropBytes_S_length size' c s); lia end.
Qed.

Lemma unquote_rest s x r : unquote s = Ok x r -> String.length r < String.length s.
Proof. apply unquoteBody_rest. Qed.

Lemma spanDigits_rest s ds r : spanDigits s = (ds, r) -> String.length r <= String.length s.
Proof.
  revert ds r. induction s as [|c s IH]; intros ds r; cbn; [by intros [= <- <-]|].
  destruct (isDigit c); [|intros [= <- <-]; cbn; lia].
  destruct (spanDigits s) as [ds' r'] eqn:Hs. intros [= <- <-].
  specialize (IH _ _ eq_refl). lia.
Qed.

Lemma digits1_rest s ds r : digits1 s = Ok ds r -> String.length r <= String.length s.
Proof.
  unfold digits1. destruct s as [|c s]; [done|]. destruct (isDigit c); [|done].
  destruct (spanDigits (String c s)) as [ds' r'] eqn:Hs. intros [= <- <-].
  by apply spanDigits_rest in Hs.
Qed.

Lemma scanInt_rest s i r : scanInt s = Ok i r -> String.length r < String.length s.
Proof.
  unfold scanInt. destruct s as [|c s]; [done|].
  destruct (Ascii.eqb c "0"); [intros [= _ <-]; cbn; lia|].
  destruct (inRange "1" "9" c); [|done].
  destruct (spanDigits s) as [ds' r'] eqn:Hs. intros [= _ <-].
  apply spanDigits_rest in Hs. cbn. lia.
Qed.

Lemma scanFrac_rest s f r : scanFrac s = Ok f r -> String.length r <= String.length s.
Proof.
  unfold scanFrac. destruct s as [|c s]; [by intros [= _ <-]|].
  destruct (Ascii.eqb c "."); [|by intros [= _ <-]].
  intros [y Hy%digits1_rest]%mapOk_rest. cbn. lia.
Qed.

Lemma scanExp_rest s e r : scanExp s = Ok e r -> String.length r <= String.length s.
Proof.
  unfold scanExp. destruct s as [|c s]; [by intros [= _ <-]|].
  destruct (Ascii.eqb c "e" || Ascii.eqb c "E"); [|by intros [= _ <-]].
  destruct s as [|g s]; [done|].
  destruct (Ascii.eqb g "+" || Ascii.eqb g "-");
    intros [y Hy%digits1_rest]%mapOk_rest; cbn in *; lia.
Qed.

Lemma scanNumber_rest s lit r : scanNumber s = Ok lit r -> String.length r < String.length s.
Proof.
  unfold scanNumber. intros Hs.
  assert (Hsplit : forall sign s1,
             match s with
             | String c t => if Ascii.eqb c "-" then ("-", t) else ("", s)
             | EmptyString => ("", s)
             end = (sign, s1) -> String.length s1 <= String.length s).
  { intros sign s1. destruct s as [|c t]; [by intros [= _ <-]|].
    destruct (Ascii.eqb c "-"); intros [= _ <-]; cbn; lia. }
  destruct (match s with
            | String c t => if Ascii.eqb c "-" then ("-", t) else ("", s)
            | EmptyString => ("", s)
            end) as [sign s1].
  specialize (Hsplit _ _ eq_refl).
  apply bind_Ok in Hs as (i & r1 & Hi%scanInt_rest & Hs).
  apply bind_Ok in Hs as (f & r2 & Hf%scanFrac_rest & Hs).
  apply bind_Ok in Hs as (e & r3 & He%scanExp_rest & Hs). simplify_eq. lia.
Qed.

Lemma expect_rest kw s u r : expect kw s = Ok u r -> String.length r <= String.length s.
Proof.
  revert s. induction kw as [|k kw IH]; intros s; cbn; [by intros [= _ <-]|].
  destruct s as [|c s]; [done|]. destruct (Ascii.eqb c k); [|done].
  intros Hx%IH. cbn. lia.
Qed.

(** Reading a value, the members of an object or the elements of an array
    takes at least one character off the text. *)
Lemma reader_rest fuel :
  forall d s,
    (forall v r, readValue fuel d s = Ok v r -> String.length r < String.length s)
    /\ (forall m r, readMembers fuel d s = Ok m r -> String.length r < String.length s)
    /\ (forall l r, readElems fuel d s = Ok l r -> String.length r < String.length s).
Proof.
  induction fuel as [|fuel IH]; intros d s; [done|].
  split; [|split].
  - intros v r. cbn [readValue]. destruct s as [|c s]; [done|].
    pose proof (skipSpace_length s) as Hsp.
    repeat case_match; try done; subst;
      try (intros [= _ <-]; cbn [String.length] in *; lia);
      try (intros [y Hy]%mapOk_rest; cbn [String.length] in *;
           first [ apply (proj1 (proj2 (IH _ _))) in Hy
                 | apply (proj2 (proj2 (IH _ _))) in Hy
                 | apply unquote_rest in Hy
                 | apply expect_rest in Hy
                 | apply scanNumber_rest in Hy ];
           cbn [String.length] in *; lia).
  - intros m r. cbn [readMembers]. destruct s as [|c s]; [done|].
    destruct (negb (Ascii.eqb c dquote)); [done|].
    intros (key & r0 & Hkey%unquote_rest & Hm)%bind_Ok.
    pose proof (skipSpace_length r0) as Hsp0.
    destruct (skipSpace r0) as [|colon r1]; [done|].
    destruct (negb (Ascii.eqb colon ":")); [done|].
    apply bind_Ok in Hm as (v & r2 & Hv & Hm).
    apply (proj1 (IH _ _)) in Hv.
    pose proof (skipSpace_length r1) as Hsp1. pose proof (skipSpace_length r2) as Hsp2.
    destruct (skipSpace r2) as [|c' r3]; [done|].
    pose proof (skipSpace_length r3) as Hsp3.
    repeat case_match; try done.
    + apply mapOk_rest in Hm as [y Hy]. apply (proj1 (proj2 (IH _ _))) in Hy.
      cbn [String.length] in *. lia.
    + simplify_eq. cbn [String.length] in *. lia.
  - intros l r. cbn [readElems].
    intros (v & r0 & Hv & Hl)%bind_Ok. apply (proj1 (IH _ _)) in Hv.
    pose proof (skipSpace_length r0) as Hsp0.
    destruct (skipSpace r0) as [|c r1]; [done|].
    pose proof (skipSpace_length r1) as Hsp1.
    repeat case_match; try done.
    + apply mapOk_rest in Hl as [y Hy]. apply (proj2 (proj2 (IH _ _))) in Hy.
      cbn [String.length] in *. lia.
    + simplify_eq. cbn [String.length] in *. lia.
Qed.

Lemma bind_ext {A B} (m : scan A) (f g : A -> string -> scan B) :
  (forall x r, m = Ok x r -> f x r = g x r) -> bind m f = bind m g.
Proof. destruct m; cbn; auto. Qed.

(** Fuel above twice the length of the text is never used up: with that
    much, the three readers answer the same whatever fuel they get on top,
    errors included. *)
Lemma reader_fuel fuel :
  forall fuel' d s, fuel <= fuel' ->
    (2 * String.length s + 1 <= fuel -> readValue fuel d s = readValue fuel' d s)
    /\ (2 * String.length s + 1 <= fuel -> readMembers fuel d s = readMembers fuel' d s)
    /\ (2 * String.length s + 2 <= fuel -> readElems fuel d s = readElems fuel' d s).
Proof.
  induction fuel as [|fuel IH]; intros fuel' d s Hle; [repeat split; lia|].
  destruct fuel' as [|fuel']; [lia|].
  assert (Hle' : fuel <= fuel') by lia.
  split; [|split]; intros Hs.
  - cbn [readValue]. destruct s as [|c s]; [done|]. cbn [String.length] in Hs.
    pose proof (skipSpace_length s) as Hsp.
    destruct (skipSpace s) as [|c' r] eqn:Hr; [done|].
    repeat case_match; try done; f_equal.
    + apply (IH fuel' _ _ Hle'). lia.
    + apply (IH fuel' _ _ Hle'). cbn [String.length] in *. lia.
  - cbn [readMembers]. destruct s as [|c s]; [done|]. cbn [String.length] in Hs.
    case_match; [done|].
    apply bind_ext. intros key r0 Hkey%unquote_rest.
    pose proof (skipSpace_length r0) as Hsp0.
    destruct (skipSpace r0) as [|colon r1]; [done|].
    case_match; [done|]. cbn [String.length] in Hsp0.
    pose proof (skipSpace_length r1) as Hsp1.
    rewrite <- (proj1 (IH fuel' d (skipSpace r1) Hle')) by lia.
    apply bind_ext. intros v r2 Hv%reader_rest.
    pose proof (skipSpace_length r2) as Hsp2.
    destruct (skipSpace r2) as [|c' r3]; [done|]. cbn [String.length] in Hsp2.
    pose proof (skipSpace_length r3) as Hsp3.
    repeat case_match; try done. f_equal.
    apply (IH fuel' _ _ Hle'). lia.
  - cbn [readElems].
    rewrite <- (proj1 (IH fuel' d s Hle')) by lia.
    apply bind_ext. intros v r0 Hv%reader_rest.
    pose proof (skipSpace_length r0) as Hsp0.
    destruct (skipSpace r0) as [|c r1]; [done|]. cbn [String.length] in Hsp0.
    pose proof (skipSpace_length r1) as Hsp1.
    repeat case_match; try done. f_equal.
    apply (IH fuel' _ _ Hle'). lia.
Qed.

(** [scanValue] gives the reader all the fuel it can use. *)
Lemma scanValue_fuel data fuel :
  S (2 * String.length data) <= fuel ->
  readValue fuel 0 (skipSpace data) = scanValue data.
Proof.
  intros Hfuel. unfold scanValue. symmetry.
  apply reader_fuel; [done|]. pose proof (skipSpace_length data). lia.
Qed.

(** The fuel of [unquote] likewise: every step reads a character. *)
Lemma unquoteBody_fuel fuel :
  forall fuel' s, fuel <= fuel' -> String.length s <= fuel ->
    unquoteBody fuel s = unquoteBody fuel' s.
Proof.
  induction fuel as [|fuel IH]; intros fuel' s Hle Hs.
  - destruct s; [|cbn in Hs; lia]. by destruct fuel'.
  - destruct fuel' as [|fuel']; [lia|]. destruct s as [|c s]; [done|].
    cbn [String.length] in Hs. cbn [unquoteBody].
    repeat case_match; try done; subst; f_equal;
      try (apply IH; [lia|];
           repeat match goal with
                  | H : hex4 _ = Some _ |- _ => apply hex4_rest in H
                  | H : getu4 _ = Some _ |- _ => apply getu4_rest in H
                  end; cbn [String.length] in *; lia).
    apply IH; [lia|].
    match goal with H : utf8.DecodeRune (String c s) = (_, ?size) |- _ =>
      pose proof (DecodeRune_size c s) as Hsz; rewrite H in Hsz; cbn in Hsz;
      destruct size as [|size']; [lia|];
      pose proof (dropBytes_S_length size' c s); cbn [String.length] in *; lia end.
Qed.

(** ** Values, written and read back *)

Lemma value_nested_ind (P : value -> Prop) :
  P Null -> (forall b, P (Bool b)) -> (forall lit, P (Number lit)) ->
  (forall s, P (Str s)) ->
  (forall elems, Forall P elems -> P (Array elems)) ->
  (forall members, Forall (fun m => P m.2) members -> P (Object members)) ->
  forall v, P v.
Proof.
  intros Hnull Hbool Hnum Hstr Harr Hobj.
  fix IH 1. intros [| b | lit | s | elems | members].
  - exact Hnull.
  - apply Hbool.
  - apply Hnum.
  - apply Hstr.
  - apply Harr. induction elems as [|x elems IHl]; constructor; [apply IH|exact IHl].
  - apply Hobj. induction members as [|[k x] members IHl]; constructor;
      [apply IH|exact IHl].
Qed.

Lemma startsValue_skipSpace s : startsValue s -> skipSpace s = s.
Proof. intros (c & t & -> & Hsp & _). cbn. by rewrite Hsp. Qed.

Lemma startsValue_app s t : startsValue s -> startsValue (s +:+ t).
Proof. intros (c & u & -> & H). exists c, (u +:+ t). done. Qed.

Lemma startsValue_length s : startsValue s -> 1 <= String.length s.
Proof. intros (c & t & -> & _). cbn. lia. Qed.

Lemma number_start c :
  (Ascii.eqb c "-" || isDigit c) = true ->
  isSpace c = false /\ Ascii.eqb c "]" = false /\ Ascii.eqb c "}" = false
  /\ Ascii.eqb c "{" = false /\ Ascii.eqb c "[" = false /\ Ascii.eqb c dquote = false
  /\ Ascii.eqb c "t" = false /\ Ascii.eqb c "f" = false /\ Ascii.eqb c "n" = false.
Proof.
  intros Hc.
  pose proof (bytes_ind (fun c => Ascii.eqb c "-" || isDigit c)
    (fun c => negb (isSpace c) && negb (Ascii.eqb c "]") && negb (Ascii.eqb c "}")
              && negb (Ascii.eqb c "{") && negb (Ascii.eqb c "[")
              && negb (Ascii.eqb c dquote) && negb (Ascii.eqb c "t")
              && negb (Ascii.eqb c "f") && negb (Ascii.eqb c "n"))
    ltac:(vm_compute; reflexivity) c Hc) as H.
  cbv beta in H.
  repeat match type of H with (_ && _ = true) => apply andb_prop in H as [H ?] end.
  repeat match goal with H : negb _ = true |- _ => apply negb_true_iff in H end.
  repeat apply conj; assumption.
Qed.

Lemma render_starts v : numbersValid v -> startsValue (render v).
Proof.
  destruct v as [| [] | lit | s | elems | members]; cbn [render numbersValid]; intros Hv;
    try (eexists _, _; split; [reflexivity|done]).
  destruct (validNumber_head lit Hv) as (c & s & -> & Hc).
  exists c, s. split; [done|]. by destruct (number_start c Hc) as (? & ? & ? & _).
Qed.

Lemma endsNumber_sep c t :
  Ascii.eqb c "," || Ascii.eqb c "]" || Ascii.eqb c "}" = true ->
  endsNumber (String c t) = true.
Proof.
  intros Hc. cbn.
  apply (bytes_ind (fun c => Ascii.eqb c "," || Ascii.eqb c "]" || Ascii.eqb c "}")
    (fun c => negb (isDigit c || Ascii.eqb c "." || Ascii.eqb c "e" || Ascii.eqb c "E")));
    [vm_compute; reflexivity|done].
Qed.

Lemma concat_cons2 sep (a b : string) l :
  String.concat sep (a :: b :: l) = a +:+ sep +:+ String.concat sep (b :: l).
Proof. reflexivity. Qed.

Lemma skipSpace_nospace c t : isSpace c = false -> skipSpace (String c t) = String c t.
Proof. intros H. cbn. by rewrite H. Qed.

Lemma concat_starts sep a (l : list string) t :
  startsValue a -> startsValue (String.concat sep (a :: l) +:+ t).
Proof.
  intros Ha. destruct l; [cbn|rewrite concat_cons2]; by repeat apply startsValue_app.
Qed.

Lemma readElems_render elems :
  elems <> [] -> Forall readsBack elems ->
  forall fuel d rest,
    foldr (fun x P => numbersValid x /\ P) True elems ->
    (d + foldr (fun x d => N.max (depth x) d) 0 elems <= maxNestingDepth)%N ->
    String.length (String.concat "," (map render elems)) + 1 < fuel ->
    readElems fuel d (String.concat "," (map render elems) +:+ String "]" rest)
    = Ok (map normalize elems) rest.
Proof.
  intros Hne Hall. induction Hall as [|x l Hx Hl IH]; [done|]. clear Hne.
  intros fuel d rest [Hvx Hvl] Hd Hfuel. cbn [foldr] in Hd.
  destruct fuel as [|fuel]; [lia|]. cbn [readElems].
  pose proof (startsValue_length _ (render_starts x Hvx)) as Hlx.
  destruct l as [|y l].
  - cbn [map String.concat] in *.
    rewrite Hx; [|done|lia|lia|done]. cbn [bind].
    rewrite (skipSpace_nospace "]" _ eq_refl). reflexivity.
  - cbn [map] in *. rewrite concat_cons2 in *. rewrite !length_app_s in Hfuel.
    cbn [String.length] in Hfuel. rewrite !app_assoc_s. cbn [String.append].
    rewrite Hx; [|done|lia|lia|done]. cbn [bind].
    rewrite (skipSpace_nospace "," _ eq_refl). cbn [Ascii.eqb Bool.eqb].
    destruct Hvl as [Hvy Hvl].
    rewrite startsValue_skipSpace.
    2:{ apply concat_starts. by apply render_starts. }
    rewrite IH; [reflexivity|done|done| |].
    + cbn [foldr] in Hd |- *. lia.
    + lia.
Qed.

Lemma memberText_app m t :
  memberText m +:+ t
  = String dquote (appendStringBody (String.length m.1) m.1
                     +:+ String dquote (String ":" (render m.2 +:+ t))).
Proof.
  unfold memberText, appendString. cbn [String.append].
  by rewrite !app_assoc_s.
Qed.

Lemma memberText_length m : String.length (render m.2) + 3 <= String.length (memberText m).
Proof.
  unfold memberText, appendString. cbn [String.append String.length].
  rewrite !length_app_s. cbn [String.length]. lia.
Qed.

Lemma memberText_starts m t : startsValue (memberText m +:+ t).
Proof. rewrite memberText_app. eexists _, _. split; [reflexivity|done]. Qed.

Lemma readMembers_render members :
  members <> [] -> Forall (fun m => readsBack m.2) members ->
  forall fuel d rest,
    foldr (fun m P => numbersValid m.2 /\ P) True members ->
    (d + foldr (fun m d => N.max (depth m.2) d) 0 members <= maxNestingDepth)%N ->
    String.length (String.concat "," (map memberText members)) + 1 < fuel ->
    readMembers fuel d (String.concat "," (map memberText members) +:+ String "}" rest)
    = Ok (map (fun m => (toValidUTF8 m.1, normalize m.2)) members) rest.
Proof.
  intros Hne Hall. induction Hall as [|m l Hm Hl IH]; [done|]. clear Hne.
  intros fuel d rest [Hvm Hvl] Hd Hfuel. cbn [foldr] in Hd.
  destruct fuel as [|fuel]; [lia|].
  pose proof (memberText_length m) as Hlm.
  pose proof (startsValue_length _ (render_starts _ Hvm)) as Hlx.
  destruct l as [|m' l].
  - cbn [map String.concat] in *. rewrite memberText_app. cbn [readMembers].
    change (negb (dquote =? dquote)%char) with false. cbn match.
    rewrite unquote_appendString. cbn [bind].
    rewrite (skipSpace_nospace ":" _ eq_refl). cbn [Ascii.eqb Bool.eqb negb].
    rewrite startsValue_skipSpace by (apply startsValue_app; by apply render_starts).
    rewrite Hm; [|done|lia|lia|done]. cbn [bind].
    rewrite (skipSpace_nospace "}" _ eq_refl). reflexivity.
  - cbn [map] in *. rewrite concat_cons2 in *. rewrite !length_app_s in Hfuel.
    cbn [String.length] in Hfuel. rewrite !app_assoc_s. cbn [String.append].
    rewrite memberText_app. cbn [readMembers].
    change (negb (dquote =? dquote)%char) with false. cbn match.
    rewrite unquote_appendString. cbn [bind].
    rewrite (skipSpace_nospace ":" _ eq_refl). cbn [Ascii.eqb Bool.eqb negb].
    rewrite startsValue_skipSpace by (apply startsValue_app; by apply render_starts).
    rewrite Hm; [|done|lia|lia|done]. cbn [bind].
    rewrite (skipSpace_nospace "," _ eq_refl). cbn [Ascii.eqb Bool.eqb].
    destruct Hvl as [Hvm' Hvl].
    rewrite startsValue_skipSpace.
    2:{ destruct (map memberText l); [cbn|rewrite concat_cons2, !app_assoc_s];
          apply memberText_starts. }
    rewrite IH; [reflexivity|done|done| |].
    + cbn [foldr] in Hd |- *. lia.
    + lia.
Qed.

(** Every value is read back from its text. *)
Theorem readValue_render v : readsBack v.
Proof.
  induction v as [| b | lit | s | elems IH | members IH] using value_nested_ind;
    intros fuel d rest Hv Hd Hfuel Hrest; (destruct fuel as [|fuel]; [lia|]).
  - reflexivity.
  - by destruct b.
  - cbn [render normalize numbersValid] in *.
    destruct (validNumber_head lit Hv) as (c & s & -> & Hc).
    cbn [String.append readValue].
    destruct (number_start c Hc) as (_ & _ & _ & -> & -> & -> & -> & -> & ->).
    rewrite Hc. change (String c (s +:+ rest)) with (String c s +:+ rest).
    by rewrite scanNumber_valid.
  - cbn [render normalize]. unfold appendString. cbn [String.append readValue].
    rewrite app_assoc_s. cbn [String.append].
    change ((dquote =? "{")%char) with false. change ((dquote =? "[")%char) with false.
    change ((dquote =? dquote)%char) with true. cbn match.
    by rewrite unquote_appendString.
  - cbn [render normalize numbersValid depth] in *.
    rewrite !length_app_s in Hfuel. cbn [String.length] in Hfuel.
    rewrite !app_assoc_s. cbn [String.append readValue].
    change (("[" =? "{")%char) with false. change (("[" =? "[")%char) with true.
    cbn match.
    destruct (N.ltb_spec maxNestingDepth (d + 1)) as [|_]; [lia|].
    destruct elems as [|x elems]; [reflexivity|].
    assert (Hx : numbersValid x) by (by destruct Hv).
    rewrite startsValue_skipSpace by (apply concat_starts; by apply render_starts).
    pose proof (concat_starts "," (render x) (map render elems) (String "]" rest)
                  (render_starts x Hx)) as (c & r & Htext & _ & Hc & _).
    change (render x :: map render elems) with (map render (x :: elems)) in Htext.
    rewrite Htext, Hc, <- Htext.
    rewrite readElems_render; [reflexivity|done|done|done| |]; lia.
  - cbn [render normalize numbersValid depth] in *.
    fold memberText in *.
    rewrite !length_app_s in Hfuel. cbn [String.length] in Hfuel.
    rewrite !app_assoc_s. cbn [String.append readValue].
    change (("{" =? "{")%char) with true. cbn match.
    destruct (N.ltb_spec maxNestingDepth (d + 1)) as [|_]; [lia|].
    destruct members as [|m members]; [reflexivity|].
    assert (Hstart : startsValue (String.concat "," (map memberText (m :: members))
                                    +:+ String "}" rest)).
    { cbn [map]. destruct (map memberText members);
        [cbn|rewrite concat_cons2, !app_assoc_s]; apply memberText_starts. }
    rewrite startsValue_skipSpace by done.
    destruct Hstart as (c & r & Htext & _ & _ & Hc). rewrite Htext, Hc, <- Htext.
    rewrite readMembers_render; [reflexivity|done|done|done| |]; lia.
Qed.

(** [parse] reads back the text of a value. *)
Theorem parse_render v :
  numbersValid v -> (depth v <= maxNestingDepth)%N ->
  parse (render v) = inr (normalize v).
Proof.
  intros Hv Hd. unfold parse, scanValue.
  rewrite startsValue_skipSpace by (by apply render_starts).
  rewrite <- (app_nil_r_s (render v)) at 2.
  rewrite readValue_render; [reflexivity|done|lia|lia|done].
Qed.

(** ** Records, written and read back *)

Lemma omit_step {S} (F : list (decField S)) (acc : S * option error) (c : bool) m :
  (c = true -> storeMember F acc m = acc) ->
  foldl (storeMember F) acc (if c then [] else [m]) = storeMember F acc m.
Proof. destruct c; cbn; [intros H; by rewrite H|done]. Qed.

Lemma map_if {A B} (f : A -> B) (c : bool) (x : A) :
  map f (if c then [] else [x]) = if c then [] else [f x].
Proof. by destruct c. Qed.

Lemma store_Meta (m : Meta.t) :
  store (normalize (encode m)) (Meta.mk false) = (m, None).
Proof. by destruct m as [[]]. Qed.

Lemma encode_DNSRecord_eq (d : DNSRecord) :
  encode d
  = Object
      ((if isEmptyValue (DNSRecord.Id d) then [] else [("id", Str (DNSRecord.Id d))])
       ++ (if isEmptyValue (DNSRecord.Type' d) then []
           else [("type", Str (DNSRecord.Type' d))])
       ++ (if isEmptyValue (DNSRecord.Name d) then []
           else [("name", Str (DNSRecord.Name d))])
       ++ (if isEmptyValue (DNSRecord.Content d) then []
           else [("content", Str (DNSRecord.Content d))])
       ++ (if isEmptyValue (DNSRecord.Proxiable d) then []
           else [("proxiable", Bool (DNSRecord.Proxiable d))])
       ++ (if isEmptyValue (DNSRecord.Proxied d) then []
           else [("proxied", Bool (DNSRecord.Proxied d))])
       ++ (if isEmptyValue (DNSRecord.Ttl d) then []
           else [("ttl", Number (FormatUint (DNSRecord.Ttl d)))])
       ++ (if isEmptyValue (DNSRecord.Locked d) then []
           else [("locked", Bool (DNSRecord.Locked d))])
       ++ (if isEmptyValue (DNSRecord.ZoneId d) then []
           else [("zone_id", Str (DNSRecord.ZoneId d))])
       ++ (if isEmptyValue (DNSRecord.ZoneName d) then []
           else [("zone_name", Str (DNSRecord.ZoneName d))])
       ++ (if isEmptyValue (DNSRecord.ModifiedOn d) then []
           else [("modified_on", Str (DNSRecord.ModifiedOn d))])
       ++ (if isEmptyValue (DNSRecord.CreatedOn d) then []
           else [("created_on", Str (DNSRecord.CreatedOn d))])
       ++ [("meta",
            Object (if isEmptyValue (Meta.AutoAdded (DNSRecord.Meta d)) then []
                    else [("auto_added", Bool (Meta.AutoAdded (DNSRecord.Meta d)))]))])%list.
Proof.
  cbn [encode DNSRecord_Marshaler]. unfold encodeStruct. f_equal.
  cbn [DNSRecord.fields fmap list_fmap field fst flat_map eomitempty eempty evalue
         ename andb].
  rewrite app_nil_r. repeat f_equal.
  cbn [encode Meta_Marshaler isEmptyValue]. unfold encodeStruct.
  cbn [Meta.fields fmap list_fmap field fst flat_map eomitempty eempty evalue ename andb].
  by rewrite app_nil_r.
Qed.

Lemma store_encode_DNSRecord (d : DNSRecord) :
  (DNSRecord.Ttl d <= maxUint64)%N ->
  store (normalize (encode d)) DNSRecord.empty = (coerced d, None).
Proof.
  intros Httl. rewrite encode_DNSRecord_eq.
  destruct d as [id ty nm ct pa pd ttl lk zi zn mo co [aa]].
  cbn [DNSRecord.Id DNSRecord.Type' DNSRecord.Name DNSRecord.Content DNSRecord.Proxiable
         DNSRecord.Proxied DNSRecord.Ttl DNSRecord.Locked DNSRecord.ZoneId
         DNSRecord.ZoneName DNSRecord.ModifiedOn DNSRecord.CreatedOn DNSRecord.Meta
         Meta.AutoAdded] in *.
  cbn [normalize]. rewrite !map_app, !map_if.
  cbn [store DNSRecord_Unmarshaler storeStruct]. rewrite !foldl_app.
  cbn [map fst snd normalize].
  change (toValidUTF8 "id") with "id". change (toValidUTF8 "type") with "type".
  change (toValidUTF8 "name") with "name". change (toValidUTF8 "content") with "content".
  change (toValidUTF8 "proxiable") with "proxiable".
  change (toValidUTF8 "proxied") with "proxied". change (toValidUTF8 "ttl") with "ttl".
  change (toValidUTF8 "locked") with "locked".
  change (toValidUTF8 "zone_id") with "zone_id".
  change (toValidUTF8 "zone_name") with "zone_name".
  change (toValidUTF8 "modified_on") with "modified_on".
  change (toValidUTF8 "created_on") with "created_on".
  change (toValidUTF8 "meta") with "meta".
  change (toValidUTF8 "auto_added") with "auto_added".
  unfold DNSRecord.empty.
  rewrite (omit_step _ (DNSRecord.mk _ _ _ _ _ _ _ _ _ _ _ _ _, _)) by omit_side id. run_member.
  rewrite (omit_step _ (DNSRecord.mk _ _ _ _ _ _ _ _ _ _ _ _ _, _)) by omit_side ty. run_member.
  rewrite (omit_step _ (DNSRecord.mk _ _ _ _ _ _ _ _ _ _ _ _ _, _)) by omit_side nm. run_member.
  rewrite (omit_step _ (DNSRecord.mk _ _ _ _ _ _ _ _ _ _ _ _ _, _)) by omit_side ct. run_member.
  rewrite (omit_step _ (DNSRecord.mk _ _ _ _ _ _ _ _ _ _ _ _ _, _)) by omit_side pa. run_member.
  rewrite (omit_step _ (DNSRecord.mk _ _ _ _ _ _ _ _ _ _ _ _ _, _)) by omit_side pd. run_member.
  rewrite (omit_step _ (DNSRecord.mk _ _ _ _ _ _ _ _ _ _ _ _ _, _)) by omit_side ttl. run_member.
  rewrite (ParseUint_FormatUint ttl Httl).
  rewrite (omit_step _ (DNSRecord.mk _ _ _ _ _ _ _ _ _ _ _ _ _, _)) by omit_side lk. run_member.
  rewrite (omit_step _ (DNSRecord.mk _ _ _ _ _ _ _ _ _ _ _ _ _, _)) by omit_side zi. run_member.
  rewrite (omit_step _ (DNSRecord.mk _ _ _ _ _ _ _ _ _ _ _ _ _, _)) by omit_side zn. run_member.
  rewrite (omit_step _ (DNSRecord.mk _ _ _ _ _ _ _ _ _ _ _ _ _, _)) by omit_side mo. run_member.
  rewrite (omit_step _ (DNSRecord.mk _ _ _ _ _ _ _ _ _ _ _ _ _, _)) by omit_side co. run_member.
  cbn [foldl]. destruct aa; reflexivity.
Qed.

Lemma DNSRecord_String_render (d : DNSRecord) : DNSRecord_String d = render (encode d).
Proof. reflexivity. Qed.

Lemma numbersValid_members (members : list (string * value)) :
  Forall (fun m => numbersValid m.2) members ->
  foldr (fun m P => numbersValid m.2 /\ P) True members.
Proof. induction 1; cbn; auto. Qed.

Lemma depth_members (members : list (string * value)) (k : N) :
  Forall (fun m => (depth m.2 <= k)%N) members ->
  (foldr (fun m d => N.max (depth m.2) d) 0 members <= k)%N.
Proof. induction 1; cbn; lia. Qed.

Lemma Forall_omit {A} (P : A -> Prop) (c : bool) (x : A) :
  P x -> Forall P (if c then [] else [x]).
Proof. destruct c; auto. Qed.

Lemma encode_DNSRecord_wf (d : DNSRecord) :
  numbersValid (encode d) /\ (depth (encode d) <= 2)%N.
Proof.
  rewrite encode_DNSRecord_eq. cbn [numbersValid depth].
  assert (Hall : forall members : list (string * value),
             Forall (fun m => numbersValid m.2 /\ (depth m.2 <= 1)%N) members ->
             foldr (fun m P => numbersValid m.2 /\ P) True members
             /\ (1 + foldr (fun m d => N.max (depth m.2) d) 0 members <= 2)%N).
  { intros members Hm. split.
    - apply numbersValid_members. eapply Forall_impl; [exact Hm|]. by intros ? [? _].
    - assert (foldr (fun m d => N.max (depth m.2) d) 0 members <= 1)%N; [|lia].
      apply depth_members. eapply Forall_impl; [exact Hm|]. by intros ? [_ ?]. }
  apply Hall. repeat (apply Forall_app; split); try apply Forall_omit;
    try (cbn; split; [try done|lia]).
  - apply validNumber_FormatUint.
  - constructor; [|constructor]. cbn.
    destruct (negb _); cbn; split; (done || lia).
Qed.

(** The text of a record is read back as the object the encoder writes. *)
Lemma parse_DNSRecord_String (d : DNSRecord) :
  parse (DNSRecord_String d) = inr (normalize (encode d)).
Proof.
  rewrite DNSRecord_String_render. destruct (encode_DNSRecord_wf d) as [Hv Hd].
  apply parse_render; [done|]. unfold maxNestingDepth. lia.
Qed.

Lemma Unmarshal_DNSRecord_String (d : DNSRecord) :
  (DNSRecord.Ttl d <= maxUint64)%N ->
  Unmarshal (DNSRecord_String d) DNSRecord.empty = (coerced d, None).
Proof.
  intros Httl. unfold Unmarshal. rewrite parse_DNSRecord_String.
  by apply store_encode_DNSRecord.
Qed.

Lemma toValidUTF8_cons b s : exists c t, toValidUTF8 (String b s) = String c t.
Proof.
  unfold toValidUTF8. cbn [String.length coerceUTF8].
  destruct (N.ltb_spec (byteval b) 128) as [Hb|Hb].
  - rewrite DecodeRune_ascii by done.
    assert (Hne : (byteval b =? utf8.RuneError)%N = false).
    { apply N.eqb_neq. unfold utf8.RuneError. lia. }
    rewrite Hne. cbn. eauto.
  - destruct (utf8.DecodeRune (String b s)) as [c size] eqn:Hdec.
    destruct (DecodeRune_spec b s c size Hb Hdec)
      as [[-> ->]|(Hsize & Hc & Hl & [t' Ht'] & Hpre)].
    + cbn. eauto.
    + assert (Hs1 : (size =? 1)%nat = false) by (apply Nat.eqb_neq; lia).
      rewrite Hs1, andb_false_r.
      destruct size as [|size]; [lia|]. cbn [takeBytes String.append]. eauto.
Qed.

Lemma isEmptyValue_toValidUTF8 (s : string) :
  isEmptyValue (toValidUTF8 s) = isEmptyValue s.
Proof.
  destruct s as [|b s]; [reflexivity|].
  by destruct (toValidUTF8_cons b s) as (c & t & ->).
Qed.

Lemma populated_coerced (d : DNSRecord) : populated (coerced d) = populated d.
Proof.
  unfold populated, coerced. cbn [DNSRecord.Id DNSRecord.Type' DNSRecord.Name
    DNSRecord.Content DNSRecord.Proxiable DNSRecord.Proxied DNSRecord.Ttl DNSRecord.Locked
    DNSRecord.ZoneId DNSRecord.ZoneName DNSRecord.ModifiedOn DNSRecord.CreatedOn
    DNSRecord.Meta].
  by rewrite !isEmptyValue_toValidUTF8.
Qed.

Lemma coerced_valid (d : DNSRecord) : stringsValid d -> coerced d = d.
Proof.
  unfold stringsValid, validUTF8, coerced. intros (-> & -> & -> & -> & -> & -> & -> & ->).
  by destruct d.
Qed.

(** C6: the text [DNSRecord.String] writes for a record decodes, without
    error, into a fresh record in which exactly the same fields are
    populated, and all others are at their zero value; each string field
    comes back coerced to well-formed UTF-8, so that a record whose strings
    are well-formed UTF-8 comes back unchanged. *)
Theorem C6_serialize_deserialize (d : DNSRecord) :
  (DNSRecord.Ttl d <= maxUint64)%N ->
  Unmarshal (DNSRecord_String d) DNSRecord.empty = (coerced d, None)
  /\ populated (coerced d) = populated d
  /\ (stringsValid d -> coerced d = d).
Proof.
  intros Httl. split; [by apply Unmarshal_DNSRecord_String|].
  split; [apply populated_coerced|apply coerced_valid].
Qed.

Lemma C6_serialize_deserialize_witness :
  DNSRecord_String partialRecord
  = dq "{'type':'A','name':'ww1.example.com','proxied':true,'ttl':120,'meta':{}}"
  /\ Unmarshal (DNSRecord_String partialRecord) DNSRecord.empty = (partialRecord, None).
Proof.
  split; [vm_compute; reflexivity|].
  assert (Httl : (DNSRecord.Ttl partialRecord <= maxUint64)%N) by (vm_compute; discriminate).
  destruct (C6_serialize_deserialize partialRecord Httl) as (Hrt & _ & Hvalid).
  assert (Hs : stringsValid partialRecord) by (repeat split; vm_compute; reflexivity).
  rewrite Hrt, (Hvalid Hs). reflexivity.
Defined.

Lemma find_app_s {A} (f : A -> bool) (l1 l2 : list A) :
  find f (l1 ++ l2) = match find f l1 with Some x => Some x | None => find f l2 end.
Proof. induction l1 as [|x l1 IH]; [done|]. cbn. by destruct (f x). Qed.

Lemma find_omit {A} (f : A -> bool) (c : bool) (x : A) :
  find f (if c then [] else [x]) = if f x then (if c then None else Some x) else None.
Proof. destruct c; cbn; by destruct (f x). Qed.

Lemma member_DNSRecord (d : DNSRecord) :
  Forall (fun kv => member kv.1 (encode d) = kv.2) (membersOf d).
Proof.
  unfold membersOf.
  rewrite encode_DNSRecord_eq. unfold member.
  repeat (apply Forall_cons_2;
          [cbn [fst snd]; rewrite !find_app_s, !find_omit;
           cbn [fst String.eqb Ascii.eqb Bool.eqb find];
           match goal with |- context [isEmptyValue ?x] => destruct (isEmptyValue x) end;
           reflexivity|]).
  apply Forall_nil_2.
Qed.

Lemma member_meta (d : DNSRecord) :
  member "meta" (encode d)
  = Some (Object (if isEmptyValue (Meta.AutoAdded (DNSRecord.Meta d)) then []
                  else [("auto_added", Bool (Meta.AutoAdded (DNSRecord.Meta d)))])).
Proof.
  rewrite encode_DNSRecord_eq. unfold member. rewrite !find_app_s, !find_omit.
  reflexivity.
Qed.

(** C5: in the JSON object written for a record, which is the body of the
    requests of [Create] and [Update], each of the twelve fields [id] to
    [created_on] is present exactly when its value is not the zero value,
    and so is [auto_added] inside [meta]; the [meta] object itself is
    always written. *)
Theorem C5_zero_fields_omitted (d : DNSRecord) :
  DNSRecord_String d = render (encode d)
  /\ parse (DNSRecord_String d) = inr (normalize (encode d))
  /\ Forall (fun kv => member kv.1 (encode d) = kv.2) (membersOf d)
  /\ (member "meta" (encode d) ≫= member "auto_added")
     = (if Meta.AutoAdded (DNSRecord.Meta d) then Some (Bool true) else None)
  /\ (forall (tr : Transport) (c : Config) (zoneId : string),
        DNSRecordsSvc.Create (GetDNSRecordsSvc (Some c)) zoneId d
        = Return (answer DNSRecord.empty
                    (Do (request c "POST" (recordsUrl zoneId) (Some (render (encode d))))))
        /\ DNSRecordsSvc.Update (GetDNSRecordsSvc (Some c)) zoneId d
           = Return (answer DNSRecord.empty
                       (Do (request c "PUT" (recordUrl zoneId (DNSRecord.Id d))
                              (Some (render (encode d))))))).
Proof.
  split; [reflexivity|]. split; [apply parse_DNSRecord_String|].
  split; [apply member_DNSRecord|]. split.
  - rewrite member_meta. cbn. by destruct (Meta.AutoAdded (DNSRecord.Meta d)).
  - intros tr c zoneId. split; [apply Create_request|apply Update_request].
Qed.

Example String_empty_record : DNSRecord_String DNSRecord.empty = dq "{'meta':{}}".
Proof. vm_compute. reflexivity. Qed.

(** ** Configurations, services and responses that hold no envelope *)

Lemma NewConfig_None mail apiKey ctype skip :
  mail = "" \/ apiKey = "" -> NewConfig mail apiKey ctype skip = None.
Proof. intros H. unfold NewConfig. by destruct (decide (mail = "" \/ apiKey = "")). Qed.

(** X1: a configuration that [NewConfig] returns has the email and the key
    it was given, neither empty, and a content type that is not empty:
    [application/json] when none was given.  [Invoke] on either service made
    from it returns, and hands one request to the transport: the method, URL
    and body it was called with, the three headers [X-Auth-Email],
    [X-Auth-Key] and [Content-Type] it adds, with the values of the
    configuration, and the certificate check switched as the configuration
    says. *)
Theorem NewConfig_Invoke_headers {tr : Transport}
    (mail apiKey ctype : string) (skip : bool) (c : Config) :
  NewConfig mail apiKey ctype skip = Some c ->
  let sent method urlStr body :=
    {| Method := method; URL := urlStr;
       Header := [("X-Auth-Email", mail); ("X-Auth-Key", apiKey);
                  ("Content-Type",
                    if decide (ctype = "") then "application/json" else ctype)];
       RequestBody := body; TLSInsecureSkipVerify := skip |} in
  mail <> "" /\ apiKey <> ""
  /\ email c = mail /\ key c = apiKey /\ contentType c <> ""
  /\ insecureSkipVerify c = skip
  /\ (forall method urlStr body,
        Invoke (ZonesSvc_BaseSvc (GetZonesSvc (NewConfig mail apiKey ctype skip)))
          method urlStr body = Return (Do (sent method urlStr body)))
  /\ (forall method urlStr body,
        Invoke (DNSRecordsSvc_BaseSvc (GetDNSRecordsSvc (NewConfig mail apiKey ctype skip)))
          method urlStr body = Return (Do (sent method urlStr body))).
Proof.
  intros Hc sent. unfold NewConfig in Hc |- *.
  destruct (decide (mail = "" \/ apiKey = "")) as [|Hne]; [done|].
  injection Hc as <-. cbn.
  repeat apply conj; try done.
  - intros ->. apply Hne. by left.
  - intros ->. apply Hne. by right.
  - by destruct (decide (ctype = "")).
Qed.

Lemma NewConfig_Invoke_headers_witness :
  let tr := noResponse in
  Invoke (DNSRecordsSvc_BaseSvc (GetDNSRecordsSvc (NewConfig "me@example.com" "k" "" true)))
    "GET" "https://api.cloudflare.com/client/v4/zones/" None
  = Return (Do {| Method := "GET"; URL := "https://api.cloudflare.com/client/v4/zones/";
                  Header := [("X-Auth-Email", "me@example.com"); ("X-Auth-Key", "k");
                             ("Content-Type", "application/json")];
                  RequestBody := None; TLSInsecureSkipVerify := true |}).
Proof.
  intros tr.
  exact (proj2 (proj2 (proj2 (proj2 (proj2 (proj2 (proj2
           (NewConfig_Invoke_headers (tr := tr) "me@example.com" "k" "" true _ eq_refl)))))))
           "GET" "https://api.cloudflare.com/client/v4/zones/" None).
Defined.

(** X2: when the email or the key is empty [NewConfig] returns [nil]; the
    two factories accept it all the same, and every operation of the
    services they return panics, on the [nil] configuration [Invoke] reads,
    before any request is made. *)
Theorem nil_config_panics {tr : Transport}
    (mail apiKey ctype : string) (skip : bool) :
  mail = "" \/ apiKey = "" ->
  let config := NewConfig mail apiKey ctype skip in
  config = None
  /\ ZonesSvc.Get (GetZonesSvc config) = Panic
  /\ (forall zoneId, DNSRecordsSvc.Get (GetDNSRecordsSvc config) zoneId = Panic)
  /\ (forall zoneId typeStr name content page perPage,
        DNSRecordsSvc.Search (GetDNSRecordsSvc config) zoneId typeStr name content
          page perPage = Panic)
  /\ (forall zoneId d, DNSRecordsSvc.Create (GetDNSRecordsSvc config) zoneId d = Panic)
  /\ (forall zoneId d, DNSRecordsSvc.Update (GetDNSRecordsSvc config) zoneId d = Panic)
  /\ (forall zoneId d, DNSRecordsSvc.Delete (GetDNSRecordsSvc config) zoneId d = Panic).
Proof.
  intros Hempty config. unfold config. rewrite (NewConfig_None _ _ _ _ Hempty).
  repeat apply conj; reflexivity.
Qed.

Lemma nil_config_panics_witness :
  let tr := always rejectionBody in
  NewConfig "" "k" "application/json" false = None
  /\ ZonesSvc.Get (GetZonesSvc (NewConfig "" "k" "application/json" false)) = Panic
  /\ DNSRecordsSvc.Delete (GetDNSRecordsSvc (NewConfig "me@example.com" "" "" false))
       "z1" DNSRecord.empty = Panic.
Proof.
  intros tr. split; [|split].
  - exact (proj1 (nil_config_panics (tr := tr) "" "k" "application/json" false
                    (or_introl eq_refl))).
  - exact (proj1 (proj2 (nil_config_panics (tr := tr) "" "k" "application/json" false
                           (or_introl eq_refl)))).
  - exact (proj2 (proj2 (proj2 (proj2 (proj2 (proj2
             (nil_config_panics (tr := tr) "me@example.com" "" "" false
                (or_intror eq_refl))))))) "z1" DNSRecord.empty).
Defined.

(** X3: when the transport gives no response, every operation returns the
    zero value of its result together with the error of the transport, as it
    is: the [nil] slice for the three listings, the empty record for
    [Create] and [Update], and for [Delete] the empty string, not the id of
    its argument. *)
Theorem no_response_returns_transport_error {tr : Transport} (c : Config) :
  (forall e,
      Do (request c "GET" (ApiUrlBase +:+ APiUrlZones) None) = (None, e) ->
      ZonesSvc.Get (GetZonesSvc (Some c)) = Return (nilSlice, e))
  /\ (forall zoneId e,
      Do (request c "GET" (recordsUrl zoneId) None) = (None, e) ->
      DNSRecordsSvc.Get (GetDNSRecordsSvc (Some c)) zoneId = Return (nilSlice, e))
  /\ (forall zoneId typeStr name content page perPage e,
      Do (request c "GET" (searchUrl zoneId typeStr name content page perPage) None)
      = (None, e) ->
      DNSRecordsSvc.Search (GetDNSRecordsSvc (Some c)) zoneId typeStr name content
        page perPage = Return (nilSlice, e))
  /\ (forall zoneId d e,
      Do (request c "POST" (recordsUrl zoneId) (Some (DNSRecord_String d))) = (None, e) ->
      DNSRecordsSvc.Create (GetDNSRecordsSvc (Some c)) zoneId d
      = Return (DNSRecord.empty, e))
  /\ (forall zoneId d e,
      Do (request c "PUT" (recordUrl zoneId (DNSRecord.Id d)) (Some (DNSRecord_String d)))
      = (None, e) ->
      DNSRecordsSvc.Update (GetDNSRecordsSvc (Some c)) zoneId d
      = Return (DNSRecord.empty, e))
  /\ (forall zoneId d e,
      Do (request c "DELETE" (recordUrl zoneId (DNSRecord.Id d)) None) = (None, e) ->
      DNSRecordsSvc.Delete (GetDNSRecordsSvc (Some c)) zoneId d = Return ("", e)).
Proof.
  repeat apply conj; intros.
  - rewrite ZonesSvc_Get_request. by match goal with H : Do _ = _ |- _ => rewrite H end.
  - rewrite Get_request. by match goal with H : Do _ = _ |- _ => rewrite H end.
  - rewrite Search_request. by match goal with H : Do _ = _ |- _ => rewrite H end.
  - rewrite Create_request. by match goal with H : Do _ = _ |- _ => rewrite H end.
  - rewrite Update_request. by match goal with H : Do _ = _ |- _ => rewrite H end.
  - rewrite Delete_request. by match goal with H : Do _ = _ |- _ => rewrite H end.
Qed.

Lemma no_response_returns_transport_error_witness :
  let tr := noResponse in
  let d := DNSRecord.set_Id "abc123" DNSRecord.empty in
  DNSRecordsSvc.Get (GetDNSRecordsSvc (Some exampleConfig)) "z1"
  = Return (nilSlice, Some (TransportError "no network"))
  /\ DNSRecordsSvc.Delete (GetDNSRecordsSvc (Some exampleConfig)) "z1" d
     = Return ("", Some (TransportError "no network")).
Proof.
  intros tr d.
  destruct (no_response_returns_transport_error (tr := tr) exampleConfig)
    as (_ & Hget & _ & _ & _ & Hdelete).
  split.
  - exact (Hget "z1" _ eq_refl).
  - exact (Hdelete "z1" d _ eq_refl).
Defined.

Lemma Decode_Fail {T} `{Unmarshaler T} (body : string) (result : T) e :
  scanValue body = Fail e ->
  Decode {| Body := body |} result
  = (result, Some (match e with
                   | UnexpectedEnd =>
                       match skipSpace body with
                       | EmptyString => EOF
                       | _ => ErrUnexpectedEOF
                       end
                   | _ => SyntaxError e
                   end)).
Proof.
  intros He. unfold Decode, DecoderDecode. cbn [Body]. rewrite He. by destruct e.
Qed.

Lemma scanValue_blank body : skipSpace body = "" -> scanValue body = Fail UnexpectedEnd.
Proof. intros Hb. unfold scanValue. by rewrite Hb. Qed.

Lemma scanValue_garbage body c t :
  skipSpace body = String c t -> beginsValue c = false ->
  scanValue body = Fail InvalidCharacter.
Proof.
  intros Hb Hc. unfold scanValue. rewrite Hb. cbn [readValue].
  unfold beginsValue in Hc. repeat (apply orb_false_elim in Hc as [Hc ?]).
  repeat match goal with H : _ = false |- _ => rewrite H; clear H end.
  reflexivity.
Qed.

(** X4: a body from which no JSON value can be read makes [Decode] return
    an error and leave the target as it was; the operations then return the
    zero value and that error.  The error is [io.EOF] for a body that is
    empty or all white space, and a syntax error for a body whose first
    character after white space starts no JSON value, as the [<] of an
    HTML page. *)
Theorem Decode_body_without_value {T} `{Unmarshaler T} (body : string) (result : T) :
  (skipSpace body = "" -> Decode {| Body := body |} result = (result, Some EOF))
  /\ (forall c t, skipSpace body = String c t -> beginsValue c = false ->
        Decode {| Body := body |} result = (result, Some (SyntaxError InvalidCharacter)))
  /\ (forall e, scanValue body = Fail e ->
        exists err, Decode {| Body := body |} result = (result, Some err)).
Proof.
  split; [|split].
  - intros Hb. rewrite (Decode_Fail _ _ _ (scanValue_blank _ Hb)). by rewrite Hb.
  - intros c t Hb Hc. by rewrite (Decode_Fail _ _ _ (scanValue_garbage _ _ _ Hb Hc)).
  - intros e He. rewrite (Decode_Fail _ _ _ He). eauto.
Qed.

Lemma Decode_body_without_value_witness :
  let page := dq "<html><body>502 Bad Gateway</body></html>" in
  let tr := always page in
  let d := DNSRecord.set_Id "abc123" DNSRecord.empty in
  Decode {| Body := " " |} d = (d, Some EOF)
  /\ Decode {| Body := page |} d = (d, Some (SyntaxError InvalidCharacter))
  /\ DNSRecordsSvc.Get (GetDNSRecordsSvc (Some exampleConfig)) "z1"
     = Return (nilSlice, Some (SyntaxError InvalidCharacter)).
Proof.
  intros page tr d. split; [|split].
  - exact (proj1 (Decode_body_without_value " " d) eq_refl).
  - exact (proj1 (proj2 (Decode_body_without_value page d)) "<"%char _ eq_refl eq_refl).
  - rewrite Get_request.
    exact (f_equal Return
             (proj1 (proj2 (Decode_body_without_value page nilSlice))
                "<"%char _ eq_refl eq_refl)).
Defined.

(** X5: a body whose first JSON value is not an object holds no envelope.
    For [null] [Decode] returns no error and leaves the target as it was;
    for an array, a string, a number or a boolean it returns the type error
    of the envelope decoder, naming the kind of the value, and leaves the
    target as it was. *)
Theorem Decode_envelope_not_object {T} `{Unmarshaler T} (body : string) (result : T)
    (v : value) (rest : string) :
  scanValue body = Ok v rest ->
  (v = Null -> Decode {| Body := body |} result = (result, None))
  /\ (v <> Null -> (forall members, v <> Object members) ->
      Decode {| Body := body |} result
      = (result, Some (UnmarshalTypeError (describe v) "cloudflare.Message"))).
Proof.
  intros Hv. unfold Decode, DecoderDecode. cbn [Body]. rewrite Hv. split.
  - by intros ->.
  - intros Hnull Hobj. destruct v; try done. by destruct (Hobj members).
Qed.

Lemma Decode_envelope_not_object_witness :
  let d := DNSRecord.set_Id "abc123" DNSRecord.empty in
  Decode {| Body := "null" |} d = (d, None)
  /\ Decode {| Body := dq "[{'id':'xyz789'}]" |} d
     = (d, Some (UnmarshalTypeError "array" "cloudflare.Message")).
Proof.
  intros d. split.
  - exact (proj1 (Decode_envelope_not_object "null" d Null "" eq_refl) eq_refl).
  - refine (proj2 (Decode_envelope_not_object (dq "[{'id':'xyz789'}]") d
                     (Array [Object [("id", Str "xyz789")]]) "" _) _ _);
      [vm_compute; reflexivity|discriminate|discriminate].
Defined.

(** ** Keys and fields *)

Lemma find_Some_elem {A} (p : A -> bool) (l : list A) (x : A) :
  find p l = Some x -> x ∈ l /\ p x = true.
Proof.
  induction l as [|a l IH]; [done|]. cbn. destruct (p a) eqn:Hp.
  - intros [= <-]. split; [left|done].
  - intros [Hin Hx]%IH. split; [by right|done].
Qed.

Lemma find_None_elem {A} (p : A -> bool) (l : list A) (x : A) :
  find p l = None -> x ∈ l -> p x = false.
Proof.
  induction l as [|a l IH]; [by intros _ ?%elem_of_nil|]. cbn.
  destruct (p a) eqn:Hp; [done|]. intros Hf [->|Hin]%elem_of_cons; auto.
Qed.

Lemma NoDup_fmap_elem {A B} (h : A -> B) (l : list A) (x y : A) :
  NoDup (h <$> l) -> x ∈ l -> y ∈ l -> h x = h y -> x = y.
Proof.
  induction l as [|a l IH]; [by intros _ ?%elem_of_nil|].
  cbn. intros [Ha Hl]%NoDup_cons [->|Hx]%elem_of_cons [->|Hy]%elem_of_cons Hxy; auto.
  - destruct Ha. rewrite Hxy. by apply list_elem_of_fmap_2.
  - destruct Ha. rewrite <- Hxy. by apply list_elem_of_fmap_2.
Qed.

(** A key that is the name of a field up to letter case finds that field,
    when no two fields have the same name up to case. *)
Lemma findField_fold {S} (fields : list (decField S)) (k : string) (f : decField S) :
  NoDup (foldedNames fields) -> f ∈ fields -> foldName k = foldName (dname f) ->
  findField fields k = Some f.
Proof.
  intros Hnd Hf Hk. unfold findField.
  destruct (find (fun g => String.eqb (dname g) k) fields) as [g|] eqn:Hexact.
  - apply find_Some_elem in Hexact as [Hg Hgk]. apply String.eqb_eq in Hgk.
    f_equal. apply (NoDup_fmap_elem _ _ _ _ Hnd Hg Hf). by rewrite Hgk.
  - destruct (find (fun g => String.eqb (foldName (dname g)) (foldName k)) fields)
      as [g|] eqn:Hfold.
    + apply find_Some_elem in Hfold as [Hg Hgk]. apply String.eqb_eq in Hgk.
      f_equal. apply (NoDup_fmap_elem _ _ _ _ Hnd Hg Hf). by rewrite Hgk.
    + apply (find_None_elem _ _ f) in Hfold; [|done].
      apply String.eqb_neq in Hfold. by destruct Hfold.
Qed.

(** A key that is the name of no field, whatever the letter case, finds
    none. *)
Lemma findField_None {S} (fields : list (decField S)) (k : string) :
  foldName k ∉ foldedNames fields -> findField fields k = None.
Proof.
  intros Hk. unfold findField.
  destruct (find (fun g => String.eqb (dname g) k) fields) as [g|] eqn:Hexact.
  { apply find_Some_elem in Hexact as [Hg Hgk]. apply String.eqb_eq in Hgk.
    destruct Hk. rewrite <- Hgk. by apply (list_elem_of_fmap_2 (fun f => foldName (dname f))). }
  destruct (find (fun g => String.eqb (foldName (dname g)) (foldName k)) fields)
    as [g|] eqn:Hfold; [|done].
  apply find_Some_elem in Hfold as [Hg Hgk]. apply String.eqb_eq in Hgk.
  destruct Hk. rewrite <- Hgk. by apply (list_elem_of_fmap_2 (fun f => foldName (dname f))).
Qed.

Lemma storeStruct_member {S} (name : string) (fields : list (decField S))
    (k : string) (v : value) (s : S) (f : decField S) :
  findField fields k = Some f ->
  storeStruct name fields (Object [(k, v)]) s = dstore f v s.
Proof.
  intros Hf. cbn [storeStruct foldl]. unfold storeMember. cbn [fst snd]. rewrite Hf.
  by destruct (dstore f v s).
Qed.

Lemma storeStruct_skip {S} (name : string) (fields : list (decField S))
    (k : string) (v : value) (m1 m2 : list (string * value)) (s : S) :
  findField fields k = None ->
  storeStruct name fields (Object (m1 ++ (k, v) :: m2)) s
  = storeStruct name fields (Object (m1 ++ m2)) s.
Proof.
  intros Hk. cbn [storeStruct]. rewrite !foldl_app. cbn [foldl]. f_equal.
  generalize (foldl (storeMember fields) (s, None) m1). intros acc.
  unfold storeMember. cbn [fst]. by rewrite Hk.
Qed.

Lemma foldedNames_Zone :
  foldedNames (snd <$> Zone.fields)
  = ["NAME"; "ID"; "TYPE"; "NAME_SERVERS"; "STATUS"; "PAUSED"; "ORIGINAL_NAME_SERVERS";
     "DEVELOPMENT_MODE"].
Proof. vm_compute. reflexivity. Qed.

Lemma foldedNames_DNSRecord :
  foldedNames (snd <$> DNSRecord.fields)
  = ["ID"; "TYPE"; "NAME"; "CONTENT"; "PROXIABLE"; "PROXIED"; "TTL"; "LOCKED";
     "ZONE_ID"; "ZONE_NAME"; "MODIFIED_ON"; "CREATED_ON"; "META"].
Proof. vm_compute. reflexivity. Qed.

Lemma foldedNames_Message :
  foldedNames Message.fields = ["SUCCESS"; "ERRORS"; "MESSAGES"; "RESULT"; "RESULT_INFO"].
Proof. vm_compute. reflexivity. Qed.

Lemma NoDup_Zone_names : NoDup (foldedNames (snd <$> Zone.fields)).
Proof.
  rewrite foldedNames_Zone.
  repeat (apply NoDup_cons_2; [rewrite ?elem_of_cons, elem_of_nil; intros H;
    repeat (destruct H as [H|H]; [discriminate H|]); exact H|]).
  apply NoDup_nil_2.
Qed.

Lemma NoDup_DNSRecord_names : NoDup (foldedNames (snd <$> DNSRecord.fields)).
Proof.
  rewrite foldedNames_DNSRecord.
  repeat (apply NoDup_cons_2; [rewrite ?elem_of_cons, elem_of_nil; intros H;
    repeat (destruct H as [H|H]; [discriminate H|]); exact H|]).
  apply NoDup_nil_2.
Qed.

Lemma NoDup_Message_names : NoDup (foldedNames Message.fields).
Proof.
  rewrite foldedNames_Message.
  repeat (apply NoDup_cons_2; [rewrite ?elem_of_cons, elem_of_nil; intros H;
    repeat (destruct H as [H|H]; [discriminate H|]); exact H|]).
  apply NoDup_nil_2.
Qed.

(** X6: the decoder matches the key of a member with the JSON names of the
    fields up to letter case.  For [Zone], [DNSRecord] and the envelope
    [Message], a member whose key is the name of a field in any letter case
    is stored into that field, with the error of that field's decoder; so
    the untagged fields [Name], [Id], [Type], [Status] and [Paused] of
    [Zone] and [Success] and [Result] of [Message] are filled from keys in
    lower case. *)
Theorem keys_match_up_to_case :
  foldedNames (snd <$> Zone.fields)
  = ["NAME"; "ID"; "TYPE"; "NAME_SERVERS"; "STATUS"; "PAUSED"; "ORIGINAL_NAME_SERVERS";
     "DEVELOPMENT_MODE"]
  /\ foldedNames Message.fields = ["SUCCESS"; "ERRORS"; "MESSAGES"; "RESULT"; "RESULT_INFO"]
  /\ (forall k f v (z : Zone),
        f ∈ snd <$> Zone.fields -> foldName k = foldName (dname f) ->
        store (Object [(k, v)]) z = dstore f v z)
  /\ (forall k f v (d : DNSRecord),
        f ∈ snd <$> DNSRecord.fields -> foldName k = foldName (dname f) ->
        store (Object [(k, v)]) d = dstore f v d)
  /\ (forall k f v (m : Message),
        f ∈ Message.fields -> foldName k = foldName (dname f) ->
        store (Object [(k, v)]) m = dstore f v m).
Proof.
  split; [apply foldedNames_Zone|]. split; [apply foldedNames_Message|].
  repeat apply conj; intros k f v s Hf Hk.
  - apply storeStruct_member, findField_fold; auto using NoDup_Zone_names.
  - apply storeStruct_member, findField_fold; auto using NoDup_DNSRecord_names.
  - apply storeStruct_member, findField_fold; auto using NoDup_Message_names.
Qed.

Lemma keys_match_up_to_case_witness :
  store (Object [("name", Str "example.com")]) Zone.empty
  = (Zone.set_Name "example.com" Zone.empty, None)
  /\ store (Object [("SUCCESS", Bool true)]) Message.empty
     = (Message.set_Success true Message.empty, None).
Proof.
  destruct keys_match_up_to_case as (_ & _ & Hzone & _ & Hmessage). split.
  - assert (Hin : inField "Name" Zone.Name Zone.set_Name ∈ snd <$> Zone.fields)
      by (cbn [Zone.fields fmap list_fmap snd field]; left).
    assert (Hk : foldName "name" = foldName "Name") by (vm_compute; reflexivity).
    exact (Hzone "name" _ (Str "example.com") Zone.empty Hin Hk).
  - assert (Hin : inField "Success" Message.Success Message.set_Success ∈ Message.fields)
      by (cbn [Message.fields]; left).
    assert (Hk : foldName "SUCCESS" = foldName "Success") by (vm_compute; reflexivity).
    exact (Hmessage "SUCCESS" _ (Bool true) Message.empty Hin Hk).
Defined.

(** X7: a member whose key is the name of no field, in any letter case, is
    skipped: wherever it stands in the object, the [DNSRecord], the [Zone]
    or the envelope decoded from the object, and the error, are the same as
    without it. *)
Theorem unknown_members_are_skipped (k : string) (v : value)
    (m1 m2 : list (string * value)) :
  (foldName k ∉ ["ID"; "TYPE"; "NAME"; "CONTENT"; "PROXIABLE"; "PROXIED"; "TTL"; "LOCKED";
                 "ZONE_ID"; "ZONE_NAME"; "MODIFIED_ON"; "CREATED_ON"; "META"] ->
   forall d : DNSRecord,
     store (Object (m1 ++ (k, v) :: m2)) d = store (Object (m1 ++ m2)) d)
  /\ (foldName k ∉ ["NAME"; "ID"; "TYPE"; "NAME_SERVERS"; "STATUS"; "PAUSED";
                    "ORIGINAL_NAME_SERVERS"; "DEVELOPMENT_MODE"] ->
      forall z : Zone,
        store (Object (m1 ++ (k, v) :: m2)) z = store (Object (m1 ++ m2)) z)
  /\ (foldName k ∉ ["SUCCESS"; "ERRORS"; "MESSAGES"; "RESULT"; "RESULT_INFO"] ->
      forall m : Message,
        store (Object (m1 ++ (k, v) :: m2)) m = store (Object (m1 ++ m2)) m).
Proof.
  repeat apply conj; intros Hk s; apply storeStruct_skip, findField_None.
  - by rewrite foldedNames_DNSRecord.
  - by rewrite foldedNames_Zone.
  - by rewrite foldedNames_Message.
Qed.

Lemma unknown_members_are_skipped_witness :
  store (Object [("id", Str "abc123"); ("priority", Number "10"); ("ttl", Number "120")])
    DNSRecord.empty
  = (DNSRecord.set_Ttl 120%N (DNSRecord.set_Id "abc123" DNSRecord.empty), None).
Proof.
  rewrite (proj1 (unknown_members_are_skipped "priority" (Number "10")
                    [("id", Str "abc123")] [("ttl", Number "120")])).
  - vm_compute. reflexivity.
  - assert (Hk : foldName "priority" = "PRIORITY") by (vm_compute; reflexivity).
    rewrite Hk, !elem_of_cons, elem_of_nil. intros H.
    repeat (destruct H as [H|H]; [discriminate H|]). exact H.
Defined.

(** ** The envelope of a success *)

Lemma coerceUTF8_ascii fuel b u :
  (byteval b < 128)%N ->
  coerceUTF8 (S fuel) (String b u) = String b (coerceUTF8 fuel u).
Proof.
  intros Hb. cbn [coerceUTF8]. rewrite DecodeRune_ascii by done.
  assert (Hne : (byteval b =? utf8.RuneError)%N = false).
  { apply N.eqb_neq. unfold utf8.RuneError. lia. }
  by rewrite Hne.
Qed.

Lemma coerceUTF8_rune fuel c size u :
  2 <= size -> String.length (utf8.EncodeRune c) = size ->
  (forall u, utf8.DecodeRune (utf8.EncodeRune c +:+ u) = (c, size)) ->
  coerceUTF8 (S fuel) (utf8.EncodeRune c +:+ u)
  = utf8.EncodeRune c +:+ coerceUTF8 fuel u.
Proof.
  intros Hsize Hl Hdec.
  destruct (utf8.EncodeRune c) as [|b e] eqn:Henc; [cbn in Hl; lia|].
  cbn [String.append coerceUTF8].
  change (String b (e +:+ u)) with (String b e +:+ u).
  rewrite Hdec.
  assert (Hs1 : (size =? 1)%nat = false) by (apply Nat.eqb_neq; lia).
  rewrite Hs1, andb_false_r.
  by rewrite <- Hl, takeBytes_app, dropBytes_app.
Qed.

Lemma coerceUTF8_fffd fuel u :
  coerceUTF8 (S fuel) (utf8.EncodeRune utf8.RuneError +:+ u)
  = utf8.EncodeRune utf8.RuneError +:+ coerceUTF8 fuel u.
Proof. reflexivity. Qed.

Lemma coerceUTF8_coerceUTF8 n :
  forall s fuel,
    String.length (coerceUTF8 n s) <= fuel ->
    coerceUTF8 fuel (coerceUTF8 n s) = coerceUTF8 n s.
Proof.
  induction n as [|n IH]; intros s fuel Hfuel; [by destruct fuel|].
  destruct s as [|b s]; [by destruct fuel|].
  destruct (N.ltb_spec (byteval b) 128) as [Hb|Hb].
  - rewrite coerceUTF8_ascii in * by done. cbn [String.length] in Hfuel.
    destruct fuel as [|fuel]; [lia|].
    rewrite coerceUTF8_ascii by done. rewrite IH by lia. reflexivity.
  - cbn [coerceUTF8] in *.
    destruct (utf8.DecodeRune (String b s)) as [c size] eqn:Hdec.
    destruct (DecodeRune_spec b s c size Hb Hdec)
      as [[-> ->]|(Hsize & Hc & Hl & [t' Ht'] & Hpre)].
    + change ((utf8.RuneError =? utf8.RuneError)%N && (1 =? 1)%nat) with true in *.
      cbn match in *. rewrite length_app_s in Hfuel.
      change (String.length (utf8.EncodeRune utf8.RuneError)) with 3 in Hfuel.
      destruct fuel as [|fuel]; [lia|].
      rewrite coerceUTF8_fffd. rewrite IH by lia. reflexivity.
    + assert (Hs1 : (size =? 1)%nat = false) by (apply Nat.eqb_neq; lia).
      rewrite Hs1, andb_false_r in *.
      assert (Htake : takeBytes size (String b s) = utf8.EncodeRune c).
      { rewrite Ht', <- Hl. apply takeBytes_app. }
      rewrite Htake in *. rewrite length_app_s in Hfuel.
      destruct fuel as [|fuel]; [lia|].
      rewrite (coerceUTF8_rune fuel c size) by done.
      rewrite IH by lia. reflexivity.
Qed.

(** A string coerced to well-formed UTF-8 is left as it is by a second
    coercion. *)
Lemma toValidUTF8_idem (s : string) : toValidUTF8 (toValidUTF8 s) = toValidUTF8 s.
Proof. unfold toValidUTF8 at 1 3. by apply coerceUTF8_coerceUTF8. Qed.

Lemma validUTF8_toValidUTF8 (s : string) : validUTF8 (toValidUTF8 s).
Proof. apply toValidUTF8_idem. Qed.

Lemma normalize_idem (v : value) : normalize (normalize v) = normalize v.
Proof.
  induction v as [| b | lit | s | elems IH | members IH] using value_nested_ind;
    cbn [normalize]; try done.
  - by rewrite toValidUTF8_idem.
  - f_equal. rewrite map_map. apply map_ext_Forall. exact IH.
  - f_equal. rewrite map_map. apply map_ext_Forall.
    eapply Forall_impl; [exact IH|]. intros [k x] Hx. cbn [fst snd] in *.
    by rewrite toValidUTF8_idem, Hx.
Qed.

Lemma numbersValid_normalize (v : value) : numbersValid v -> numbersValid (normalize v).
Proof.
  induction v as [| b | lit | s | elems IH | members IH] using value_nested_ind;
    cbn [normalize numbersValid]; try done.
  - induction IH as [|x l Hx Hl IHl]; cbn; [done|]. intros [? ?]. auto.
  - induction IH as [|[k x] l Hx Hl IHl]; cbn; [done|]. intros [? ?]. auto.
Qed.

Lemma depth_normalize (v : value) : depth (normalize v) = depth v.
Proof.
  induction v as [| b | lit | s | elems IH | members IH] using value_nested_ind;
    cbn [normalize depth]; try done.
  - f_equal. induction IH as [|x l Hx Hl IHl]; cbn; [done|]. by rewrite Hx, IHl.
  - f_equal. induction IH as [|[k x] l Hx Hl IHl]; cbn in *; [done|]. by rewrite Hx, IHl.
Qed.

Lemma scanValue_render (v : value) :
  numbersValid v -> (depth v <= maxNestingDepth)%N ->
  scanValue (render v) = Ok (normalize v) "".
Proof.
  intros Hv Hd. unfold scanValue.
  rewrite startsValue_skipSpace by (by apply render_starts).
  rewrite <- (app_nil_r_s (render v)) at 2.
  rewrite readValue_render; [reflexivity|done|lia|lia|done].
Qed.

Lemma Unmarshal_render {T} `{Unmarshaler T} (v : value) (target : T) :
  numbersValid v -> (depth v <= maxNestingDepth)%N ->
  Unmarshal (render v) target = store (normalize v) target.
Proof. intros Hv Hd. unfold Unmarshal. by rewrite parse_render. Qed.

Lemma DecoderDecode_render {T} `{Unmarshaler T} (v : value) (target : T) :
  numbersValid v -> (depth v <= maxNestingDepth)%N ->
  DecoderDecode (render v) target = store (normalize v) target.
Proof. intros Hv Hd. unfold DecoderDecode. by rewrite scanValue_render. Qed.

Lemma successBody_render (v : value) :
  successBody (render v)
  = render (Object [("success", Bool true); ("errors", Array []); ("messages", Array []);
                    ("result", v)]).
Proof. reflexivity. Qed.

(** On a success envelope [Decode] stores the result, read back, into
    the target. *)
Lemma Decode_successBody {T} `{Unmarshaler T} (v : value) (target : T) :
  numbersValid v -> (depth v < maxNestingDepth)%N ->
  Decode {| Body := successBody (render v) |} target = store (normalize v) target.
Proof.
  intros Hv Hd. unfold Decode. cbn [Body]. rewrite successBody_render.
  rewrite DecoderDecode_render.
  2:{ cbn. auto. }
  2:{ unfold maxNestingDepth in *. cbn [depth foldr snd]. lia. }
  cbn [normalize map fst snd].
  change (toValidUTF8 "success") with "success".
  change (toValidUTF8 "errors") with "errors".
  change (toValidUTF8 "messages") with "messages".
  change (toValidUTF8 "result") with "result".
  assert (Hr : Unmarshal (render (normalize v)) target = store (normalize v) target).
  { rewrite Unmarshal_render.
    - by rewrite normalize_idem.
    - by apply numbersValid_normalize.
    - rewrite depth_normalize. lia. }
  revert Hr. generalize (normalize v). intros nv Hr.
  cbn [store Message_Unmarshaler storeStruct foldl].
  repeat run_member. exact Hr.
Qed.

(** ** Zones, written and read back *)

Lemma storeElems_encode {T} `{Marshaler T} `{Unmarshaler T} (f : T -> T) (l : list T) :
  Forall (fun x => store (normalize (encode x)) zero = (f x, None)) l ->
  storeElems (map normalize (map encode l)) [] = (map f l, None).
Proof.
  induction 1 as [|x l Hx Hl IH]; [done|].
  cbn [map storeElems hd tl]. by rewrite Hx, IH.
Qed.

Lemma store_encode_slice {T} `{Marshaler T} `{Unmarshaler T} (f : T -> T) (l : list T) :
  Forall (fun x => store (normalize (encode x)) zero = (f x, None)) l ->
  store (normalize (encode (sliceOf l))) nilSlice = (sliceOf (map f l), None).
Proof.
  intros Hl. cbn [encode slice_Marshaler normalize store slice_Unmarshaler sliceList].
  by rewrite (storeElems_encode f l Hl).
Qed.

Lemma store_encode_strings (s : slice string) :
  store (normalize (encode s)) nilSlice = (coercedStrings s, None).
Proof.
  destruct s as [|l]; [reflexivity|].
  apply (store_encode_slice toValidUTF8). by apply Forall_true.
Qed.

Lemma numbersValid_elems (elems : list value) :
  Forall numbersValid elems -> foldr (fun x P => numbersValid x /\ P) True elems.
Proof. induction 1; cbn; auto. Qed.

Lemma depth_elems (elems : list value) (k : N) :
  Forall (fun x => (depth x <= k)%N) elems ->
  (foldr (fun x d => N.max (depth x) d) 0 elems <= k)%N.
Proof. induction 1; cbn; lia. Qed.

Lemma encode_slice_wf {T} `{Marshaler T} (s : slice T) (k : N) :
  Forall (fun x => numbersValid (encode x) /\ (depth (encode x) <= k)%N) (sliceList s) ->
  numbersValid (encode s) /\ (depth (encode s) <= 1 + k)%N.
Proof.
  destruct s as [|l]; cbn [sliceList encode slice_Marshaler numbersValid depth].
  { intros _. split; [done|lia]. }
  intros Hl. split.
  - apply numbersValid_elems, Forall_map. eapply Forall_impl; [exact Hl|]. by intros ? [? _].
  - assert (foldr (fun x d => N.max (depth x) d) 0 (map encode l) <= k)%N; [|lia].
    apply depth_elems, Forall_map. eapply Forall_impl; [exact Hl|]. by intros ? [_ ?].
Qed.

Lemma encode_strings_wf (s : slice string) :
  numbersValid (encode s) /\ (depth (encode s) <= 1)%N.
Proof.
  destruct (encode_slice_wf s 0) as [Hv Hd]; [|split; [done|lia]].
  apply Forall_true. intros x. cbn. split; [done|lia].
Qed.

Lemma storeMember_field {S T} `{Marshaler T} `{Unmarshaler T}
    (F : list (decField S)) (name : string) (omitempty : bool)
    (get : S -> T) (set : T -> S -> S) (k : string) (v : value) (s : S)
    (e : option error) (x : T) :
  findField F k = Some (field name omitempty get set).2 ->
  store v (get s) = (x, None) ->
  storeMember F (s, e) (k, v) = (set x s, e).
Proof.
  intros Hf Hx. unfold storeMember. cbn [fst snd]. rewrite Hf.
  cbn [field snd dstore]. rewrite Hx. by destruct e.
Qed.

Lemma encode_Zone_eq (z : Zone) :
  encode z
  = Object [("Name", Str (Zone.Name z)); ("Id", Str (Zone.Id z));
            ("Type", Str (Zone.Type' z)); ("name_servers", encode (Zone.NameServers z));
            ("Status", Str (Zone.Status z)); ("Paused", Bool (Zone.Paused z));
            ("original_name_servers", encode (Zone.OriginalNameServers z));
            ("development_mode", Number (FormatUint (Zone.DevelopmentMode z)))].
Proof. reflexivity. Qed.

Lemma Zone_String_render (z : Zone) : Zone_String z = render (encode z).
Proof. reflexivity. Qed.

Lemma store_encode_Zone (z : Zone) :
  (Zone.DevelopmentMode z <= maxUint64)%N ->
  store (normalize (encode z)) Zone.empty = (coercedZone z, None).
Proof.
  intros Hdev. rewrite encode_Zone_eq.
  destruct z as [nm id ty ns st pa ons dev].
  cbn [Zone.Name Zone.Id Zone.Type' Zone.NameServers Zone.Status Zone.Paused
         Zone.OriginalNameServers Zone.DevelopmentMode] in *.
  cbn [normalize map fst snd].
  change (toValidUTF8 "Name") with "Name". change (toValidUTF8 "Id") with "Id".
  change (toValidUTF8 "Type") with "Type".
  change (toValidUTF8 "name_servers") with "name_servers".
  change (toValidUTF8 "Status") with "Status". change (toValidUTF8 "Paused") with "Paused".
  change (toValidUTF8 "original_name_servers") with "original_name_servers".
  change (toValidUTF8 "development_mode") with "development_mode".
  cbn [store Zone_Unmarshaler storeStruct foldl]. unfold Zone.empty.
  rewrite (storeMember_field _ "Name" false Zone.Name Zone.set_Name "Name"
             _ _ _ (toValidUTF8 nm)); [|find_field|reflexivity].
  cbn [Zone.set_Name].
  rewrite (storeMember_field _ "Id" false Zone.Id Zone.set_Id "Id"
             _ _ _ (toValidUTF8 id)); [|find_field|reflexivity].
  cbn [Zone.set_Id].
  rewrite (storeMember_field _ "Type" false Zone.Type' Zone.set_Type "Type"
             _ _ _ (toValidUTF8 ty)); [|find_field|reflexivity].
  cbn [Zone.set_Type].
  rewrite (storeMember_field _ "name_servers" false Zone.NameServers Zone.set_NameServers
             "name_servers" _ _ _ (coercedStrings ns));
    [|find_field|apply store_encode_strings].
  cbn [Zone.set_NameServers].
  rewrite (storeMember_field _ "Status" false Zone.Status Zone.set_Status "Status"
             _ _ _ (toValidUTF8 st)); [|find_field|reflexivity].
  cbn [Zone.set_Status].
  rewrite (storeMember_field _ "Paused" false Zone.Paused Zone.set_Paused "Paused"
             _ _ _ pa); [|find_field|reflexivity].
  cbn [Zone.set_Paused].
  rewrite (storeMember_field _ "original_name_servers" false Zone.OriginalNameServers
             Zone.set_OriginalNameServers "original_name_servers" _ _ _
             (coercedStrings ons));
    [|find_field|apply store_encode_strings].
  cbn [Zone.set_OriginalNameServers].
  rewrite (storeMember_field _ "development_mode" false Zone.DevelopmentMode
             Zone.set_DevelopmentMode "development_mode" _ _ _ dev);
    [|find_field|].
  - reflexivity.
  - cbn [store uint64_Unmarshaler Zone.DevelopmentMode].
    by rewrite (ParseUint_FormatUint dev Hdev).
Qed.

Lemma encode_Zone_wf (z : Zone) :
  numbersValid (encode z) /\ (depth (encode z) <= 2)%N.
Proof.
  rewrite encode_Zone_eq.
  destruct (encode_strings_wf (Zone.NameServers z)) as [Hv1 Hd1].
  destruct (encode_strings_wf (Zone.OriginalNameServers z)) as [Hv2 Hd2].
  cbn [numbersValid depth foldr snd]. split.
  - repeat split; try done. apply validNumber_FormatUint.
  - lia.
Qed.

Lemma Unmarshal_Zone_String (z : Zone) :
  (Zone.DevelopmentMode z <= maxUint64)%N ->
  Unmarshal (Zone_String z) Zone.empty = (coercedZone z, None).
Proof.
  intros Hdev. rewrite Zone_String_render. destruct (encode_Zone_wf z) as [Hv Hd].
  rewrite Unmarshal_render; [by apply store_encode_Zone|done|].
  unfold maxNestingDepth. lia.
Qed.

Lemma coercedStrings_valid (s : slice string) :
  Forall validUTF8 (sliceList s) -> coercedStrings s = s.
Proof.
  destruct s as [|l]; [done|]. cbn [sliceList coercedStrings]. intros Hl. f_equal.
  induction Hl as [|x l Hx Hl IH]; [done|]. cbn [map]. by rewrite Hx, IH.
Qed.

Lemma coercedZone_valid (z : Zone) : zoneStringsValid z -> coercedZone z = z.
Proof.
  unfold zoneStringsValid, validUTF8, coercedZone.
  intros (-> & -> & -> & Hns & -> & Hons).
  rewrite (coercedStrings_valid _ Hns), (coercedStrings_valid _ Hons). by destruct z.
Qed.

(** X8: the text [Zone.String] writes holds all eight fields, none is ever
    left out, and decodes without error into a fresh zone that is the zone
    written with its strings coerced to well-formed UTF-8: a zone whose
    strings are well-formed UTF-8 comes back unchanged.  A [nil] list of
    name servers is written as [null] and comes back [nil], an empty one is
    written as [[]] and comes back empty. *)
Theorem Zone_String_round_trip (z : Zone) :
  (Zone.DevelopmentMode z <= maxUint64)%N ->
  Unmarshal (Zone_String z) Zone.empty = (coercedZone z, None)
  /\ (zoneStringsValid z -> coercedZone z = z)
  /\ (fst <$> match encode z with Object members => members | _ => [] end)
     = ["Name"; "Id"; "Type"; "name_servers"; "Status"; "Paused";
        "original_name_servers"; "development_mode"]
  /\ (member "name_servers" (encode z) = Some Null <-> Zone.NameServers z = nilSlice)
  /\ (Zone.NameServers (coercedZone z) = nilSlice <-> Zone.NameServers z = nilSlice).
Proof.
  intros Hdev. split; [by apply Unmarshal_Zone_String|].
  split; [apply coercedZone_valid|]. split; [reflexivity|].
  split.
  - rewrite encode_Zone_eq. cbn. by destruct (Zone.NameServers z).
  - unfold coercedZone. cbn. by destruct (Zone.NameServers z).
Qed.

Lemma Zone_String_round_trip_witness :
  Zone_String exampleZone
  = dq ("{'Name':'example.com','Id':'023e105f4ecef8ad9ca31a8372d0c353','Type':'full',"
        +:+ "'name_servers':['tony.ns.cloudflare.com','woz.ns.cloudflare.com'],"
        +:+ "'Status':'active','Paused':false,'original_name_servers':null,"
        +:+ "'development_mode':7200}")
  /\ Unmarshal (Zone_String exampleZone) Zone.empty = (exampleZone, None).
Proof.
  split; [vm_compute; reflexivity|].
  assert (Hdev : (Zone.DevelopmentMode exampleZone <= maxUint64)%N)
    by (vm_compute; discriminate).
  destruct (Zone_String_round_trip exampleZone Hdev) as (Hrt & Hvalid & _).
  assert (Hs : zoneStringsValid exampleZone).
  { repeat split; try (vm_compute; reflexivity).
    - repeat (apply Forall_cons_2; [vm_compute; reflexivity|]). apply Forall_nil_2.
    - apply Forall_nil_2. }
  rewrite Hrt, (Hvalid Hs). reflexivity.
Defined.

(** ** What the operations return on a success *)

Lemma arrayText_render {T} `{Marshaler T} (l : list T) :
  arrayText ((fun x => render (encode x)) <$> l) = render (encode (sliceOf l)).
Proof.
  unfold arrayText. cbn [encode slice_Marshaler render]. by rewrite map_map.
Qed.

Lemma Decode_record (d : DNSRecord) :
  (DNSRecord.Ttl d <= maxUint64)%N ->
  Decode {| Body := successBody (DNSRecord_String d) |} DNSRecord.empty
  = (coerced d, None).
Proof.
  intros Httl. rewrite DNSRecord_String_render.
  destruct (encode_DNSRecord_wf d) as [Hv Hd].
  rewrite Decode_successBody; [by apply store_encode_DNSRecord|done|].
  unfold maxNestingDepth. lia.
Qed.

Lemma Decode_records (ds : list DNSRecord) :
  Forall (fun d => (DNSRecord.Ttl d <= maxUint64)%N) ds ->
  Decode {| Body := successBody (arrayText (DNSRecord_String <$> ds)) |} nilSlice
  = (sliceOf (coerced <$> ds), None).
Proof.
  intros Httl.
  change (DNSRecord_String <$> ds) with ((fun x => render (encode x)) <$> ds).
  rewrite arrayText_render.
  destruct (encode_slice_wf (sliceOf ds) 2) as [Hv Hd].
  { apply Forall_true. apply encode_DNSRecord_wf. }
  rewrite Decode_successBody; [|done|unfold maxNestingDepth; lia].
  apply (store_encode_slice coerced).
  eapply Forall_impl; [exact Httl|]. intros d Hd'. by apply store_encode_DNSRecord.
Qed.

Lemma Decode_zones (zs : list Zone) :
  Forall (fun z => (Zone.DevelopmentMode z <= maxUint64)%N) zs ->
  Decode {| Body := successBody (arrayText (Zone_String <$> zs)) |} nilSlice
  = (sliceOf (coercedZone <$> zs), None).
Proof.
  intros Hdev.
  change (Zone_String <$> zs) with ((fun x => render (encode x)) <$> zs).
  rewrite arrayText_render.
  destruct (encode_slice_wf (sliceOf zs) 2) as [Hv Hd].
  { apply Forall_true. apply encode_Zone_wf. }
  rewrite Decode_successBody; [|done|unfold maxNestingDepth; lia].
  apply (store_encode_slice coercedZone).
  eapply Forall_impl; [exact Hdev|]. intros z Hz. by apply store_encode_Zone.
Qed.

Lemma Decode_null {T} `{Unmarshaler T} (target : T) :
  store Null target = (target, None) ->
  Decode {| Body := successBody "null" |} target = (target, None).
Proof.
  intros Hnull. change "null" with (render Null).
  rewrite Decode_successBody; [done|done|]. unfold maxNestingDepth. cbn. lia.
Qed.

(** X9: when the response to [Create] or [Update] is a success envelope
    whose result is the JSON text of a record, as [DNSRecord.String] writes
    it, the operation returns that record and no error, whatever record was
    sent: the record of the response with its strings coerced to well-formed
    UTF-8, which is the record itself when its strings are well-formed. *)
Theorem Create_Update_return_the_result {tr : Transport} (c : Config) (zoneId : string)
    (d d' : DNSRecord) (e : option error) :
  (DNSRecord.Ttl d' <= maxUint64)%N ->
  (Do (request c "POST" (recordsUrl zoneId) (Some (DNSRecord_String d)))
   = (Some {| Body := successBody (DNSRecord_String d') |}, e) ->
   DNSRecordsSvc.Create (GetDNSRecordsSvc (Some c)) zoneId d = Return (coerced d', None))
  /\ (Do (request c "PUT" (recordUrl zoneId (DNSRecord.Id d)) (Some (DNSRecord_String d)))
      = (Some {| Body := successBody (DNSRecord_String d') |}, e) ->
      DNSRecordsSvc.Update (GetDNSRecordsSvc (Some c)) zoneId d
      = Return (coerced d', None))
  /\ (stringsValid d' -> coerced d' = d').
Proof.
  intros Httl. split; [|split].
  - intros Hdo. rewrite Create_request, Hdo. unfold answer. cbn [fst].
    by rewrite Decode_record.
  - intros Hdo. rewrite Update_request, Hdo. unfold answer. cbn [fst].
    by rewrite Decode_record.
  - apply coerced_valid.
Qed.

Lemma Create_Update_return_the_result_witness :
  let tr := always (successBody (DNSRecord_String storedRecord)) in
  DNSRecordsSvc.Create (GetDNSRecordsSvc (Some exampleConfig)) "z1" partialRecord
  = Return (storedRecord, None).
Proof.
  intros tr.
  assert (Httl : (DNSRecord.Ttl storedRecord <= maxUint64)%N) by (vm_compute; discriminate).
  destruct (Create_Update_return_the_result (tr := tr) exampleConfig "z1" partialRecord
              storedRecord None Httl) as (Hcreate & _ & Hvalid).
  assert (Hs : stringsValid storedRecord) by (repeat split; vm_compute; reflexivity).
  rewrite (Hcreate eq_refl), (Hvalid Hs). reflexivity.
Defined.

(** X10: when the response to [Get] or [Search] is a success envelope whose
    result is a JSON array of record texts, the operation returns the
    records of the array, in its order, and no error; for the empty array
    it returns an empty slice that is not [nil], and for the result [null]
    the [nil] slice. *)
Theorem Get_Search_return_the_records {tr : Transport} (c : Config) (zoneId : string)
    (ds : list DNSRecord) (e : option error) :
  Forall (fun d => (DNSRecord.Ttl d <= maxUint64)%N) ds ->
  let body := successBody (arrayText (DNSRecord_String <$> ds)) in
  (Do (request c "GET" (recordsUrl zoneId) None) = (Some {| Body := body |}, e) ->
   DNSRecordsSvc.Get (GetDNSRecordsSvc (Some c)) zoneId
   = Return (sliceOf (coerced <$> ds), None))
  /\ (forall typeStr name content page perPage,
        Do (request c "GET" (searchUrl zoneId typeStr name content page perPage) None)
        = (Some {| Body := body |}, e) ->
        DNSRecordsSvc.Search (GetDNSRecordsSvc (Some c)) zoneId typeStr name content
          page perPage = Return (sliceOf (coerced <$> ds), None))
  /\ (Do (request c "GET" (recordsUrl zoneId) None)
      = (Some {| Body := successBody "null" |}, e) ->
      DNSRecordsSvc.Get (GetDNSRecordsSvc (Some c)) zoneId = Return (nilSlice, None)).
Proof.
  intros Httl body. split; [|split].
  - intros Hdo. rewrite Get_request, Hdo. unfold answer. cbn [fst].
    unfold body. by rewrite Decode_records.
  - intros typeStr name content page perPage Hdo.
    rewrite Search_request, Hdo. unfold answer. cbn [fst].
    unfold body. by rewrite Decode_records.
  - intros Hdo. rewrite Get_request, Hdo. unfold answer. cbn [fst].
    by rewrite Decode_null.
Qed.

Lemma Get_Search_return_the_records_witness :
  let tr := always (successBody (arrayText (DNSRecord_String <$> [storedRecord; partialRecord]))) in
  DNSRecordsSvc.Search (GetDNSRecordsSvc (Some exampleConfig)) "z1" "A" "" "" 1 20
  = Return (sliceOf (coerced <$> [storedRecord; partialRecord]), None).
Proof.
  intros tr.
  assert (Httl : Forall (fun d => (DNSRecord.Ttl d <= maxUint64)%N)
                   [storedRecord; partialRecord]).
  { repeat (apply Forall_cons_2; [vm_compute; discriminate|]). apply Forall_nil_2. }
  exact (proj1 (proj2 (Get_Search_return_the_records (tr := tr) exampleConfig "z1"
                         [storedRecord; partialRecord] None Httl))
           "A" "" "" 1%Z 20%Z eq_refl).
Defined.

(** X11: when the response to [ZonesSvc.Get] is a success envelope whose
    result is a JSON array of zone texts, as [Zone.String] writes them,
    [Get] returns the zones of the array, in its order, and no error; for
    the result [null] it returns the [nil] slice. *)
Theorem ZonesSvc_Get_returns_the_zones {tr : Transport} (c : Config) (zs : list Zone)
    (e : option error) :
  Forall (fun z => (Zone.DevelopmentMode z <= maxUint64)%N) zs ->
  (Do (request c "GET" (ApiUrlBase +:+ APiUrlZones) None)
   = (Some {| Body := successBody (arrayText (Zone_String <$> zs)) |}, e) ->
   ZonesSvc.Get (GetZonesSvc (Some c)) = Return (sliceOf (coercedZone <$> zs), None))
  /\ (Do (request c "GET" (ApiUrlBase +:+ APiUrlZones) None)
      = (Some {| Body := successBody "null" |}, e) ->
      ZonesSvc.Get (GetZonesSvc (Some c)) = Return (nilSlice, None))
  /\ (Forall zoneStringsValid zs -> coercedZone <$> zs = zs).
Proof.
  intros Hdev. split; [|split].
  - intros Hdo. rewrite ZonesSvc_Get_request, Hdo. unfold answer. cbn [fst].
    by rewrite Decode_zones.
  - intros Hdo. rewrite ZonesSvc_Get_request, Hdo. unfold answer. cbn [fst].
    by rewrite Decode_null.
  - clear Hdev. intros Hvalid. induction Hvalid as [|z l Hz Hl IH]; [done|].
    cbn [fmap list_fmap] in *. by rewrite (coercedZone_valid z Hz), IH.
Qed.

Lemma ZonesSvc_Get_returns_the_zones_witness :
  let tr := always (successBody (arrayText (Zone_String <$> [exampleZone]))) in
  ZonesSvc.Get (GetZonesSvc (Some exampleConfig)) = Return (sliceOf [exampleZone], None).
Proof.
  intros tr.
  assert (Hdev : Forall (fun z => (Zone.DevelopmentMode z <= maxUint64)%N) [exampleZone]).
  { apply Forall_cons_2; [vm_compute; discriminate|apply Forall_nil_2]. }
  destruct (ZonesSvc_Get_returns_the_zones (tr := tr) exampleConfig [exampleZone] None Hdev)
    as (Hget & _ & Hvalid).
  rewrite (Hget eq_refl). rewrite Hvalid; [reflexivity|].
  apply Forall_cons_2; [|apply Forall_nil_2].
  repeat split; try (vm_compute; reflexivity).
  - repeat (apply Forall_cons_2; [vm_compute; reflexivity|]). apply Forall_nil_2.
  - apply Forall_nil_2.
Defined.

(** ** What follows the first value of a body *)

Lemma cont_high b : utf8.cont b = true -> (128 <= byteval b)%N.
Proof.
  unfold utf8.cont, inRange. intros [H _]%andb_prop. apply N.leb_le in H. exact H.
Qed.

Lemma accept_high b0 b1 : utf8.accept b0 b1 = true -> (128 <= byteval b1)%N.
Proof. intros H%accept_cont. by apply cont_high. Qed.

Lemma accept_ascii b0 b1 : (byteval b1 < 128)%N -> utf8.accept b0 b1 = false.
Proof.
  intros Hb. destruct (utf8.accept b0 b1) eqn:Hacc; [|done].
  apply accept_high in Hacc. lia.
Qed.

Lemma cont_ascii b : (byteval b < 128)%N -> utf8.cont b = false.
Proof.
  intros Hb. destruct (utf8.cont b) eqn:Hc; [|done]. apply cont_high in Hc. lia.
Qed.

Lemma DecodeRune_settled b s t :
  settled s = true ->
  utf8.DecodeRune (String b (s +:+ t)) = utf8.DecodeRune (String b s).
Proof.
  destruct s as [|c1 [|c2 [|c3 s]]]; cbn [settled]; [done| | |reflexivity].
  - intros Hc1%N.ltb_lt. unfold utf8.DecodeRune, utf8.decode.
    cbn [String.append utf8.head utf8.tail]. rewrite (accept_ascii b c1 Hc1).
    reflexivity.
  - intros Hc. unfold utf8.DecodeRune, utf8.decode.
    cbn [String.append utf8.head utf8.tail].
    destruct (N.ltb_spec (byteval c1) 128) as [Hc1|Hc1].
    + rewrite (accept_ascii b c1 Hc1). reflexivity.
    + cbn [orb] in Hc. apply N.ltb_lt in Hc. rewrite (cont_ascii c2 Hc). reflexivity.
Qed.

Lemma allHigh_dropBytes n s : allHigh s = true -> allHigh (dropBytes n s) = true.
Proof.
  revert s. induction n as [|n IH]; intros [|c s]; cbn; try done.
  intros [_ Hs]%andb_prop. by apply IH.
Qed.

Lemma unquoteBody_empty fuel : unquoteBody fuel "" = Fail UnexpectedEnd.
Proof. by destruct fuel. Qed.

(** A literal that never leaves the bytes outside ASCII has no closing
    quote. *)
Lemma unquoteBody_allHigh fuel :
  forall s x r, allHigh s = true -> unquoteBody fuel s <> Ok x r.
Proof.
  induction fuel as [|fuel IH]; intros s x r Hs; [by destruct s|].
  destruct s as [|b s]; [done|]. cbn [allHigh] in Hs.
  pose proof Hs as [Hb%N.leb_le _]%andb_prop.
  rewrite nonascii_plain by done.
  destruct (utf8.DecodeRune (String b s)) as [rr size].
  intros [y Hy]%mapOk_rest. revert Hy. apply IH.
  apply allHigh_dropBytes. exact Hs.
Qed.

Lemma unquoteBody_settled fuel s x r : unquoteBody fuel s = Ok x r -> settled s = true.
Proof.
  destruct s as [|c1 [|c2 [|c3 s]]]; cbn [settled]; [|intros Hs..|done].
  - by rewrite unquoteBody_empty.
  - destruct (N.ltb_spec (byteval c1) 128) as [|Hc1]; [done|]. exfalso.
    revert Hs. apply unquoteBody_allHigh. cbn. rewrite andb_true_r. by apply N.leb_le.
  - destruct (N.ltb_spec (byteval c1) 128) as [|Hc1]; [done|].
    destruct (N.ltb_spec (byteval c2) 128) as [|Hc2]; [done|]. exfalso.
    revert Hs. apply unquoteBody_allHigh. cbn. rewrite andb_true_r.
    apply andb_true_intro. split; by apply N.leb_le.
Qed.

Lemma hex4_app s x r t : hex4 s = Some (x, r) -> hex4 (s +:+ t) = Some (x, r +:+ t).
Proof.
  unfold hex4. destruct s as [|a [|b [|c [|d s]]]]; try done. cbn [String.append].
  repeat case_match; try done. by intros [= <- <-].
Qed.

Lemma getu4_app s x r t : getu4 s = Some (x, r) -> getu4 (s +:+ t) = Some (x, r +:+ t).
Proof.
  unfold getu4. destruct s as [|c [|u s]]; try done. cbn [String.append].
  case_match; [|done]. apply hex4_app.
Qed.

Lemma getu4_app_None fuel s x r t :
  getu4 s = None -> unquoteBody fuel s = Ok x r -> getu4 (s +:+ t) = None.
Proof.
  destruct fuel as [|fuel]; [by destruct s|].
  destruct s as [|c [|u s]].
  - done.
  - intros _. cbn [unquoteBody String.append getu4].
    destruct (Ascii.eqb c dquote) eqn:Hq.
    + apply Ascii.eqb_eq in Hq as ->. intros _. by destruct t.
    + destruct (Ascii.eqb c "\") eqn:Hb; [done|]. intros _. by destruct t.
  - cbn [getu4 String.append].
    destruct (Ascii.eqb c "\" && Ascii.eqb u "u") eqn:Hcu; [|done].
    apply andb_prop in Hcu as [->%Ascii.eqb_eq ->%Ascii.eqb_eq].
    intros Hhex. cbn [unquoteBody]. cbn [Ascii.eqb Bool.eqb dquote andb orb].
    by rewrite Hhex.
Qed.

(** A string literal that is read from a text is read the same from the
    text with more behind it. *)
Lemma unquoteBody_app fuel :
  forall s x r t fuel',
    unquoteBody fuel s = Ok x r -> fuel <= fuel' ->
    unquoteBody fuel' (s +:+ t) = Ok x (r +:+ t).
Proof.
  induction fuel as [|fuel IH]; intros s x r t fuel' Hs Hle; [by destruct s|].
  destruct fuel' as [|fuel']; [lia|]. assert (Hle' : fuel <= fuel') by lia.
  destruct s as [|c s]; [done|].
  assert (Hplain : forall (f : string -> string) s1 x1 r1,
             mapOk f (unquoteBody fuel s1) = Ok x1 r1 ->
             mapOk f (unquoteBody fuel' (s1 +:+ t)) = Ok x1 (r1 +:+ t)).
  { intros f s1 x1 r1 H1. apply (mapOk_app _ _ _ _ t) in H1 as (y & Hy & ->).
    by rewrite (IH _ _ _ t fuel' Hy Hle'). }
  destruct (N.ltb_spec (byteval c) 128) as [Hc|Hc].
  - (* an ASCII byte *)
    assert (E : (byteval c <? 128)%N = true) by (by apply N.ltb_lt).
    cbn [String.append unquoteBody] in Hs |- *. rewrite E in *.
    destruct (Ascii.eqb c dquote); [by simplify_eq|].
    destruct (Ascii.eqb c "\").
    + destruct s as [|e s]; [done|]. cbn [String.append].
      destruct (Ascii.eqb e dquote || Ascii.eqb e "\" || Ascii.eqb e "/");
        [by apply Hplain|].
      destruct (Ascii.eqb e "b"); [by apply Hplain|].
      destruct (Ascii.eqb e "f"); [by apply Hplain|].
      destruct (Ascii.eqb e "n"); [by apply Hplain|].
      destruct (Ascii.eqb e "r"); [by apply Hplain|].
      destruct (Ascii.eqb e "t"); [by apply Hplain|].
      destruct (Ascii.eqb e "u"); [|done].
      destruct (hex4 s) as [[rr s3]|] eqn:Hhex; [|done].
      rewrite (hex4_app _ _ _ t Hhex).
      destruct (isSurrogate rr); [|by apply Hplain].
      destruct (getu4 s3) as [[rr1 s4]|] eqn:Hg.
      * rewrite (getu4_app _ _ _ t Hg).
        destruct (negb (utf16DecodeRune rr rr1 =? utf8.RuneError)%N); by apply Hplain.
      * pose proof Hs as Hs'. apply (mapOk_app _ _ _ _ t) in Hs' as (y & Hy & _).
        rewrite (getu4_app_None _ _ _ _ t Hg Hy). by apply Hplain.
    + destruct (byteval c <? 32)%N; [done|]. by apply Hplain.
  - (* a byte outside ASCII *)
    cbn [String.append]. rewrite nonascii_plain in Hs |- * by done.
    destruct (utf8.DecodeRune (String c s)) as [rr size] eqn:Hdec.
    pose proof Hs as Hs'. apply (mapOk_app _ _ _ _ t) in Hs' as (y & Hy & _).
    destruct (DecodeRune_spec c s rr size Hc Hdec)
      as [[-> ->]|(Hsize & Hrr & Hl & [t' Ht'] & Hpre)].
    + cbn [dropBytes] in *.
      rewrite (DecodeRune_settled c s t (unquoteBody_settled _ _ _ _ Hy)), Hdec.
      cbn [dropBytes]. by apply Hplain.
    + rewrite Ht', <- Hl, dropBytes_app in Hs.
      change (String c (s +:+ t)) with (String c s +:+ t).
      rewrite Ht', app_assoc_s, Hpre, <- Hl, dropBytes_app.
      by apply Hplain.
Qed.

Lemma unquote_app s x r t : unquote s = Ok x r -> unquote (s +:+ t) = Ok x (r +:+ t).
Proof.
  unfold unquote. intros Hs. apply (unquoteBody_app _ _ _ _ _ _ Hs).
  rewrite length_app_s. lia.
Qed.

Lemma spanDigits_app_ne s ds r t :
  spanDigits s = (ds, r) -> r <> "" -> spanDigits (s +:+ t) = (ds, r +:+ t).
Proof.
  revert ds r. induction s as [|c s IH]; intros ds r Hs Hr.
  - cbn in Hs. by simplify_eq.
  - cbn in Hs |- *. destruct (isDigit c); [|by simplify_eq].
    destruct (spanDigits s) as [ds' r'] eqn:Hs'. simplify_eq.
    by rewrite (IH _ _ eq_refl Hr).
Qed.

Lemma digits1_app_ne s ds r t :
  digits1 s = Ok ds r -> r <> "" -> digits1 (s +:+ t) = Ok ds (r +:+ t).
Proof.
  unfold digits1. destruct s as [|c s]; [done|]. intros Hs Hr.
  cbn [String.append]. destruct (isDigit c) eqn:Hc; [|done].
  change (String c (s +:+ t)) with (String c s +:+ t).
  destruct (spanDigits (String c s)) as [ds' r'] eqn:Hsp. simplify_eq.
  by rewrite (spanDigits_app_ne _ _ _ _ Hsp Hr).
Qed.

Lemma scanInt_app_ne s i r t :
  scanInt s = Ok i r -> r <> "" -> scanInt (s +:+ t) = Ok i (r +:+ t).
Proof.
  unfold scanInt. destruct s as [|c s]; [done|]. intros Hs Hr.
  cbn [String.append]. destruct (Ascii.eqb c "0"); [by simplify_eq|].
  destruct (inRange "1" "9" c); [|done].
  destruct (spanDigits s) as [ds' r'] eqn:Hsp. simplify_eq.
  by rewrite (spanDigits_app_ne _ _ _ _ Hsp Hr).
Qed.

Lemma scanFrac_app_ne s f r t :
  scanFrac s = Ok f r -> r <> "" -> scanFrac (s +:+ t) = Ok f (r +:+ t).
Proof.
  unfold scanFrac. destruct s as [|c s]; [by intros [= <- <-]|].
  intros Hs Hr. cbn [String.append]. destruct (Ascii.eqb c "."); [|by simplify_eq].
  apply (mapOk_app _ _ _ _ t) in Hs as (y & Hy & ->).
  by rewrite (digits1_app_ne _ _ _ _ Hy Hr).
Qed.

Lemma scanExp_app_ne s e r t :
  scanExp s = Ok e r -> r <> "" -> scanExp (s +:+ t) = Ok e (r +:+ t).
Proof.
  unfold scanExp. destruct s as [|c s]; [by intros [= <- <-]|].
  intros Hs Hr. cbn [String.append].
  destruct (Ascii.eqb c "e" || Ascii.eqb c "E"); [|by simplify_eq].
  destruct s as [|g s]; [done|]. cbn [String.append].
  destruct (Ascii.eqb g "+" || Ascii.eqb g "-").
  - apply (mapOk_app _ _ _ _ t) in Hs as (y & Hy & ->).
    by rewrite (digits1_app_ne _ _ _ _ Hy Hr).
  - apply (mapOk_app _ _ _ _ t) in Hs as (y & Hy & ->).
    change (String g (s +:+ t)) with (String g s +:+ t).
    by rewrite (digits1_app_ne _ _ _ _ Hy Hr).
Qed.

Lemma length_ne (r r' : string) : String.length r <= String.length r' -> r <> "" -> r' <> "".
Proof. destruct r, r'; cbn; (done || lia). Qed.

(** A number that is read from a text and is followed by something there
    is read the same from the text with more behind it. *)
Lemma scanNumber_app_ne s lit r t :
  scanNumber s = Ok lit r -> r <> "" -> scanNumber (s +:+ t) = Ok lit (r +:+ t).
Proof.
  unfold scanNumber. intros Hs Hr.
  destruct s as [|c s]; [done|]. cbn [String.append].
  set (split := if Ascii.eqb c "-" then ("-", s) else ("", String c s)) in *.
  assert (Hsplit : (if Ascii.eqb c "-" then ("-", s +:+ t)
                    else ("", String c (s +:+ t)))
                   = (split.1, split.2 +:+ t)).
  { unfold split. by destruct (Ascii.eqb c "-"). }
  rewrite Hsplit. destruct split as [sign s1]. cbn [fst snd] in *.
  apply bind_Ok in Hs as (i & r1 & Hi & Hs).
  apply bind_Ok in Hs as (f & r2 & Hf & Hs).
  apply bind_Ok in Hs as (e & r3 & He & Hs). simplify_eq.
  pose proof (length_ne _ _ (scanExp_rest _ _ _ He) Hr) as Hr2.
  pose proof (length_ne _ _ (scanFrac_rest _ _ _ Hf) Hr2) as Hr1.
  rewrite (scanInt_app_ne _ _ _ _ Hi Hr1). cbn [bind].
  rewrite (scanFrac_app_ne _ _ _ _ Hf Hr2). cbn [bind].
  by rewrite (scanExp_app_ne _ _ _ _ He Hr).
Qed.

Lemma expect_app kw s u r t : expect kw s = Ok u r -> expect kw (s +:+ t) = Ok u (r +:+ t).
Proof.
  revert s. induction kw as [|k kw IH]; intros s; cbn [expect]; [by intros [= <- <-]|].
  destruct s as [|c s]; [done|]. cbn [String.append].
  destruct (Ascii.eqb c k); [apply IH|done].
Qed.

Lemma skipSpace_app s c r t :
  skipSpace s = String c r -> skipSpace (s +:+ t) = String c (r +:+ t).
Proof.
  induction s as [|a s IH]; [done|]. cbn [skipSpace String.append].
  destruct (isSpace a); [exact IH|]. by intros [= <- <-].
Qed.

Lemma readValue_empty fuel d : readValue fuel d "" = Fail UnexpectedEnd.
Proof. by destruct fuel. Qed.

Lemma readMembers_empty fuel d : readMembers fuel d "" = Fail UnexpectedEnd.
Proof. by destruct fuel. Qed.

Lemma readElems_empty fuel d : readElems fuel d "" = Fail UnexpectedEnd.
Proof. destruct fuel as [|fuel]; [done|]. cbn [readElems]. by rewrite readValue_empty. Qed.

(** A value that is read from a text, and is not a number at the very end
    of it, is read the same from the text with more behind it, and so are
    the members of an object and the elements of an array. *)
Lemma reader_app fuel :
  forall fuel' d s t, fuel <= fuel' ->
    (forall v r, readValue fuel d s = Ok v r -> r <> "" \/ closed v = true ->
                 readValue fuel' d (s +:+ t) = Ok v (r +:+ t))
    /\ (forall m r, readMembers fuel d s = Ok m r ->
                    readMembers fuel' d (s +:+ t) = Ok m (r +:+ t))
    /\ (forall l r, readElems fuel d s = Ok l r ->
                    readElems fuel' d (s +:+ t) = Ok l (r +:+ t)).
Proof.
  induction fuel as [|fuel IH]; intros fuel' d s t Hle; [done|].
  destruct fuel' as [|fuel']; [lia|]. assert (Hle' : fuel <= fuel') by lia.
  split; [|split].
  - intros v r Hs Hend. destruct s as [|c s]; [done|].
    cbn [String.append readValue] in Hs |- *.
    destruct (Ascii.eqb c "{").
    { destruct (maxNestingDepth <? d + 1)%N; [done|].
      destruct (skipSpace s) as [|c' r0] eqn:Hsp; [done|].
      rewrite (skipSpace_app _ _ _ t Hsp).
      destruct (Ascii.eqb c' "}"); [by simplify_eq|].
      apply (mapOk_rest Object) in Hs as Hs'. destruct Hs' as [y Hy].
      change (String c' (r0 +:+ t)) with (String c' r0 +:+ t).
      rewrite (proj1 (proj2 (IH fuel' _ _ t Hle')) _ _ Hy).
      rewrite Hy in Hs. cbn in Hs |- *. by simplify_eq. }
    destruct (Ascii.eqb c "[").
    { destruct (maxNestingDepth <? d + 1)%N; [done|].
      destruct (skipSpace s) as [|c' r0] eqn:Hsp; [done|].
      rewrite (skipSpace_app _ _ _ t Hsp).
      destruct (Ascii.eqb c' "]"); [by simplify_eq|].
      apply (mapOk_rest Array) in Hs as Hs'. destruct Hs' as [y Hy].
      change (String c' (r0 +:+ t)) with (String c' r0 +:+ t).
      rewrite (proj2 (proj2 (IH fuel' _ _ t Hle')) _ _ Hy).
      rewrite Hy in Hs. cbn in Hs |- *. by simplify_eq. }
    destruct (Ascii.eqb c dquote).
    { apply (mapOk_rest Str) in Hs as Hs'. destruct Hs' as [y Hy].
      rewrite (unquote_app _ _ _ t Hy). rewrite Hy in Hs. cbn in Hs |- *. by simplify_eq. }
    destruct (Ascii.eqb c "t").
    { apply mapOk_rest in Hs as Hs'. destruct Hs' as [y Hy].
      rewrite (expect_app _ _ _ _ t Hy). rewrite Hy in Hs. cbn in Hs |- *. by simplify_eq. }
    destruct (Ascii.eqb c "f").
    { apply mapOk_rest in Hs as Hs'. destruct Hs' as [y Hy].
      rewrite (expect_app _ _ _ _ t Hy). rewrite Hy in Hs. cbn in Hs |- *. by simplify_eq. }
    destruct (Ascii.eqb c "n").
    { apply mapOk_rest in Hs as Hs'. destruct Hs' as [y Hy].
      rewrite (expect_app _ _ _ _ t Hy). rewrite Hy in Hs. cbn in Hs |- *. by simplify_eq. }
    destruct (Ascii.eqb c "-" || isDigit c); [|done].
    apply (mapOk_rest Number) in Hs as Hs'. destruct Hs' as [y Hy].
    rewrite Hy in Hs. cbn in Hs. simplify_eq.
    destruct Hend as [Hr|Hclosed]; [|done].
    change (String c (s +:+ t)) with (String c s +:+ t).
    by rewrite (scanNumber_app_ne _ _ _ t Hy Hr).
  - intros m r Hs. destruct s as [|c s]; [done|].
    cbn [String.append readMembers] in Hs |- *.
    destruct (negb (Ascii.eqb c dquote)); [done|].
    apply bind_Ok in Hs as (key & r0 & Hkey & Hs).
    rewrite (unquote_app _ _ _ t Hkey). cbn [bind].
    destruct (skipSpace r0) as [|colon r1] eqn:Hsp0; [done|].
    rewrite (skipSpace_app _ _ _ t Hsp0).
    destruct (negb (Ascii.eqb colon ":")); [done|].
    apply bind_Ok in Hs as (v & r2 & Hv & Hs).
    destruct (skipSpace r1) as [|c1 r1'] eqn:Hsp1; [by rewrite readValue_empty in Hv|].
    rewrite (skipSpace_app _ _ _ t Hsp1).
    destruct (skipSpace r2) as [|c2 r3] eqn:Hsp2; [done|].
    assert (Hr2 : r2 <> "") by (intros ->; done).
    change (String c1 (r1' +:+ t)) with (String c1 r1' +:+ t).
    rewrite (proj1 (IH fuel' _ _ t Hle') _ _ Hv (or_introl Hr2)). cbn [bind].
    rewrite (skipSpace_app _ _ _ t Hsp2).
    destruct (Ascii.eqb c2 ",").
    + apply mapOk_rest in Hs as Hs'. destruct Hs' as [y Hy].
      destruct (skipSpace r3) as [|c3 r3'] eqn:Hsp3;
        [by rewrite readMembers_empty in Hy|].
      rewrite (skipSpace_app _ _ _ t Hsp3).
      change (String c3 (r3' +:+ t)) with (String c3 r3' +:+ t).
      rewrite (proj1 (proj2 (IH fuel' _ _ t Hle')) _ _ Hy).
      rewrite Hy in Hs. cbn in Hs |- *. by simplify_eq.
    + destruct (Ascii.eqb c2 "}"); [by simplify_eq|done].
  - intros l r Hs. cbn [readElems] in Hs |- *.
    apply bind_Ok in Hs as (v & r0 & Hv & Hs).
    destruct (skipSpace r0) as [|c1 r1] eqn:Hsp0; [done|].
    assert (Hr0 : r0 <> "") by (intros ->; done).
    rewrite (proj1 (IH fuel' _ _ t Hle') _ _ Hv (or_introl Hr0)). cbn [bind].
    rewrite (skipSpace_app _ _ _ t Hsp0).
    destruct (Ascii.eqb c1 ",").
    + apply mapOk_rest in Hs as Hs'. destruct Hs' as [y Hy].
      destruct (skipSpace r1) as [|c2 r1'] eqn:Hsp1;
        [by rewrite readElems_empty in Hy|].
      rewrite (skipSpace_app _ _ _ t Hsp1).
      change (String c2 (r1' +:+ t)) with (String c2 r1' +:+ t).
      rewrite (proj2 (proj2 (IH fuel' _ _ t Hle')) _ _ Hy).
      rewrite Hy in Hs. cbn in Hs |- *. by simplify_eq.
    + destruct (Ascii.eqb c1 "]"); [by simplify_eq|done].
Qed.

Lemma scanValue_app body v rest t :
  scanValue body = Ok v rest -> rest <> "" \/ closed v = true ->
  scanValue (body +:+ t) = Ok v (rest +:+ t).
Proof.
  unfold scanValue. intros Hs Hend.
  destruct (skipSpace body) as [|c r] eqn:Hsp; [by rewrite readValue_empty in Hs|].
  rewrite (skipSpace_app _ _ _ t Hsp).
  change (String c (r +:+ t)) with (String c r +:+ t).
  assert (Hle : S (2 * String.length body) <= S (2 * String.length (body +:+ t)))
    by (rewrite length_app_s; lia).
  apply (proj1 (reader_app _ _ _ _ t Hle) _ _ Hs Hend).
Qed.

(** X12: [Decode] reads the first JSON value of the body and nothing after
    it.  When that value is an object, an array, a string or a literal, or
    is a number that something follows, whatever is appended to the body
    changes neither the target [Decode] returns nor its error. *)
Theorem Decode_ignores_what_follows {T} `{Unmarshaler T} (body : string) (v : value)
    (rest : string) :
  scanValue body = Ok v rest -> rest <> "" \/ closed v = true ->
  forall (more : string) (target : T),
    Decode {| Body := body +:+ more |} target = Decode {| Body := body |} target.
Proof.
  intros Hs Hend more target. unfold Decode, DecoderDecode. cbn [Body].
  by rewrite (scanValue_app _ _ _ more Hs Hend), Hs.
Qed.

Lemma Decode_ignores_what_follows_witness :
  let body := dq "{'success':true,'result':{'id':'xyz789'}}" in
  Decode {| Body := body +:+ dq " trailing <garbage> {'success':false}" |} DNSRecord.empty
  = Decode {| Body := body |} DNSRecord.empty.
Proof.
  intros body.
  refine (Decode_ignores_what_follows body
            (Object [("success", Bool true); ("result", Object [("id", Str "xyz789")])])
            "" _ (or_intror eq_refl) _ DNSRecord.empty).
  vm_compute. reflexivity.
Defined.

(** ** The bytes of query strings and of JSON texts *)

Lemma everyByte_app p a b : everyByte p (a +:+ b) = everyByte p a && everyByte p b.
Proof. induction a as [|c a IH]; [done|]. cbn. by rewrite IH, andb_assoc. Qed.

Lemma everyByte_impl (p q : ascii -> bool) s :
  (forall c, p c = true -> q c = true) -> everyByte p s = true -> everyByte q s = true.
Proof.
  intros Hpq. induction s as [|c s IH]; [done|]. cbn.
  intros [Hc Hs]%andb_prop. by rewrite (Hpq c Hc), IH.
Qed.

Lemma everyByte_concat p sep (l : list string) :
  everyByte p sep = true -> Forall (fun x => everyByte p x = true) l ->
  everyByte p (String.concat sep l) = true.
Proof.
  intros Hsep. induction 1 as [|x l Hx Hl IH]; [done|].
  destruct l as [|y l]; [done|]. rewrite concat_cons2, !everyByte_app.
  by rewrite Hx, Hsep, IH.
Qed.

Lemma upperhex_queryByte (n : N) : (n < 16)%N -> queryByte (url.upperhex n) = true.
Proof. intros Hn. unfold queryByte. by rewrite (upperhex_unreserved n Hn). Qed.

Lemma QueryEscape_bytes x : everyByte queryByte (url.QueryEscape x) = true.
Proof.
  induction x as [|c x IH]; [done|]. cbn [url.QueryEscape].
  destruct (url.shouldEscape c) eqn:Hc; [destruct (Ascii.eqb c " ")|]; cbn [everyByte].
  - by rewrite IH.
  - rewrite IH, !upperhex_queryByte by auto using upperhex_nibble_high, upperhex_nibble_low.
    reflexivity.
  - rewrite IH. unfold queryByte. by rewrite Hc.
Qed.

Lemma segment_bytes p : everyByte queryByte (segment p) = true.
Proof. unfold segment. by rewrite !everyByte_app, !QueryEscape_bytes. Qed.

Lemma Encode_bytes (v : url.Values) : everyByte queryByte (url.Encode v) = true.
Proof.
  rewrite Encode_concat. apply everyByte_concat; [done|].
  apply Forall_fmap, Forall_true. intros p. apply segment_bytes.
Qed.

Lemma escaped_pair_inj :
  forall c e,
    url.shouldEscape c && url.shouldEscape e
    && Ascii.eqb (url.upperhex (N.shiftr (byteval c) 4)) (url.upperhex (N.shiftr (byteval e) 4))
    && Ascii.eqb (url.upperhex (N.land (byteval c) 15)) (url.upperhex (N.land (byteval e) 15))
    = true -> Ascii.eqb c e = true.
Proof.
  apply (bytes2_ind
    (fun c e => url.shouldEscape c && url.shouldEscape e
       && Ascii.eqb (url.upperhex (N.shiftr (byteval c) 4))
            (url.upperhex (N.shiftr (byteval e) 4))
       && Ascii.eqb (url.upperhex (N.land (byteval c) 15))
            (url.upperhex (N.land (byteval e) 15)))
    (fun c e => Ascii.eqb c e)).
  vm_compute. reflexivity.
Qed.

Lemma shouldEscape_marks c :
  url.shouldEscape c = false -> c <> "+"%char /\ c <> "%"%char.
Proof. intros Hc. split; intros ->; discriminate Hc. Qed.

(** Two values with the same escaped text are the same. *)
Lemma QueryEscape_inj a : forall b, url.QueryEscape a = url.QueryEscape b -> a = b.
Proof.
  induction a as [|c a IH]; intros [|e b]; cbn [url.QueryEscape].
  - done.
  - repeat case_match; discriminate.
  - repeat case_match; discriminate.
  - destruct (url.shouldEscape c) eqn:Hc, (url.shouldEscape e) eqn:He.
    + destruct (Ascii.eqb_spec c " ") as [->|Hcs], (Ascii.eqb_spec e " ") as [->|Hes];
        try discriminate.
      * intros [= H]. by rewrite (IH _ H).
      * intros [= Hh Hl H]. rewrite (IH _ H). f_equal. apply Ascii.eqb_eq.
        apply escaped_pair_inj. rewrite Hc, He, Hh, Hl, !Ascii.eqb_refl. reflexivity.
    + destruct (shouldEscape_marks e He) as [Hp Hq].
      destruct (Ascii.eqb c " "); intros [= H _]; by subst.
    + destruct (shouldEscape_marks c Hc) as [Hp Hq].
      destruct (Ascii.eqb e " "); intros [= H _]; by subst.
    + intros [= -> H]. by rewrite (IH _ H).
Qed.

(** X13: whatever the filters of [Search] hold, the query string of its
    request is made of letters, digits and the marks [-_.~%+=&] only: no
    space, quote, [#], [?], [/], control character or byte outside ASCII
    of a filter value reaches the URL as it is.  The escaping loses
    nothing: two values with the same escaped text are the same value. *)
Theorem Search_query_is_escaped {tr : Transport} (c : Config)
    (zoneId typeStr name content : string) (page perPage : Z) :
  DNSRecordsSvc.Search (GetDNSRecordsSvc (Some c)) zoneId typeStr name content page perPage
  = Return (answer nilSlice
              (Do (request c "GET"
                     (recordsUrl zoneId +:+ "?"
                        +:+ searchQuery typeStr name content page perPage) None)))
  /\ everyByte queryByte (searchQuery typeStr name content page perPage) = true
  /\ (forall a b : string, url.QueryEscape a = url.QueryEscape b -> a = b).
Proof.
  split; [by rewrite Search_request, searchUrl_app|].
  split; [apply Encode_bytes|]. intros a b. apply QueryEscape_inj.
Qed.

(** X18: each of the filters [type], [name] and [content] of [Search] is
    sent exactly when the argument is not the empty string; the parameters
    sent are among [content], [name], [page], [per_page] and [type], in
    this order, each at most once. *)
Theorem Search_sends_the_filters_that_are_set
    (typeStr name content : string) (page perPage : Z) :
  let q := searchQuery typeStr name content page perPage in
  ("type" ∈ queryParamNames q <-> typeStr <> "")
  /\ ("name" ∈ queryParamNames q <-> name <> "")
  /\ ("content" ∈ queryParamNames q <-> content <> "")
  /\ sublist (fst <$> searchParams typeStr name content page perPage)
       ["content"; "name"; "page"; "per_page"; "type"]
  /\ (searchParams typeStr name content page perPage <> [] ->
      queryParamNames q = fst <$> searchParams typeStr name content page perPage).
Proof.
  intros q. unfold q. rewrite searchParams_names. unfold searchParams, param.
  rewrite !bool_decide_ne_empty.
  destruct typeStr as [|c1 t1], name as [|c2 t2], content as [|c3 t3],
    (0 <? page)%Z, ((5 <=? perPage)%Z && (perPage <? 100)%Z);
    cbn [app fmap list_fmap fst];
    (split; [|split; [|split; [|split]]]);
    rewrite ?elem_of_cons, ?elem_of_nil;
    try (split; [intros H; destruct_or?; done|intros H; auto 8; by destruct H]);
    try done;
    repeat first [apply sublist_nil | apply sublist_skip | apply sublist_cons].
Qed.

Lemma isDigit_htmlByte c : isDigit c = true -> htmlByte c = true.
Proof. revert c. apply bytes_ind. vm_compute. reflexivity. Qed.

Lemma htmlSafe_htmlByte c : htmlSafe c = true -> htmlByte c = true.
Proof. revert c. apply bytes_ind. vm_compute. reflexivity. Qed.

Lemma high_htmlByte c : (128 <= byteval c)%N -> htmlByte c = true.
Proof.
  intros Hc%N.leb_le. revert c Hc.
  apply (bytes_ind (fun c => (128 <=? byteval c)%N)). vm_compute. reflexivity.
Qed.

Lemma escapeByte_htmlByte c : everyByte htmlByte (escapeByte c) = true.
Proof. revert c. apply allBytes_spec. vm_compute. reflexivity. Qed.

Lemma allDigits_htmlByte s : allDigits s = true -> everyByte htmlByte s = true.
Proof.
  induction s as [|c s IH]; [done|]. cbn. intros [Hc Hs]%andb_prop.
  by rewrite (isDigit_htmlByte c Hc), IH.
Qed.

Lemma allHigh_htmlByte s : allHigh s = true -> everyByte htmlByte s = true.
Proof.
  induction s as [|c s IH]; [done|]. cbn. intros [Hc%N.leb_le Hs]%andb_prop.
  by rewrite (high_htmlByte c Hc), IH.
Qed.

(** The bytes of a well-formed sequence are all outside ASCII. *)
Lemma DecodeRune_allHigh b s c size :
  (128 <= byteval b)%N -> utf8.DecodeRune (String b s) = (c, size) ->
  allHigh (takeBytes size (String b s)) = true.
Proof.
  intros Hb. pose proof Hb as Hb'%N.leb_le. unfold utf8.DecodeRune, utf8.decode.
  pose proof (leadSize_1 b) as H1.
  destruct (utf8.leadSize b) as [|[|n]] eqn:Hls.
  - intros [= <- <-]. cbn. by rewrite Hb'.
  - destruct H1 as [H1 _]. specialize (H1 eq_refl). lia.
  - destruct s as [|b1 s]; cbn [utf8.head utf8.tail].
    { intros [= <- <-]. cbn. by rewrite Hb'. }
    destruct (utf8.accept b b1) eqn:Hacc; cbn [negb].
    2:{ intros [= <- <-]. cbn. by rewrite Hb'. }
    pose proof (accept_high _ _ Hacc) as Hb1%N.leb_le.
    destruct (S (S n) <=? 2)%nat.
    { intros [= <- <-]. cbn. by rewrite Hb', Hb1. }
    destruct s as [|b2 s]; cbn [utf8.head utf8.tail].
    { intros [= <- <-]. cbn. by rewrite Hb'. }
    destruct (utf8.cont b2) eqn:Hc2; cbn [negb].
    2:{ intros [= <- <-]. cbn. by rewrite Hb'. }
    pose proof (cont_high _ Hc2) as Hb2%N.leb_le.
    destruct (S (S n) <=? 3)%nat.
    { intros [= <- <-]. cbn. by rewrite Hb', Hb1, Hb2. }
    destruct s as [|b3 s]; cbn [utf8.head utf8.tail].
    { intros [= <- <-]. cbn. by rewrite Hb'. }
    destruct (utf8.cont b3) eqn:Hc3; cbn [negb].
    2:{ intros [= <- <-]. cbn. by rewrite Hb'. }
    pose proof (cont_high _ Hc3) as Hb3%N.leb_le.
    intros [= <- <-]. cbn. by rewrite Hb', Hb1, Hb2, Hb3.
Qed.

Lemma appendStringBody_htmlByte n :
  forall s, everyByte htmlByte (appendStringBody n s) = true.
Proof.
  induction n as [|n IH]; intros s; [by destruct s|].
  destruct s as [|b s]; [done|]. cbn [appendStringBody].
  destruct (N.ltb_spec (byteval b) 128) as [Hb|Hb].
  - rewrite everyByte_app, IH, andb_true_r.
    destruct (htmlSafe b) eqn:Hsafe; [|apply escapeByte_htmlByte].
    cbn. by rewrite (htmlSafe_htmlByte b Hsafe).
  - destruct (utf8.DecodeRune (String b s)) as [c size] eqn:Hdec.
    destruct ((c =? utf8.RuneError)%N && (size =? 1)%nat).
    { rewrite !everyByte_app, IH. reflexivity. }
    destruct (N.eqb_spec c 8232) as [->|_]; [cbn; by rewrite IH|].
    destruct (N.eqb_spec c 8233) as [->|_]; [cbn; by rewrite IH|].
    cbn [orb]. rewrite everyByte_app, IH, andb_true_r.
    apply allHigh_htmlByte. by apply (DecodeRune_allHigh b s c size).
Qed.

Lemma appendString_htmlByte s : everyByte htmlByte (appendString s) = true.
Proof.
  unfold appendString. cbn [everyByte]. by rewrite everyByte_app, appendStringBody_htmlByte.
Qed.

(** The text of a value holds no control character and none of [<], [>]
    and [&], when its numbers are written with digits. *)
Lemma render_htmlByte v : numbersPlain v -> everyByte htmlByte (render v) = true.
Proof.
  induction v as [| b | lit | s | elems IH | members IH] using value_nested_ind;
    cbn [render numbersPlain]; intros Hv.
  - reflexivity.
  - by destruct b.
  - by apply allDigits_htmlByte.
  - apply appendString_htmlByte.
  - rewrite !everyByte_app.
    assert (Hc : everyByte htmlByte (String.concat "," (map render elems)) = true);
      [|by rewrite Hc].
    apply everyByte_concat; [done|]. apply Forall_map.
    induction IH as [|x l Hx Hl IHl]; [done|]. destruct Hv as [Hvx Hvl].
    constructor; auto.
  - rewrite !everyByte_app.
    assert (Hc : everyByte htmlByte
                   (String.concat ","
                      (map (fun m => appendString m.1 +:+ ":" +:+ render m.2) members))
                 = true); [|by rewrite Hc].
    apply everyByte_concat; [done|]. apply Forall_map.
    induction IH as [|[k x] l Hx Hl IHl]; [done|]. destruct Hv as [Hvx Hvl].
    constructor; [|auto]. cbn [fst snd] in *.
    by rewrite !everyByte_app, appendString_htmlByte, (Hx Hvx).
Qed.

Lemma numbersPlain_members (members : list (string * value)) :
  Forall (fun m => numbersPlain m.2) members ->
  foldr (fun m P => numbersPlain m.2 /\ P) True members.
Proof. induction 1; cbn; auto. Qed.

Lemma numbersPlain_strings (s : slice string) : numbersPlain (encode s).
Proof.
  destruct s as [|l]; [done|]. cbn [encode slice_Marshaler string_Marshaler numbersPlain].
  induction l; cbn; auto.
Qed.

Lemma numbersPlain_DNSRecord (d : DNSRecord) : numbersPlain (encode d).
Proof.
  rewrite encode_DNSRecord_eq. cbn [numbersPlain]. apply numbersPlain_members.
  repeat (apply Forall_app; split); try apply Forall_omit; try done.
  - cbn. apply FormatUint_allDigits.
  - constructor; [|constructor]. cbn. by destruct (negb _).
Qed.

Lemma numbersPlain_Zone (z : Zone) : numbersPlain (encode z).
Proof.
  rewrite encode_Zone_eq. cbn [numbersPlain foldr snd].
  pose proof (numbersPlain_strings (Zone.NameServers z)).
  pose proof (numbersPlain_strings (Zone.OriginalNameServers z)).
  repeat split; try done. apply FormatUint_allDigits.
Qed.


(** ** Members, errors and null *)

Lemma saveError_assoc (a b c : option error) :
  saveError (saveError a b) c = saveError a (saveError b c).
Proof. by destruct a, b. Qed.

Lemma saveError_None_r (a : option error) : saveError a None = a.
Proof. by destruct a. Qed.

Lemma storeMember_saved {S} (F : list (decField S)) (s : S) (e : option error)
    (m : string * value) :
  storeMember F (s, e) m
  = ((storeMember F (s, None) m).1, saveError e (storeMember F (s, None) m).2).
Proof.
  unfold storeMember. cbn [fst snd]. destruct (findField F m.1) as [f|].
  - destruct (dstore f m.2 s) as [s' e']. reflexivity.
  - cbn. by rewrite saveError_None_r.
Qed.

Lemma foldl_storeMember_saved {S} (F : list (decField S)) (members : list (string * value)) :
  forall (s : S) (e : option error),
    foldl (storeMember F) (s, e) members
    = ((foldl (storeMember F) (s, None) members).1,
       saveError e (foldl (storeMember F) (s, None) members).2).
Proof.
  induction members as [|m members IH]; intros s e; cbn [foldl].
  - cbn. by rewrite saveError_None_r.
  - rewrite storeMember_saved.
    destruct (storeMember F (s, None) m) as [s1 e1]. cbn [fst snd].
    rewrite (IH s1 (saveError e e1)), (IH s1 e1). cbn [fst snd].
    by rewrite saveError_assoc.
Qed.

Lemma storeStruct_app {S} (name : string) (F : list (decField S))
    (m1 m2 : list (string * value)) (s : S) :
  storeStruct name F (Object (m1 ++ m2)) s
  = let '(s1, e1) := storeStruct name F (Object m1) s in
    let '(s2, e2) := storeStruct name F (Object m2) s1 in
    (s2, saveError e1 e2).
Proof.
  cbn [storeStruct]. rewrite foldl_app.
  destruct (foldl (storeMember F) (s, None) m1) as [s1 e1].
  rewrite foldl_storeMember_saved.
  by destruct (foldl (storeMember F) (s1, None) m2) as [s2 e2].
Qed.

(** X15: the members of an object are decoded one after the other, each
    into the record the earlier ones have left; a member whose value does
    not fit its field does not stop the decoding, and the error returned at
    the end is the first one.  So when [Decode] returns an error, the record
    it returns holds every field that could be decoded. *)
Theorem members_decode_in_order (m1 m2 : list (string * value)) :
  (forall d : DNSRecord,
      store (Object (m1 ++ m2)) d
      = let '(d1, e1) := store (Object m1) d in
        let '(d2, e2) := store (Object m2) d1 in
        (d2, saveError e1 e2))
  /\ (forall z : Zone,
      store (Object (m1 ++ m2)) z
      = let '(z1, e1) := store (Object m1) z in
        let '(z2, e2) := store (Object m2) z1 in
        (z2, saveError e1 e2))
  /\ (forall d : DNSRecord,
      Decode {| Body := dq "{'success':true,'result':{'ttl':'auto','name':'ww1.example.com'}}" |} d
      = (DNSRecord.set_Name "ww1.example.com" d,
         Some (UnmarshalTypeError "string" "uint64"))).
Proof.
  split; [|split].
  - intros d. apply storeStruct_app.
  - intros z. apply storeStruct_app.
  - intros d. by destruct d.
Qed.

Lemma DNSRecord_field_null (f : decField DNSRecord) (d : DNSRecord) :
  f ∈ snd <$> DNSRecord.fields -> dstore f Null d = (d, None).
Proof.
  cbn [DNSRecord.fields fmap list_fmap snd field]. rewrite !elem_of_cons, elem_of_nil.
  intros Hf. destruct_or!; try done; subst f; by destruct d.
Qed.

Lemma findField_elem {S} (F : list (decField S)) (k : string) (f : decField S) :
  findField F k = Some f -> f ∈ F.
Proof.
  unfold findField.
  destruct (find (fun g => String.eqb (dname g) k) F) as [g|] eqn:Hexact.
  - intros [= <-]. by apply find_Some_elem in Hexact as [? _].
  - intros Hfold. by apply find_Some_elem in Hfold as [? _].
Qed.

Lemma DNSRecord_member_null (k : string) (d : DNSRecord) (e : option error) :
  storeMember (snd <$> DNSRecord.fields) (d, e) (k, Null) = (d, e).
Proof.
  unfold storeMember. cbn [fst snd].
  destruct (findField (snd <$> DNSRecord.fields) k) as [f|] eqn:Hf; [|done].
  rewrite (DNSRecord_field_null f d (findField_elem _ _ _ Hf)).
  by rewrite saveError_None_r.
Qed.

(** X16: a member whose value is [null] changes nothing in a record,
    whatever its key: an object all of whose members are [null] decodes to
    the record as it was, without error, and so does the result [null]
    itself.  In a zone a [null] list of name servers sets the list to
    [nil]. *)
Theorem null_members_change_nothing (keys : list string) (d : DNSRecord) (z : Zone) :
  store (Object ((fun k => (k, Null)) <$> keys)) d = (d, None)
  /\ store Null d = (d, None)
  /\ store (Object [("name_servers", Null)]) z = (Zone.set_NameServers nilSlice z, None).
Proof.
  split; [|split; [reflexivity|by destruct z]].
  cbn [store DNSRecord_Unmarshaler storeStruct].
  induction keys as [|k keys IH]; [done|].
  cbn [fmap list_fmap foldl] in *. by rewrite DNSRecord_member_null.
Qed.

(** X17: when the result of a success envelope is not of the kind the
    operation expects, the operation returns the zero value and the type
    error of the decoder, which names the kind found and the Go type
    expected: an array, a string, a number or a boolean where [Create] and
    [Update] expect a record, an object, a string, a number or a boolean
    where [Get] expects a list of records. *)
Theorem result_of_wrong_kind {tr : Transport} (c : Config) (zoneId : string)
    (d : DNSRecord) (v : value) (e : option error) :
  numbersValid v -> (depth v < maxNestingDepth)%N -> v <> Null ->
  ((forall members, v <> Object members) ->
   Do (request c "POST" (recordsUrl zoneId) (Some (DNSRecord_String d)))
   = (Some {| Body := successBody (render v) |}, e) ->
   DNSRecordsSvc.Create (GetDNSRecordsSvc (Some c)) zoneId d
   = Return (DNSRecord.empty,
             Some (UnmarshalTypeError (describe v) "cloudflare.DNSRecord")))
  /\ ((forall elems, v <> Array elems) ->
      Do (request c "GET" (recordsUrl zoneId) None)
      = (Some {| Body := successBody (render v) |}, e) ->
      DNSRecordsSvc.Get (GetDNSRecordsSvc (Some c)) zoneId
      = Return (nilSlice, Some (UnmarshalTypeError (describe v) "[]cloudflare.DNSRecord"))).
Proof.
  intros Hv Hd Hnull. split.
  - intros Hobj Hdo. rewrite Create_request, Hdo. unfold answer. cbn [fst].
    rewrite Decode_successBody by done. f_equal.
    destruct v; try done. by destruct (Hobj members).
  - intros Harr Hdo. rewrite Get_request, Hdo. unfold answer. cbn [fst].
    rewrite Decode_successBody by done. f_equal.
    destruct v; try done. by destruct (Harr elems).
Qed.

Lemma result_of_wrong_kind_witness :
  let v := Array [Object [("id", Str "xyz789")]] in
  let tr := always (successBody (render v)) in
  successBody (render v)
  = dq "{'success':true,'errors':[],'messages':[],'result':[{'id':'xyz789'}]}"
  /\ DNSRecordsSvc.Create (GetDNSRecordsSvc (Some exampleConfig)) "z1" partialRecord
     = Return (DNSRecord.empty,
               Some (UnmarshalTypeError "array" "cloudflare.DNSRecord")).
Proof.
  intros v tr. split; [vm_compute; reflexivity|].
  refine (proj1 (result_of_wrong_kind (tr := tr) exampleConfig "z1" partialRecord v None
                   _ _ _) _ eq_refl).
  - cbn. auto.
  - vm_compute. reflexivity.
  - discriminate.
  - discriminate.
Defined.

(** ** Bodies cut short *)

Lemma app_split_le (a t p u : string) :
  a +:+ t = p +:+ u -> String.length a <= String.length p ->
  exists p2, p = a +:+ p2 /\ t = p2 +:+ u.
Proof.
  revert p. induction a as [|c a IH]; intros p Heq Hlen.
  - exists p. done.
  - destruct p as [|c' p]; [cbn in Hlen; lia|]. cbn in Heq, Hlen. injection Heq as -> Heq.
    destruct (IH p Heq ltac:(lia)) as (p2 & -> & ->). by exists p2.
Qed.

Lemma app_split_lt (a t p u : string) :
  a +:+ t = p +:+ u -> String.length p < String.length a ->
  exists w, a = p +:+ w /\ u = w +:+ t /\ 1 <= String.length w.
Proof.
  revert a. induction p as [|c p IH]; intros a Heq Hlen.
  - exists a. cbn in *. auto with lia.
  - destruct a as [|c' a]; [cbn in Hlen; lia|]. cbn in Heq, Hlen. injection Heq as -> Heq.
    destruct (IH a Heq ltac:(lia)) as (w & -> & -> & Hw). by exists w.
Qed.

Lemma allHigh_app a b : allHigh (a +:+ b) = allHigh a && allHigh b.
Proof. induction a as [|c a IH]; [done|]. cbn. by rewrite IH, andb_assoc. Qed.

(** A literal that never leaves the bytes outside ASCII ends before its
    closing quote. *)
Lemma unquoteBody_allHigh_end fuel :
  forall s, allHigh s = true -> unquoteBody fuel s = Fail UnexpectedEnd.
Proof.
  induction fuel as [|fuel IH]; intros s Hs; [by destruct s|].
  destruct s as [|b s]; [done|]. cbn [allHigh] in Hs.
  pose proof Hs as [Hb%N.leb_le _]%andb_prop.
  rewrite nonascii_plain by done.
  destruct (utf8.DecodeRune (String b s)) as [rr size].
  rewrite IH; [done|]. apply allHigh_dropBytes. exact Hs.
Qed.

Lemma hex4_cut p u x r :
  hex4 (p +:+ u) = Some (x, r) ->
  (exists p3, hex4 p = Some (x, p3) /\ r = p3 +:+ u)
  \/ (hex4 p = None /\ hexPrefix 4 p = UnexpectedEnd
      /\ String.length r < String.length u).
Proof.
  intros Hh. pose proof (hex4_rest _ _ _ Hh) as Hlen. rewrite length_app_s in Hlen.
  destruct p as [|a [|b [|c [|d p]]]]; cbn [String.append] in Hh.
  - right. cbn [String.length] in Hlen. repeat split; (done || lia).
  - right. unfold hex4 in Hh. destruct u as [|b [|c [|d u]]]; try done.
    cbn [hexPrefix hex4]. destruct (hexval a); [|done].
    cbn [String.length] in Hlen |- *. repeat split; (done || lia).
  - right. unfold hex4 in Hh. destruct u as [|c [|d u]]; try done.
    cbn [hexPrefix hex4]. destruct (hexval a); [|done]. destruct (hexval b); [|done].
    cbn [String.length] in Hlen |- *. repeat split; (done || lia).
  - right. unfold hex4 in Hh. destruct u as [|d u]; try done.
    cbn [hexPrefix hex4]. destruct (hexval a); [|done]. destruct (hexval b); [|done].
    destruct (hexval c); [|done]. cbn [String.length] in Hlen |- *.
    repeat split; (done || lia).
  - left. unfold hex4 in Hh |- *.
    destruct (hexval a); [|done]. destruct (hexval b); [|done].
    destruct (hexval c); [|done]. destruct (hexval d); [|done].
    injection Hh as <- <-. by exists p.
Qed.

Lemma getu4_cut p u x r :
  getu4 (p +:+ u) = Some (x, r) ->
  (exists p4, getu4 p = Some (x, p4) /\ r = p4 +:+ u)
  \/ (getu4 p = None /\ String.length r < String.length u
      /\ forall fuel, unquoteBody fuel p = Fail UnexpectedEnd).
Proof.
  intros Hg. pose proof (getu4_rest _ _ _ Hg) as Hlen. rewrite length_app_s in Hlen.
  destruct p as [|c [|e p]].
  - right. cbn [String.length] in Hlen. repeat split; [lia|]. intros fuel.
    apply unquoteBody_empty.
  - right. cbn [String.append] in Hg. unfold getu4 in Hg. destruct u as [|e u]; [done|].
    destruct (Ascii.eqb c "\" && Ascii.eqb e "u") eqn:Hce; [|done].
    apply andb_prop in Hce as [->%Ascii.eqb_eq ->%Ascii.eqb_eq].
    cbn [String.length] in Hlen |- *. repeat split; [lia|]. intros fuel.
    by destruct fuel.
  - cbn [String.append] in Hg. unfold getu4 in Hg |- *.
    destruct (Ascii.eqb c "\" && Ascii.eqb e "u") eqn:Hce; [|done].
    apply andb_prop in Hce as [->%Ascii.eqb_eq ->%Ascii.eqb_eq].
    destruct (hex4_cut _ _ _ _ Hg) as [(p3 & Hp & ->)|(Hp & Hpre & Hr)].
    + left. by exists p3.
    + right. repeat split; [done|done|]. intros fuel. destruct fuel as [|fuel]; [done|].
      cbn [unquoteBody]. cbn [Ascii.eqb Bool.eqb dquote andb orb]. by rewrite Hp, Hpre.
Qed.

Lemma escape_rest fuel u x r :
  unquoteBody fuel (String "\" u) = Ok x r -> String.length r < String.length u.
Proof.
  intros Hs. destruct fuel as [|fuel]; [done|]. cbn [unquoteBody] in Hs.
  cbn [Ascii.eqb Bool.eqb dquote andb orb] in Hs.
  destruct u as [|e s]; [done|]. cbn [String.length].
  repeat case_match; try done;
    apply mapOk_rest in Hs as [y Hy%unquoteBody_rest];
    repeat match goal with
           | H : hex4 _ = Some _ |- _ => apply hex4_rest in H
           | H : getu4 _ = Some _ |- _ => apply getu4_rest in H
           end; lia.
Qed.

Lemma getu4_escape_rest fuel s x s4 y r :
  getu4 s = Some (x, s4) -> unquoteBody fuel s = Ok y r ->
  String.length r < String.length s4.
Proof.
  unfold getu4. destruct s as [|c [|e s]]; try done.
  destruct (Ascii.eqb c "\" && Ascii.eqb e "u") eqn:Hce; [|done].
  apply andb_prop in Hce as [->%Ascii.eqb_eq ->%Ascii.eqb_eq].
  intros Hhex Hs. destruct fuel as [|fuel]; [done|]. cbn [unquoteBody] in Hs.
  cbn [Ascii.eqb Bool.eqb dquote andb orb] in Hs. rewrite Hhex in Hs.
  repeat case_match; try done;
    apply mapOk_rest in Hs as [z Hz%unquoteBody_rest];
    repeat match goal with
           | H : getu4 _ = Some _ |- _ => apply getu4_rest in H
           end; lia.
Qed.

(** A string literal read from a text that is cut short: cut after the
    literal, it is read the same; cut inside it, the text ends before the
    literal does. *)
Lemma unquoteBody_cut fuel :
  forall p u x r fuel',
    unquoteBody fuel (p +:+ u) = Ok x r -> String.length p <= fuel' ->
    (String.length u <= String.length r ->
     exists p0, r = p0 +:+ u /\ unquoteBody fuel' p = Ok x p0)
    /\ (String.length r < String.length u -> unquoteBody fuel' p = Fail UnexpectedEnd).
Proof.
  induction fuel as [|fuel IH]; intros p u x r fuel' Hs Hfuel.
  { by destruct (p +:+ u). }
  destruct p as [|c p].
  { pose proof (unquoteBody_rest _ _ _ _ Hs) as Hr. cbn in Hr. split; [lia|].
    intros _. apply unquoteBody_empty. }
  cbn [String.length] in Hfuel. destruct fuel' as [|fuel']; [lia|].
  assert (Hrec : forall (f : string -> string) p1 x1 r1,
             mapOk f (unquoteBody fuel (p1 +:+ u)) = Ok x1 r1 ->
             String.length p1 <= fuel' ->
             (String.length u <= String.length r1 ->
              exists p0, r1 = p0 +:+ u /\ mapOk f (unquoteBody fuel' p1) = Ok x1 p0)
             /\ (String.length r1 < String.length u ->
                 mapOk f (unquoteBody fuel' p1) = Fail UnexpectedEnd)).
  { intros f p1 x1 r1 H1 Hl1. apply (mapOk_app _ _ _ _ u) in H1 as (y & Hy & ->).
    destruct (IH _ _ _ _ fuel' Hy Hl1) as [Ha Hb]. split.
    - intros Hle. destruct (Ha Hle) as (p0 & -> & Hp0). exists p0. by rewrite Hp0.
    - intros Hlt. by rewrite (Hb Hlt). }
  cbn [String.append] in Hs.
  destruct (N.ltb_spec (byteval c) 128) as [Hc|Hc].
  - (* an ASCII byte *)
    assert (E : (byteval c <? 128)%N = true) by (by apply N.ltb_lt).
    destruct (Ascii.eqb_spec c dquote) as [->|Hq].
    { cbn in Hs. injection Hs as <- <-. split.
      - intros _. by exists p.
      - rewrite length_app_s. lia. }
    destruct (Ascii.eqb_spec c "\") as [->|Hb].
    { destruct p as [|e p].
      - cbn [String.append] in Hs. apply escape_rest in Hs. split; [lia|]. intros _. done.
      - cbn [String.append unquoteBody] in Hs |- *.
        cbn [Ascii.eqb Bool.eqb dquote andb orb] in Hs |- *.
        cbn [String.length] in Hfuel.
        destruct (Ascii.eqb e dquote || Ascii.eqb e "\" || Ascii.eqb e "/");
          [apply Hrec; [done|lia]|].
        destruct (Ascii.eqb e "b"); [apply Hrec; [done|lia]|].
        destruct (Ascii.eqb e "f"); [apply Hrec; [done|lia]|].
        destruct (Ascii.eqb e "n"); [apply Hrec; [done|lia]|].
        destruct (Ascii.eqb e "r"); [apply Hrec; [done|lia]|].
        destruct (Ascii.eqb e "t"); [apply Hrec; [done|lia]|].
        destruct (Ascii.eqb e "u"); [|done].
        destruct (hex4 (p +:+ u)) as [[rr s3]|] eqn:Hhex; [|done].
        destruct (hex4_cut _ _ _ _ Hhex) as [(p3 & Hp3 & ->)|(Hp3 & Hpre & Hr3)].
        + rewrite Hp3. pose proof (hex4_rest _ _ _ Hp3) as Hl3.
          destruct (isSurrogate rr); [|apply Hrec; [done|lia]].
          destruct (getu4 (p3 +:+ u)) as [[rr1 s4]|] eqn:Hg.
          * destruct (getu4_cut _ _ _ _ Hg) as [(p4 & Hp4 & ->)|(Hp4 & Hr4 & Hend)].
            -- rewrite Hp4. pose proof (getu4_rest _ _ _ Hp4) as Hl4.
               destruct (negb (utf16DecodeRune rr rr1 =? utf8.RuneError)%N);
                 apply Hrec; (done || lia).
            -- rewrite Hp4, Hend. cbn [mapOk bind].
               assert (String.length r < String.length u); [|split; [lia|done]].
               destruct (negb (utf16DecodeRune rr rr1 =? utf8.RuneError)%N);
                 apply mapOk_rest in Hs as [z Hz].
               ++ apply unquoteBody_rest in Hz. lia.
               ++ pose proof (getu4_escape_rest _ _ _ _ _ _ Hg Hz). lia.
          * assert (Hp4 : getu4 p3 = None).
            { destruct (getu4 p3) as [[rr1 p4]|] eqn:Hp4; [|done].
              by rewrite (getu4_app _ _ _ u Hp4) in Hg. }
            rewrite Hp4. apply Hrec; [done|lia].
        + rewrite Hp3, Hpre.
          assert (String.length r < String.length u); [|split; [lia|done]].
          destruct (isSurrogate rr).
          * destruct (getu4 s3) as [[rr1 s4]|] eqn:Hg.
            -- pose proof (getu4_rest _ _ _ Hg) as Hl4.
               destruct (negb (utf16DecodeRune rr rr1 =? utf8.RuneError)%N);
                 apply mapOk_rest in Hs as [y Hy%unquoteBody_rest]; lia.
            -- apply mapOk_rest in Hs as [y Hy%unquoteBody_rest]. lia.
          * apply mapOk_rest in Hs as [y Hy%unquoteBody_rest]. lia. }
    cbn [unquoteBody] in Hs |- *. rewrite E in *.
    apply Ascii.eqb_neq in Hq, Hb. rewrite Hq, Hb in *.
    destruct (byteval c <? 32)%N; [done|]. apply Hrec; [done|lia].
  - (* a byte outside ASCII *)
    rewrite nonascii_plain in Hs |- * by done.
    destruct (utf8.DecodeRune (String c (p +:+ u))) as [rr size] eqn:Hdec.
    pose proof Hs as Hs'. apply mapOk_rest in Hs' as [y Hy]. apply unquoteBody_rest in Hy.
    destruct (DecodeRune_spec c _ rr size Hc Hdec)
      as [[-> ->]|(Hsize & Hrr & Hl & [t' Ht'] & Hpre)].
    + (* the byte starts no sequence in the whole text, nor in the part *)
      cbn [dropBytes] in Hs, Hy.
      destruct (utf8.DecodeRune (String c p)) as [rr2 size2] eqn:Hdec2.
      destruct (DecodeRune_spec c _ rr2 size2 Hc Hdec2)
        as [[-> ->]|(Hsize2 & Hrr2 & Hl2 & [t2 Ht2] & Hpre2)].
      * cbn [dropBytes]. apply Hrec; [done|lia].
      * exfalso. change (String c (p +:+ u)) with (String c p +:+ u) in Hdec.
        rewrite Ht2, app_assoc_s, Hpre2 in Hdec. injection Hdec as _ Hsz. lia.
    + change (String c (p +:+ u)) with (String c p +:+ u) in Ht', Hs, Hy.
      rewrite Ht', <- Hl, dropBytes_app in Hs, Hy.
      destruct (le_lt_dec (String.length (utf8.EncodeRune rr)) (String.length (String c p)))
        as [Hle|Hlt].
      * (* the sequence is whole in the part *)
        destruct (app_split_le _ _ _ _ (eq_sym Ht') Hle) as (p2 & Hp & ->).
        rewrite Hp, Hpre, <- Hl, dropBytes_app.
        apply Hrec; [done|]. apply (f_equal String.length) in Hp.
        rewrite length_app_s in Hp. cbn [String.length] in Hp. lia.
      * (* the part ends inside the sequence *)
        pose proof (DecodeRune_allHigh c (p +:+ u) rr size Hc Hdec) as Hall.
        change (String c (p +:+ u)) with (String c p +:+ u) in Hall.
        rewrite Ht', <- Hl, takeBytes_app in Hall.
        destruct (app_split_lt _ _ _ _ (eq_sym Ht') Hlt) as (w & Hw & -> & Hlw).
        assert (Hhigh : allHigh (String c p) = true).
        { rewrite Hw, allHigh_app in Hall. by apply andb_prop in Hall as [? _]. }
        destruct (utf8.DecodeRune (String c p)) as [rr2 size2].
        rewrite (unquoteBody_allHigh_end fuel' _ (allHigh_dropBytes size2 _ Hhigh)).
        split; [rewrite length_app_s; lia|done].
Qed.

Lemma unquote_cut p u x r :
  unquote (p +:+ u) = Ok x r ->
  (String.length u <= String.length r -> exists p0, r = p0 +:+ u /\ unquote p = Ok x p0)
  /\ (String.length r < String.length u -> unquote p = Fail UnexpectedEnd).
Proof. unfold unquote. intros Hs. by apply (unquoteBody_cut _ _ _ _ _ _ Hs). Qed.

Lemma spanDigits_eq s ds r : spanDigits s = (ds, r) -> s = ds +:+ r.
Proof.
  revert ds r. induction s as [|c s IH]; intros ds r; cbn [spanDigits].
  - by intros [= <- <-].
  - destruct (isDigit c); [|by intros [= <- <-]].
    destruct (spanDigits s) as [ds' r']. intros [= <- <-]. cbn. by rewrite (IH _ _ eq_refl).
Qed.

Lemma spanDigits_cut p u ds r :
  spanDigits (p +:+ u) = (ds, r) ->
  (String.length u <= String.length r ->
   exists p0, r = p0 +:+ u /\ spanDigits p = (ds, p0))
  /\ (String.length r < String.length u -> spanDigits p = (p, "")).
Proof.
  revert ds r. induction p as [|c p IH]; intros ds r Hs.
  - cbn [String.append] in Hs. pose proof (spanDigits_eq _ _ _ Hs) as Heq.
    split; [|done]. intros Hle. exists "". cbn.
    apply (f_equal String.length) in Heq as Hl. rewrite length_app_s in Hl.
    destruct ds; [|cbn in Hl; lia]. cbn in Heq. by subst.
  - cbn [String.append spanDigits] in Hs |- *. destruct (isDigit c).
    + destruct (spanDigits (p +:+ u)) as [ds' r'] eqn:Hp. injection Hs as <- <-.
      destruct (IH _ _ eq_refl) as [Ha Hb]. split.
      * intros Hle. destruct (Ha Hle) as (p0 & -> & ->). by exists p0.
      * intros Hlt. by rewrite (Hb Hlt).
    + injection Hs as <- <-. split.
      * intros _. by exists (String c p).
      * cbn [String.length]. rewrite length_app_s. lia.
Qed.

Lemma digits1_cut p u ds r :
  digits1 (p +:+ u) = Ok ds r ->
  (String.length u <= String.length r -> exists p0, r = p0 +:+ u /\ digits1 p = Ok ds p0)
  /\ (String.length r < String.length u ->
      digits1 p = Fail UnexpectedEnd \/ exists ds', digits1 p = Ok ds' "").
Proof.
  intros Hs. destruct p as [|c p].
  - cbn [String.append] in Hs. split; [|by left].
    unfold digits1 in Hs. destruct u as [|c u]; [done|]. destruct (isDigit c) eqn:Hc; [|done].
    cbn [spanDigits] in Hs. rewrite Hc in Hs.
    destruct (spanDigits u) as [ds' r'] eqn:Hu. injection Hs as <- <-.
    apply spanDigits_rest in Hu. cbn [String.length]. lia.
  - cbn [String.append] in Hs. unfold digits1 in Hs |- *.
    destruct (isDigit c) eqn:Hc; [|done].
    change (String c (p +:+ u)) with (String c p +:+ u) in Hs.
    destruct (spanDigits (String c p +:+ u)) as [ds' r'] eqn:Hp. injection Hs as <- <-.
    destruct (spanDigits_cut _ _ _ _ Hp) as [Ha Hb]. split.
    + intros Hle. destruct (Ha Hle) as (p0 & -> & ->). by exists p0.
    + intros Hlt. right. rewrite (Hb Hlt). by eexists.
Qed.

Lemma digits1_rest_lt s ds r : digits1 s = Ok ds r -> String.length r < String.length s.
Proof.
  unfold digits1. destruct s as [|c s]; [done|]. destruct (isDigit c) eqn:Hc; [|done].
  cbn [spanDigits]. rewrite Hc. destruct (spanDigits s) as [ds' r'] eqn:Hs.
  intros [= <- <-]. apply spanDigits_rest in Hs. cbn. lia.
Qed.

Lemma scanInt_cut p u i r :
  scanInt (p +:+ u) = Ok i r ->
  (String.length u <= String.length r -> exists p0, r = p0 +:+ u /\ scanInt p = Ok i p0)
  /\ (String.length r < String.length u ->
      scanInt p = Fail UnexpectedEnd \/ exists i', scanInt p = Ok i' "").
Proof.
  intros Hs. destruct p as [|c p].
  - cbn [String.append] in Hs. apply scanInt_rest in Hs. split; [lia|by left].
  - cbn [String.append] in Hs. unfold scanInt in Hs |- *.
    destruct (Ascii.eqb c "0").
    { injection Hs as <- <-. split.
      - intros _. by exists p.
      - rewrite length_app_s. lia. }
    destruct (inRange "1" "9" c); [|done].
    destruct (spanDigits (p +:+ u)) as [ds' r'] eqn:Hp. injection Hs as <- <-.
    destruct (spanDigits_cut _ _ _ _ Hp) as [Ha Hb]. split.
    + intros Hle. destruct (Ha Hle) as (p0 & -> & ->). by exists p0.
    + intros Hlt. right. rewrite (Hb Hlt). by eexists.
Qed.

Lemma scanFrac_cut p u f r :
  scanFrac (p +:+ u) = Ok f r ->
  (String.length u <= String.length r -> exists p0, r = p0 +:+ u /\ scanFrac p = Ok f p0)
  /\ (String.length r < String.length u ->
      scanFrac p = Fail UnexpectedEnd \/ exists f', scanFrac p = Ok f' "").
Proof.
  intros Hs. destruct p as [|c p].
  - cbn [String.append] in Hs. split; [|right; by eexists].
    intros Hle. exists "". cbn. unfold scanFrac in Hs. destruct u as [|c u].
    { by injection Hs as <- <-. }
    destruct (Ascii.eqb c "."); [|by injection Hs as <- <-].
    apply mapOk_rest in Hs as [y Hy%digits1_rest]. cbn [String.length] in Hle. lia.
  - cbn [String.append] in Hs. unfold scanFrac in Hs |- *.
    destruct (Ascii.eqb c ".").
    + apply (mapOk_app _ _ _ _ u) in Hs as (y & Hy & ->).
      destruct (digits1_cut _ _ _ _ Hy) as [Ha Hb]. split.
      * intros Hle. destruct (Ha Hle) as (p0 & -> & ->). by exists p0.
      * intros Hlt. destruct (Hb Hlt) as [->|[ds' ->]]; [by left|right; by eexists].
    + injection Hs as <- <-. split.
      * intros _. by exists (String c p).
      * cbn [String.length]. rewrite length_app_s. lia.
Qed.

Lemma scanExp_cut p u e r :
  scanExp (p +:+ u) = Ok e r ->
  (String.length u <= String.length r -> exists p0, r = p0 +:+ u /\ scanExp p = Ok e p0)
  /\ (String.length r < String.length u ->
      scanExp p = Fail UnexpectedEnd \/ exists e', scanExp p = Ok e' "").
Proof.
  intros Hs. destruct p as [|c p].
  - cbn [String.append] in Hs. split; [|right; by eexists].
    intros Hle. exists "". cbn. unfold scanExp in Hs. destruct u as [|c u].
    { by injection Hs as <- <-. }
    destruct (Ascii.eqb c "e" || Ascii.eqb c "E"); [|by injection Hs as <- <-].
    destruct u as [|g u]; [done|]. cbn [String.length] in Hle.
    destruct (Ascii.eqb g "+" || Ascii.eqb g "-");
      apply mapOk_rest in Hs as [y Hy%digits1_rest]; cbn [String.length] in Hy; lia.
  - cbn [String.append] in Hs. unfold scanExp in Hs |- *.
    destruct (Ascii.eqb c "e" || Ascii.eqb c "E").
    2:{ injection Hs as <- <-. split.
        - intros _. by exists (String c p).
        - cbn [String.length]. rewrite length_app_s. lia. }
    destruct p as [|g p].
    { cbn [String.append] in Hs. split; [|by left]. intros Hle.
      destruct u as [|g u]; [done|]. cbn [String.length] in Hle.
      destruct (Ascii.eqb g "+" || Ascii.eqb g "-").
      - apply mapOk_rest in Hs as [y Hy%digits1_rest]. lia.
      - apply mapOk_rest in Hs as [y Hy%digits1_rest_lt]. cbn [String.length] in Hy. lia. }
    cbn [String.append] in Hs.
    destruct (Ascii.eqb g "+" || Ascii.eqb g "-").
    + apply (mapOk_app _ _ _ _ u) in Hs as (y & Hy & ->).
      destruct (digits1_cut _ _ _ _ Hy) as [Ha Hb]. split.
      * intros Hle. destruct (Ha Hle) as (p0 & -> & ->). by exists p0.
      * intros Hlt. destruct (Hb Hlt) as [->|[ds' ->]]; [by left|right; by eexists].
    + change (String g (p +:+ u)) with (String g p +:+ u) in Hs.
      apply (mapOk_app _ _ _ _ u) in Hs as (y & Hy & ->).
      destruct (digits1_cut _ _ _ _ Hy) as [Ha Hb]. split.
      * intros Hle. destruct (Ha Hle) as (p0 & -> & ->). by exists p0.
      * intros Hlt. destruct (Hb Hlt) as [->|[ds' ->]]; [by left|right; by eexists].
Qed.

Lemma scanNumber_parts s :
  scanNumber s
  = match s with
    | String c t => if Ascii.eqb c "-" then numberParts "-" t else numberParts "" s
    | EmptyString => numberParts "" s
    end.
Proof.
  unfold scanNumber, numberParts. destruct s as [|c t]; [done|].
  by destruct (Ascii.eqb c "-").
Qed.

Lemma numberParts_cut sign p u lit r :
  numberParts sign (p +:+ u) = Ok lit r ->
  (String.length u <= String.length r ->
   exists p0, r = p0 +:+ u /\ numberParts sign p = Ok lit p0)
  /\ (String.length r < String.length u ->
      numberParts sign p = Fail UnexpectedEnd \/ exists lit', numberParts sign p = Ok lit' "").
Proof.
  unfold numberParts. intros Hs.
  apply bind_Ok in Hs as (i & r1 & Hi & Hs).
  apply bind_Ok in Hs as (f & r2 & Hf & Hs).
  apply bind_Ok in Hs as (e & r3 & He & Hs). injection Hs as <- <-.
  pose proof (scanFrac_rest _ _ _ Hf) as Hl2. pose proof (scanExp_rest _ _ _ He) as Hl3.
  destruct (scanInt_cut _ _ _ _ Hi) as [Hia Hib].
  destruct (le_lt_dec (String.length u) (String.length r1)) as [Hle1|Hlt1].
  2:{ split; [lia|]. intros _.
      destruct (Hib Hlt1) as [->|[i' ->]]; [by left|right]. cbn. by eexists. }
  destruct (Hia Hle1) as (q1 & -> & ->). cbn [bind].
  destruct (scanFrac_cut _ _ _ _ Hf) as [Hfa Hfb].
  destruct (le_lt_dec (String.length u) (String.length r2)) as [Hle2|Hlt2].
  2:{ split; [lia|]. intros _.
      destruct (Hfb Hlt2) as [->|[f' ->]]; [by left|right]. cbn. by eexists. }
  destruct (Hfa Hle2) as (q2 & -> & ->). cbn [bind].
  destruct (scanExp_cut _ _ _ _ He) as [Hea Heb]. split.
  - intros Hle. destruct (Hea Hle) as (q3 & -> & ->). by exists q3.
  - intros Hlt. destruct (Heb Hlt) as [->|[e' ->]]; [by left|right]. cbn. by eexists.
Qed.

(** A number read from a text that is cut short: cut after the number,
    it is read the same; cut inside it, the text ends too early or holds a
    shorter number. *)
Lemma scanNumber_cut p u lit r :
  scanNumber (p +:+ u) = Ok lit r ->
  (String.length u <= String.length r ->
   exists p0, r = p0 +:+ u /\ scanNumber p = Ok lit p0)
  /\ (String.length r < String.length u ->
      scanNumber p = Fail UnexpectedEnd \/ exists lit', scanNumber p = Ok lit' "").
Proof.
  intros Hs. pose proof (scanNumber_rest _ _ _ Hs) as Hl.
  rewrite scanNumber_parts in Hs. rewrite (scanNumber_parts p).
  destruct p as [|c p].
  - cbn [String.append String.length] in *. split; [lia|]. intros _. by left.
  - cbn [String.append] in Hs. destruct (Ascii.eqb c "-").
    + by apply numberParts_cut.
    + change (String c (p +:+ u)) with (String c p +:+ u) in Hs. by apply numberParts_cut.
Qed.

Lemma expect_cut kw : forall p u x r,
  expect kw (p +:+ u) = Ok x r ->
  (String.length u <= String.length r -> exists p0, r = p0 +:+ u /\ expect kw p = Ok x p0)
  /\ (String.length r < String.length u -> expect kw p = Fail UnexpectedEnd).
Proof.
  induction kw as [|k kw IH]; intros p u x r; cbn [expect].
  - intros [= <- <-]. split.
    + intros _. by exists p.
    + rewrite length_app_s. lia.
  - destruct p as [|c p].
    + cbn [String.append]. intros Hs. split; [|done]. intros Hle.
      destruct u as [|c u]; [done|]. destruct (Ascii.eqb c k); [|done].
      apply expect_rest in Hs. cbn [String.length] in Hle. lia.
    + cbn [String.append]. destruct (Ascii.eqb c k); [apply IH|done].
Qed.

Lemma skipSpace_cut p u :
  (skipSpace p = "" /\ skipSpace (p +:+ u) = skipSpace u)
  \/ (exists c p0, skipSpace p = String c p0
                   /\ skipSpace (p +:+ u) = String c (p0 +:+ u)).
Proof.
  induction p as [|a p IH]; [by left|]. cbn [skipSpace String.append].
  destruct (isSpace a); [exact IH|]. right. by exists a, p.
Qed.

Lemma cutAs_mapOk {A B} (f : A -> B) (whole part : scan A) u :
  cutAs whole part u -> cutAs (mapOk f whole) (mapOk f part) u.
Proof.
  intros Hcut x r Hs. destruct whole as [|y r']; [done|]. cbn in Hs. injection Hs as <- <-.
  destruct (Hcut y r' eq_refl) as [Ha Hb]. split.
  - intros Hle. destruct (Ha Hle) as (p0 & -> & ->). by exists p0.
  - intros Hlt. by rewrite (Hb Hlt).
Qed.

(** The end of a text after white space is the end of the text. *)
Lemma cutAs_blank {A} (whole : scan A) (s u : string) :
  (forall x r, whole = Ok x r -> String.length r < String.length s) ->
  String.length s <= String.length u ->
  cutAs whole (Fail UnexpectedEnd) u.
Proof.
  intros Hrest Hs x r Hw. apply Hrest in Hw. split; [lia|done].
Qed.

Lemma reader_cut fuel :
  forall d p u,
    (forall v r, readValue fuel d (p +:+ u) = Ok v r ->
       (String.length u <= String.length r ->
        exists p0, r = p0 +:+ u /\ readValue fuel d p = Ok v p0)
       /\ (String.length r < String.length u ->
           readValue fuel d p = Fail UnexpectedEnd
           \/ (closed v = false /\ exists lit', readValue fuel d p = Ok (Number lit') "")))
    /\ cutAs (readMembers fuel d (p +:+ u)) (readMembers fuel d p) u
    /\ cutAs (readElems fuel d (p +:+ u)) (readElems fuel d p) u.
Proof.
  induction fuel as [|fuel IH]; intros d p u; [done|].
  assert (IHv : forall d p v r,
             readValue fuel d (p +:+ u) = Ok v r ->
             (String.length u <= String.length r ->
              exists p0, r = p0 +:+ u /\ readValue fuel d p = Ok v p0)
             /\ (String.length r < String.length u ->
                 readValue fuel d p = Fail UnexpectedEnd
                 \/ (exists lit', readValue fuel d p = Ok (Number lit') ""))).
  { intros d' p' v r Hv. destruct (proj1 (IH d' p' u) v r Hv) as [Ha Hb]. split; [done|].
    intros Hlt. destruct (Hb Hlt) as [?|[_ ?]]; auto. }
  assert (IHm : forall d p, cutAs (readMembers fuel d (p +:+ u)) (readMembers fuel d p) u).
  { intros d' p'. apply IH. }
  assert (IHe : forall d p, cutAs (readElems fuel d (p +:+ u)) (readElems fuel d p) u).
  { intros d' p'. apply IH. }
  (* reading on after white space *)
  assert (IHm' : forall d q,
             cutAs (readMembers fuel d (skipSpace (q +:+ u)))
               (readMembers fuel d (skipSpace q)) u).
  { intros d' q. destruct (skipSpace_cut q u) as [[-> ->]|(c & q0 & -> & ->)].
    - rewrite readMembers_empty. apply (cutAs_blank _ (skipSpace u)).
      + intros x r Hx. by apply (reader_rest fuel d' (skipSpace u)) in Hx.
      + apply skipSpace_length.
    - apply (IHm d' (String c q0)). }
  assert (IHe' : forall d q,
             cutAs (readElems fuel d (skipSpace (q +:+ u)))
               (readElems fuel d (skipSpace q)) u).
  { intros d' q. destruct (skipSpace_cut q u) as [[-> ->]|(c & q0 & -> & ->)].
    - rewrite readElems_empty. apply (cutAs_blank _ (skipSpace u)).
      + intros x r Hx. by apply (reader_rest fuel d' (skipSpace u)) in Hx.
      + apply skipSpace_length.
    - apply (IHe d' (String c q0)). }
  split; [|split].
  - (* readValue *)
    intros v r Hs. destruct p as [|c p].
    { cbn [String.append] in Hs. apply (reader_rest (S fuel) d u) in Hs.
      split; [lia|]. intros _. by left. }
    cbn [String.append readValue] in Hs |- *.
    destruct (Ascii.eqb c "{").
    { destruct (maxNestingDepth <? d + 1)%N; [done|].
      destruct (skipSpace_cut p u) as [[Hp Hu]|(c' & q0 & Hp & Hu)]; rewrite Hp, Hu in *.
      - assert (String.length r < String.length u); [|split; [lia|by left]].
        pose proof (skipSpace_length u) as Hlu.
        destruct (skipSpace u) as [|c' r0]; [done|]. cbn [String.length] in Hlu.
        destruct (Ascii.eqb c' "}"); [injection Hs as <- <-; lia|].
        apply mapOk_rest in Hs as [y Hy]. apply (reader_rest fuel) in Hy.
        cbn [String.length] in Hy. lia.
      - destruct (Ascii.eqb c' "}").
        { injection Hs as <- <-. split; [intros _; by exists q0|].
          rewrite length_app_s. lia. }
        destruct (cutAs_mapOk Object _ _ _ (IHm (d + 1)%N (String c' q0)) v r Hs)
          as [Ha Hb].
        split; [done|]. intros Hlt. left. by apply Hb. }
    destruct (Ascii.eqb c "[").
    { destruct (maxNestingDepth <? d + 1)%N; [done|].
      destruct (skipSpace_cut p u) as [[Hp Hu]|(c' & q0 & Hp & Hu)]; rewrite Hp, Hu in *.
      - assert (String.length r < String.length u); [|split; [lia|by left]].
        pose proof (skipSpace_length u) as Hlu.
        destruct (skipSpace u) as [|c' r0]; [done|]. cbn [String.length] in Hlu.
        destruct (Ascii.eqb c' "]"); [injection Hs as <- <-; lia|].
        apply mapOk_rest in Hs as [y Hy]. apply (reader_rest fuel) in Hy.
        cbn [String.length] in Hy. lia.
      - destruct (Ascii.eqb c' "]").
        { injection Hs as <- <-. split; [intros _; by exists q0|].
          rewrite length_app_s. lia. }
        destruct (cutAs_mapOk Array _ _ _ (IHe (d + 1)%N (String c' q0)) v r Hs)
          as [Ha Hb].
        split; [done|]. intros Hlt. left. by apply Hb. }
    destruct (Ascii.eqb c dquote).
    { destruct (cutAs_mapOk Str _ _ u (unquote_cut p u) v r Hs) as [Ha Hb].
      split; [done|]. intros Hlt. left. by apply Hb. }
    destruct (Ascii.eqb c "t").
    { destruct (cutAs_mapOk (fun _ => Bool true) _ _ u (expect_cut "rue" p u) v r Hs)
        as [Ha Hb].
      split; [done|]. intros Hlt. left. by apply Hb. }
    destruct (Ascii.eqb c "f").
    { destruct (cutAs_mapOk (fun _ => Bool false) _ _ u (expect_cut "alse" p u) v r Hs)
        as [Ha Hb].
      split; [done|]. intros Hlt. left. by apply Hb. }
    destruct (Ascii.eqb c "n").
    { destruct (cutAs_mapOk (fun _ => Null) _ _ u (expect_cut "ull" p u) v r Hs)
        as [Ha Hb].
      split; [done|]. intros Hlt. left. by apply Hb. }
    destruct (Ascii.eqb c "-" || isDigit c); [|done].
    change (String c (p +:+ u)) with (String c p +:+ u) in Hs.
    apply (mapOk_app _ _ _ _ u) in Hs as (lit & Hlit & ->).
    destruct (scanNumber_cut _ _ _ _ Hlit) as [Ha Hb]. split.
    + intros Hle. destruct (Ha Hle) as (p0 & -> & ->). by exists p0.
    + intros Hlt. destruct (Hb Hlt) as [->|[lit' ->]]; [by left|right].
      split; [done|]. by eexists.
  - (* readMembers *)
    intros m r Hs. destruct p as [|c p].
    { cbn [String.append] in Hs. apply (reader_rest (S fuel) d u) in Hs.
      split; [lia|done]. }
    cbn [String.append readMembers] in Hs |- *.
    destruct (negb (Ascii.eqb c dquote)); [done|].
    apply bind_Ok in Hs as (key & r0 & Hkey & Hs).
    pose proof (unquote_rest _ _ _ Hkey) as Hl0.
    pose proof (skipSpace_length r0) as Hls0.
    destruct (skipSpace r0) as [|colon r1] eqn:Hsp0; [done|]. cbn [String.length] in Hls0.
    destruct (negb (Ascii.eqb colon ":")) eqn:Hcolon; [done|].
    apply bind_Ok in Hs as (v & r2 & Hv & Hs).
    pose proof (skipSpace_length r1) as Hls1.
    pose proof (proj1 (reader_rest fuel d (skipSpace r1)) _ _ Hv) as Hl2.
    pose proof (skipSpace_length r2) as Hls2.
    destruct (skipSpace r2) as [|c2 r3] eqn:Hsp2; [done|]. cbn [String.length] in Hls2.
    assert (Hlr : String.length r <= String.length r3).
    { destruct (Ascii.eqb c2 ",").
      - apply mapOk_rest in Hs as [y Hy]. apply (reader_rest fuel) in Hy.
        pose proof (skipSpace_length r3). lia.
      - destruct (Ascii.eqb c2 "}"); [|done]. injection Hs as <- <-. lia. }
    destruct (unquote_cut _ _ _ _ Hkey) as [Hka Hkb].
    destruct (le_lt_dec (String.length u) (String.length r0)) as [Hle0|Hlt0].
    2:{ split; [lia|]. intros _. by rewrite (Hkb Hlt0). }
    destruct (Hka Hle0) as (q0 & -> & ->). cbn [bind].
    destruct (skipSpace_cut q0 u) as [[Hq0 Hu0]|(c0 & q1 & Hq0 & Hu0)];
      rewrite Hq0; rewrite Hu0 in Hsp0.
    { split; [|done]. pose proof (skipSpace_length u) as Hlu. rewrite Hsp0 in Hlu.
      cbn [String.length] in Hlu. lia. }
    injection Hsp0 as -> <-. rewrite Hcolon.
    destruct (skipSpace_cut q1 u) as [[Hq1 Hu1]|(c1 & q1' & Hq1 & Hu1)];
      rewrite Hq1; rewrite Hu1 in Hv, Hl2.
    { rewrite readValue_empty. cbn [bind]. split; [|done].
      pose proof (skipSpace_length u). lia. }
    change (String c1 (q1' +:+ u)) with (String c1 q1' +:+ u) in Hv.
    destruct (IHv _ _ _ _ Hv) as [Hva Hvb].
    destruct (le_lt_dec (String.length u) (String.length r2)) as [Hle2|Hlt2].
    2:{ split; [lia|]. intros _.
        destruct (Hvb Hlt2) as [->|[lit' ->]]; [done|]. cbn [bind skipSpace]. done. }
    destruct (Hva Hle2) as (q2 & -> & ->). cbn [bind].
    destruct (skipSpace_cut q2 u) as [[Hq2 Hu2]|(c2' & q3 & Hq2 & Hu2)];
      rewrite Hq2; rewrite Hu2 in Hsp2.
    { split; [|done]. pose proof (skipSpace_length u) as Hlu. rewrite Hsp2 in Hlu.
      cbn [String.length] in Hlu. lia. }
    injection Hsp2 as -> <-.
    destruct (Ascii.eqb c2 ",").
    + apply (cutAs_mapOk (cons (key, v)) _ _ u (IHm' d q3) m r Hs).
    + destruct (Ascii.eqb c2 "}"); [|done]. injection Hs as <- <-. split.
      * intros _. by exists q3.
      * rewrite length_app_s. lia.
  - (* readElems *)
    intros l r Hs. cbn [readElems] in Hs |- *.
    apply bind_Ok in Hs as (v & r0 & Hv & Hs).
    pose proof (skipSpace_length r0) as Hls0.
    destruct (skipSpace r0) as [|c1 r1] eqn:Hsp0; [done|]. cbn [String.length] in Hls0.
    assert (Hlr : String.length r <= String.length r1).
    { destruct (Ascii.eqb c1 ",").
      - apply mapOk_rest in Hs as [y Hy]. apply (reader_rest fuel) in Hy.
        pose proof (skipSpace_length r1). lia.
      - destruct (Ascii.eqb c1 "]"); [|done]. injection Hs as <- <-. lia. }
    destruct (IHv _ _ _ _ Hv) as [Hva Hvb].
    destruct (le_lt_dec (String.length u) (String.length r0)) as [Hle0|Hlt0].
    2:{ split; [lia|]. intros _.
        destruct (Hvb Hlt0) as [->|[lit' ->]]; [done|]. cbn [bind skipSpace]. done. }
    destruct (Hva Hle0) as (q0 & -> & ->). cbn [bind].
    destruct (skipSpace_cut q0 u) as [[Hq0 Hu0]|(c0 & q1 & Hq0 & Hu0)];
      rewrite Hq0; rewrite Hu0 in Hsp0.
    { split; [|done]. pose proof (skipSpace_length u) as Hlu. rewrite Hsp0 in Hlu.
      cbn [String.length] in Hlu. lia. }
    injection Hsp0 as -> <-.
    destruct (Ascii.eqb c1 ",").
    + apply (cutAs_mapOk (cons v) _ _ u (IHe' d q1) l r Hs).
    + destruct (Ascii.eqb c1 "]"); [|done]. injection Hs as <- <-. split.
      * intros _. by exists q1.
      * rewrite length_app_s. lia.
Qed.

(** X19: a body that is cut short inside its first JSON value, an object,
    an array, a string or a literal, is never taken for an answer: [Decode]
    returns [io.ErrUnexpectedEOF], or [io.EOF] when nothing but white space
    is left, and the target as it was.  Cut behind its first value, the
    body decodes as the whole body does. *)
Theorem Decode_truncated_body {T} `{Unmarshaler T} (body : string) (v : value)
    (rest part cut : string) (target : T) :
  scanValue body = Ok v rest -> closed v = true -> body = part +:+ cut ->
  (String.length rest < String.length cut ->
   Decode {| Body := part |} target
   = (target, Some (match skipSpace part with
                    | EmptyString => EOF
                    | _ => ErrUnexpectedEOF
                    end)))
  /\ (String.length cut <= String.length rest ->
      Decode {| Body := part |} target = Decode {| Body := body |} target).
Proof.
  intros Hs Hclosed ->. unfold scanValue in Hs.
  assert (Hfuel : forall c p0, skipSpace part = String c p0 ->
            readValue (S (2 * String.length part)) 0 (String c p0)
            = readValue (S (2 * String.length (part +:+ cut))) 0 (String c p0)).
  { intros c p0 Hp. pose proof (skipSpace_length part) as Hl. rewrite Hp in Hl.
    apply reader_fuel; [rewrite length_app_s|]; lia. }
  destruct (skipSpace_cut part cut) as [[Hp Hu]|(c & p0 & Hp & Hu)]; rewrite Hu in Hs.
  - pose proof (skipSpace_length cut) as Hl.
    apply reader_rest in Hs as Hr. split; [|lia]. intros _.
    rewrite (Decode_Fail _ _ _ (scanValue_blank _ Hp)). by rewrite Hp.
  - change (String c (p0 +:+ cut)) with (String c p0 +:+ cut) in Hs.
    destruct (proj1 (reader_cut _ _ _ _) _ _ Hs) as [Ha Hb]. split.
    + intros Hlt. destruct (Hb Hlt) as [Hfail|[Hopen _]]; [|congruence].
      assert (Hscan : scanValue part = Fail UnexpectedEnd).
      { unfold scanValue. by rewrite Hp, (Hfuel _ _ Hp). }
      by rewrite (Decode_Fail _ _ _ Hscan).
    + intros Hle. destruct (Ha Hle) as (q0 & -> & Hq0).
      unfold Decode, DecoderDecode, scanValue. cbn [Body].
      rewrite Hp, (Hfuel _ _ Hp), Hq0, Hu.
      change (String c (p0 +:+ cut)) with (String c p0 +:+ cut). by rewrite Hs.
Qed.

Lemma Decode_truncated_body_witness :
  let body := dq "{'success':true,'errors':[],'messages':[],'result':{'id':'xyz789'}}" in
  let part := dq "{'success':true,'errors':[],'messages':[],'result':{'id':'xyz" in
  Decode {| Body := part |} DNSRecord.empty = (DNSRecord.empty, Some ErrUnexpectedEOF).
Proof.
  intros body part.
  refine (proj1 (Decode_truncated_body body
                   (Object [("success", Bool true); ("errors", Array []);
                            ("messages", Array []);
                            ("result", Object [("id", Str "xyz789")])])
                   "" part (dq "789'}}") DNSRecord.empty _ eq_refl _) _).
  - vm_compute. reflexivity.
  - vm_compute. reflexivity.
  - cbn. lia.
Defined.
